(** * Comment threads, audit log, authentication gate and team invitations

    A shallow embedding of the request handlers of the backend
    (commentController.js, utils/logger.js, middleware/auth.js and
    teamController.js) over an explicit model of the relational store,
    followed by the properties of the specification that concern them.

    Handlers are written in a state-and-exception monad over [world]: the
    tables of the store, the auto-increment counters, the wall clock, the
    console and a trace of the store operations that were issued.

    What the model takes from the platform rather than from the repository:
    - a handler is a function of the store it starts on: a result about a
      handler is about a request handled without another request running
      between its store calls, and the one place where two requests are
      interleaved says so;
    - JSON numbers are integers; how a string is read as an integer, by
      [parseInt] or by the store, how a number is written as a string and
      which strings a column of a given width takes are parameters
      ([Platform]);
    - a string is the UTF-8 encoding of the JavaScript string, so that the
      validators count characters, not bytes;
    - the ORM applies [where], [include] and the [order] of the query
      itself; it drops the [order] written inside an include that is
      joined into the same statement, and the joined rows come in an
      order that the store chooses ([Platform]);
    - the store enforces the foreign keys of [comments] and [logs] into
      [users] and the foreign key [parentId] with ON DELETE CASCADE, as the
      models and the association declare them, and the unique index of
      [team_members];
    - a statement the store does not refuse is carried out; the one outage
      that is modelled is that of the log table ([logDown]);
    - a row keeps the columns the handlers read; names, e-mail addresses and
      other columns are left out. *)

From Stdlib Require Import ZArith List String Ascii Bool Lia.
From Stdlib Require Import Permutation Sorted.
Import ListNotations.

Open Scope string_scope.
Open Scope Z_scope.

(** ** JavaScript values that reach the handlers

    A field of a JSON body is absent ([JUndefined]), [null], a number or a
    string; numbers are restricted to integers. *)

Inductive jsval : Type :=
| JUndefined
| JNull
| JNum (n : Z)
| JStr (s : string).

(** [!!v] *)
Definition truthy (v : jsval) : bool :=
  match v with
  | JUndefined | JNull => false
  | JNum n => negb (n =? 0)
  | JStr s => negb (s =? EmptyString)%string
  end.

(** [a === b] *)
Definition strict_eq (a b : jsval) : bool :=
  match a, b with
  | JUndefined, JUndefined => true
  | JNull, JNull => true
  | JNum x, JNum y => x =? y
  | JStr x, JStr y => (x =? y)%string
  | _, _ => false
  end.

(** [arr.includes(v)] for an array of string literals *)
Definition includes (arr : list string) (v : jsval) : bool :=
  existsb (fun s => strict_eq (JStr s) v) arr.

(** [a || b] on values *)
Definition js_or (a b : jsval) : jsval := if truthy a then a else b.

(** ** Rows of the tables *)

Record user : Type := mkUser {
  u_id : Z;
  u_role : string;
  u_isActive : bool
}.

Record comment_row : Type := mkComment {
  c_id : Z;
  c_entityType : string;
  c_entityId : Z;
  c_userId : Z;
  c_comment : string;
  c_parentId : option Z;
  c_createdAt : Z
}.

(** Before/after snapshots and descriptions the comment handlers log. *)
Inductive snapshot : Type :=
| SnapLinkage (entityType : string) (entityId : Z) (parentId : option Z)
| SnapBody (body : jsval)
| SnapDeleted (id : Z) (entityType : string) (entityId : Z) (body : string)
              (repliesCount : nat).

Inductive description : Type :=
| DescCreated (entityType entityId : jsval) (isReply : bool)
| DescUpdated (entityType : string) (entityId : Z)
| DescDeleted (entityType : string) (entityId : Z) (repliesCount : nat).

Record log : Type := mkLog {
  l_id : Z;
  l_action : string;
  l_description : description;
  l_entityType : string;
  l_entityId : Z;
  l_oldValue : option snapshot;
  l_newValue : option snapshot;
  l_performedBy : Z;
  l_ipAddress : option string;
  l_userAgent : option string;
  l_timestamp : Z
}.

Record team : Type := mkTeam {
  t_id : Z;
  t_managerId : Z
}.

Record team_member : Type := mkTeamMember {
  tm_teamId : Z;
  tm_userId : Z;
  tm_role : jsval
}.

Inductive inv_status : Type := Pending | Accepted | Declined | Cancelled.

Record team_invitation : Type := mkInvitation {
  i_id : Z;
  i_teamId : Z;
  i_userId : Z;
  i_invitedBy : Z;
  i_role : jsval;
  i_message : jsval;
  i_status : inv_status
}.

(** ** What the platform provides

    Builtins and libraries the handlers call but the repository does not
    define: JavaScript's [parseInt] ([None] is [NaN]), the integer the store
    reads from a string that is compared with or written to an INTEGER
    column, [jwt.verify] with the server's secret, which yields the
    [id] of the decoded payload or throws, [String(n)] for a number, the
    text the store keeps when a number is written to a TEXT column, and
    whether the store takes a string in a column declared with a width
    (some stores refuse a longer string, some do not look at the width),
    and the order in which the store returns the rows of a join that no
    ORDER BY of the statement orders: the same rows, in an order of the
    store's choosing. *)

Inductive error : Type :=
| ValidationError      (* a model validator rejected the row *)
| StoreUnavailable     (* the write could not be carried out *)
| QueryError           (* the store rejected the statement *)
| TypeError            (* a property of undefined was read *)
| TokenExpiredError    (* thrown by jwt.verify *)
| JsonWebTokenError    (* thrown by jwt.verify *)
| OtherError.          (* anything else jwt.verify throws *)

Class Platform : Type := {
  parseInt : string -> option Z;
  sqlInt : string -> option Z;
  jwt_verify : string -> Z + error;
  jsString : Z -> string;
  sqlText : Z -> string;
  fits : nat -> string -> bool;
  join_order : list comment_row -> list comment_row;
  join_order_perm : forall l, Permutation (join_order l) l
}.

(** The integer an INTEGER column takes from a JavaScript value. *)
Definition to_int `{Platform} (v : jsval) : option Z :=
  match v with
  | JNum n => Some n
  | JStr s => sqlInt s
  | JUndefined | JNull => None
  end.

(** ** The store and the rest of the world a handler acts on *)

Inductive table : Type :=
| TProject | TDocument | TTask | TMeeting | TUser | TComment | TLog
| TTeam | TTeamMember | TTeamInvitation.

(** One entry per statement sent to the store. *)
Inductive event : Type :=
| Select (t : table)
| Insert (t : table)
| Update (t : table)
| Delete (t : table).

Inductive handler_name : Type :=
| HCreateLog | HCreateComment | HGetEntityComments | HUpdateComment
| HDeleteComment | HProtect | HSendInvitation | HRespondToInvitation
| HCancelInvitation.

(** [console.error] lines: who reported which error. *)
Definition console_line : Type := (handler_name * error)%type.

Record world : Type := mkWorld {
  projects : list Z;          (* primary keys of the rows *)
  documents : list Z;
  tasks : list Z;
  meetings : list Z;
  users : list user;
  comments : list comment_row;
  logs : list log;
  teams : list team;
  teamMembers : list team_member;
  invitations : list team_invitation;
  nextCommentId : Z;          (* AUTO_INCREMENT counters *)
  nextLogId : Z;
  nextInvitationId : Z;
  now : Z;                    (* wall clock *)
  logDown : bool;             (* the log table cannot be written *)
  console : list console_line;
  trace : list event
}.

Definition set_comments (cs : list comment_row) (n : Z) (w : world) : world :=
  mkWorld (projects w) (documents w) (tasks w) (meetings w) (users w) cs
          (logs w) (teams w) (teamMembers w) (invitations w) n (nextLogId w)
          (nextInvitationId w) (now w) (logDown w) (console w) (trace w).

Definition set_logs (ls : list log) (n : Z) (w : world) : world :=
  mkWorld (projects w) (documents w) (tasks w) (meetings w) (users w)
          (comments w) ls (teams w) (teamMembers w) (invitations w)
          (nextCommentId w) n (nextInvitationId w) (now w) (logDown w)
          (console w) (trace w).

Definition set_teamMembers (ms : list team_member) (w : world) : world :=
  mkWorld (projects w) (documents w) (tasks w) (meetings w) (users w)
          (comments w) (logs w) (teams w) ms (invitations w)
          (nextCommentId w) (nextLogId w) (nextInvitationId w) (now w)
          (logDown w) (console w) (trace w).

Definition set_invitations (ivs : list team_invitation) (n : Z) (w : world)
  : world :=
  mkWorld (projects w) (documents w) (tasks w) (meetings w) (users w)
          (comments w) (logs w) (teams w) (teamMembers w) ivs
          (nextCommentId w) (nextLogId w) n (now w) (logDown w) (console w)
          (trace w).

Definition push_console (l : console_line) (w : world) : world :=
  mkWorld (projects w) (documents w) (tasks w) (meetings w) (users w)
          (comments w) (logs w) (teams w) (teamMembers w) (invitations w)
          (nextCommentId w) (nextLogId w) (nextInvitationId w) (now w)
          (logDown w) (console w ++ [l]) (trace w).

Definition push_trace (e : event) (w : world) : world :=
  mkWorld (projects w) (documents w) (tasks w) (meetings w) (users w)
          (comments w) (logs w) (teams w) (teamMembers w) (invitations w)
          (nextCommentId w) (nextLogId w) (nextInvitationId w) (now w)
          (logDown w) (console w) (trace w ++ [e]).

Definition set_logDown (b : bool) (w : world) : world :=
  mkWorld (projects w) (documents w) (tasks w) (meetings w) (users w)
          (comments w) (logs w) (teams w) (teamMembers w) (invitations w)
          (nextCommentId w) (nextLogId w) (nextInvitationId w) (now w)
          b (console w) (trace w).

(** ** The monad of a handler: state, and exceptions that [try]/[catch]
    can intercept *)

Inductive outcome (A : Type) : Type :=
| Ok (a : A)
| Thrown (e : error).
Arguments Ok {A} a.
Arguments Thrown {A} e.

Definition M (A : Type) : Type := world -> outcome A * world.

Definition ret {A} (a : A) : M A := fun w => (Ok a, w).

Definition bind {A B} (m : M A) (k : A -> M B) : M B :=
  fun w => match m w with
           | (Ok a, w') => k a w'
           | (Thrown e, w') => (Thrown e, w')
           end.

Definition throw {A} (e : error) : M A := fun w => (Thrown e, w).

Definition try_catch {A} (m : M A) (h : error -> M A) : M A :=
  fun w => match m w with
           | (Ok a, w') => (Ok a, w')
           | (Thrown e, w') => h e w'
           end.

Definition gets {A} (f : world -> A) : M A := fun w => (Ok (f w), w).
Definition modify (f : world -> world) : M unit := fun w => (Ok tt, f w).
Definition issue (e : event) : M unit := modify (push_trace e).
Definition console_error (h : handler_name) (e : error) : M unit :=
  modify (push_console (h, e)).

Notation "x <- m ;; k" := (bind m (fun x => k))
  (at level 61, m at next level, right associativity).
Notation "m ;;; k" := (bind m (fun _ => k))
  (at level 61, right associativity).

(** ** Requests and responses *)

(** An Express request: the Authorization header, the addresses [createLog]
    looks at, the User-Agent header, [req.user] once [protect] has set it,
    the JSON body and the route parameters (always strings). *)
Record request : Type := mkRequest {
  authorization : option string;
  req_ip : option string;
  connection_remoteAddress : option string;
  socket_remoteAddress : option string;
  connection_socket_remoteAddress : option string;
  user_agent : option string;
  req_user : option user;
  body : string -> jsval;
  params : string -> string
}.

Definition with_user (u : user) (r : request) : request :=
  mkRequest (authorization r) (req_ip r) (connection_remoteAddress r)
            (socket_remoteAddress r) (connection_socket_remoteAddress r)
            (user_agent r) (Some u) (body r) (params r).

(** An object literal read by key; a missing key is [undefined]. *)
Fixpoint obj (fields : list (string * jsval)) (k : string) : jsval :=
  match fields with
  | [] => JUndefined
  | (k', v) :: rest => if (k =? k')%string then v else obj rest k
  end.

(** The [message] of every response the modelled handlers send. *)
Inductive msg : Type :=
(* createComment *)
| MsgFieldsRequired | MsgEntityTypeMustBe | MsgEntityNotFound
| MsgParentNotFound | MsgParentOnOtherEntity | MsgCommentCreated
| MsgCreateCommentError
(* getEntityComments *)
| MsgNone | MsgListCommentsError
(* updateComment *)
| MsgCommentRequired | MsgCommentNotFound | MsgNotAllowedToModify
| MsgCommentUpdated | MsgUpdateCommentError
(* deleteComment *)
| MsgNotAllowedToDelete | MsgCommentDeleted | MsgDeleteCommentError
(* protect *)
| MsgTokenMissing | MsgUserNotFound | MsgAccountDisabled | MsgTokenExpired
| MsgTokenInvalid | MsgAuthError
(* sendInvitation, respondToInvitation, cancelInvitation *)
| MsgTeamNotFoundOrNotManager | MsgCreateTeamFirst | MsgTargetNotFound
| MsgOnlyConsultants | MsgAlreadyMember | MsgInvitationPending
| MsgInvitationSent | MsgSendInvitationError
| MsgBadResponse | MsgInvitationNotFound | MsgJoined | MsgDeclined
| MsgRespondError | MsgNoTeams | MsgInvitationCancelled | MsgCancelError.

(** A comment joined with its author's identity ([include] of [user]); the
    identity is reduced to the author's id. *)
Record comment_view : Type := mkView {
  cv_row : comment_row;
  cv_user : option Z
}.

(** A top-level comment with its eagerly loaded replies. *)
Record node : Type := mkNode {
  n_row : comment_row;
  n_user : option Z;
  n_replies : list comment_view
}.

Inductive payload : Type :=
| NoData
| FieldErrors (entityType entityId comment : bool)  (* true: reported missing *)
| CommentData (c : option comment_view)
| CommentList (comments : list node) (total : nat) (topLevel : nat)
| InvitationData (i : option team_invitation).

Record response : Type := mkResponse {
  status : Z;
  success : bool;
  message : msg;
  data : payload
}.

(** The error kinds of the specification, read off a response: the status
    code decides, and the message tells the kinds that share status 400
    apart.  A 2xx response has no kind. *)
Inductive kind : Type :=
| Unauthorized | Forbidden | NotFound | InvalidEntityType | InvalidReference
| ValidationFailed | Conflict | Internal.

Definition kind_of (r : response) : option kind :=
  if status r =? 401 then Some Unauthorized
  else if status r =? 403 then Some Forbidden
  else if status r =? 404 then Some NotFound
  else if status r =? 400 then
    match message r with
    | MsgEntityTypeMustBe => Some InvalidEntityType
    | MsgParentOnOtherEntity => Some InvalidReference
    | MsgInvitationPending | MsgAlreadyMember => Some Conflict
    | _ => Some ValidationFailed
    end
  else if status r =? 500 then Some Internal
  else None.

(** ** Validators shared by the models

    Sequelize's [notEmpty] is [!str.match(/^[\s\t\r\n]*$/)] and its [len]
    is [isLength] of validator.js.  A string is read as UTF-8. *)

(** The white space of JavaScript's [\s] that takes one byte: tab, line
    feed, vertical tab, form feed, carriage return and space. *)
Definition is_space (a : ascii) : bool :=
  existsb (Ascii.eqb a)
    ["009"%char; "010"%char; "011"%char; "012"%char; "013"%char; " "%char].

(** U+00A0, in two bytes. *)
Definition is_space2 (a b : ascii) : bool :=
  (nat_of_ascii a =? 194)%nat && (nat_of_ascii b =? 160)%nat.

(** U+1680, U+2000 to U+200A, U+2028, U+2029, U+202F, U+205F, U+3000 and
    U+FEFF, in three bytes. *)
Definition is_space3 (a b c : ascii) : bool :=
  let x := nat_of_ascii a in
  let y := nat_of_ascii b in
  let z := nat_of_ascii c in
  ((x =? 225) && (y =? 154) && (z =? 128)
   || (x =? 226) && (y =? 128)
      && ((128 <=? z) && (z <=? 138) || (z =? 168) || (z =? 169) || (z =? 175))
   || (x =? 226) && (y =? 129) && (z =? 159)
   || (x =? 227) && (y =? 128) && (z =? 128)
   || (x =? 239) && (y =? 187) && (z =? 191))%nat.

(** The string matches [/^\s*$/]: it is made of white space only. *)
Fixpoint blank (s : string) : bool :=
  match s with
  | EmptyString => true
  | String a rest =>
      if is_space a then blank rest
      else
        match rest with
        | String b rest2 =>
            if is_space2 a b then blank rest2
            else
              match rest2 with
              | String c rest3 => is_space3 a b c && blank rest3
              | EmptyString => false
              end
        | EmptyString => false
        end
  end.

Definition notEmpty (s : string) : bool := negb (blank s).

(** A byte that continues a character begun by an earlier byte. *)
Definition continuation (a : ascii) : bool :=
  (128 <=? nat_of_ascii a)%nat && (nat_of_ascii a <? 192)%nat.

(** The bytes [a] and then [rest] start with a variation selector, U+FE0E
    or U+FE0F. *)
Definition selector (a : ascii) (rest : string) : bool :=
  match rest with
  | String b (String c _) =>
      ((nat_of_ascii a =? 239) && (nat_of_ascii b =? 184)
       && ((nat_of_ascii c =? 142) || (nat_of_ascii c =? 143)))%nat
  | _ => false
  end.

(** The length [isLength] measures: the UTF-16 length less the surrogate
    pairs and the variation selectors, that is one for every character
    that is not a variation selector. *)
Fixpoint characters (s : string) : nat :=
  match s with
  | EmptyString => O
  | String a rest =>
      ((if continuation a || selector a rest then 0 else 1)
       + characters rest)%nat
  end.

Definition len (lo hi : nat) (s : string) : bool :=
  (lo <=? characters s)%nat && (characters s <=? hi)%nat.

(** [fits] on a value that may be [null]. *)
Definition fits_opt `{Platform} (n : nat) (o : option string) : bool :=
  match o with
  | Some s => fits n s
  | None => true
  end.

Definition mem (n : Z) (l : list Z) : bool := existsb (Z.eqb n) l.

(** [a || b || ... || null] over optional strings: the first non-empty one. *)
Fixpoint first_truthy (l : list (option string)) : option string :=
  match l with
  | [] => None
  | Some s :: rest => if (s =? EmptyString)%string then first_truthy rest else Some s
  | None :: rest => first_truthy rest
  end.

(** [ORDER BY createdAt]: insertion sort on the creation time, ascending
    or descending. *)
Fixpoint insert_by (le : Z -> Z -> bool) (c : comment_row)
  (l : list comment_row) : list comment_row :=
  match l with
  | [] => [c]
  | d :: rest => if le (c_createdAt c) (c_createdAt d) then c :: l
                 else d :: insert_by le c rest
  end.

Definition order_by (le : Z -> Z -> bool) (l : list comment_row)
  : list comment_row :=
  fold_right (insert_by le) [] l.

Definition ASC : Z -> Z -> bool := Z.leb.
Definition DESC : Z -> Z -> bool := Z.geb.

(** ** The models (Sequelize) over the store

    Every call records the statement it sends in the trace before it
    answers. *)

Definition rows_select `{Platform} (rows : world -> list Z) (k : jsval)
  (w : world) : option Z :=
  match to_int k with
  | Some n => find (Z.eqb n) (rows w)
  | None => None
  end.

Definition rows_findByPk `{Platform} (t : table) (rows : world -> list Z)
  (k : jsval) : M (option Z) :=
  issue (Select t) ;;;
  gets (rows_select rows k).

Module Project.
Definition findByPk `{Platform} := rows_findByPk TProject projects.
End Project.

Module Document.
Definition findByPk `{Platform} := rows_findByPk TDocument documents.
End Document.

Module Task.
Definition findByPk `{Platform} := rows_findByPk TTask tasks.
End Task.

Module Meeting.
Definition findByPk `{Platform} := rows_findByPk TMeeting meetings.
End Meeting.

Module User.
Definition lookup (n : Z) (w : world) : option user :=
  find (fun u => u_id u =? n) (users w).

Definition select_pk `{Platform} (k : jsval) (w : world) : option user :=
  match to_int k with
  | Some n => lookup n w
  | None => None
  end.

(** [findByPk] answers [null] for a key that is [null] or [undefined]
    without asking the store. *)
Definition findByPk `{Platform} (k : jsval) : M (option user) :=
  match k with
  | JUndefined | JNull => ret None
  | _ => issue (Select TUser) ;;;
         gets (select_pk k)
  end.
End User.

Module Log.
(** The widths of the columns [action], [entityType], [ipAddress] and
    [userAgent]. *)
Definition fits_columns `{Platform} (action entityType : string)
  (ipAddress userAgent : option string) : bool :=
  fits 100 action && fits 50 entityType && fits_opt 45 ipAddress
  && fits_opt 500 userAgent.

(** [Log.create]: the validators of models/Log.js ([action] and
    [entityType] not empty, [entityId] at least 1), then the INSERT, which
    fails when the table cannot be written, when [performedBy], a foreign
    key into [users], names no user, or when a string does not fit its
    column. *)
Definition create `{Platform} (action : string) (desc : description)
  (entityType : string) (entityId : Z) (oldValue newValue : option snapshot)
  (performedBy : Z) (ipAddress userAgent : option string) : M log :=
  if notEmpty action && notEmpty entityType && (1 <=? entityId) then
    issue (Insert TLog) ;;;
    down <- gets logDown ;;
    us <- gets users ;;
    if down then throw StoreUnavailable
    else if negb (mem performedBy (map u_id us)) then throw QueryError
    else if negb (fits_columns action entityType ipAddress userAgent)
    then throw QueryError
    else
      id <- gets nextLogId ;;
      t <- gets now ;;
      let l := mkLog id action desc entityType entityId oldValue newValue
                     performedBy ipAddress userAgent t in
      modify (fun w => set_logs (logs w ++ [l]) (id + 1) w) ;;;
      ret l
  else throw ValidationError.
End Log.

Module Comment.
Definition validEntityTypes : list string :=
  ["project"; "document"; "task"; "meeting"].

Definition lookup (n : Z) (cs : list comment_row) : option comment_row :=
  find (fun c => c_id c =? n) cs.

(** The row [findByPk(k)] yields. *)
Definition select_pk `{Platform} (k : jsval) (w : world)
  : option comment_row :=
  match to_int k with
  | Some n => lookup n (comments w)
  | None => None
  end.

Definition findByPk `{Platform} (k : jsval) : M (option comment_row) :=
  issue (Select TComment) ;;;
  gets (select_pk k).

(** [include: [{ model: User, as: 'user' }]]: the author is joined in the
    same statement. *)
Definition view (w : world) (c : comment_row) : comment_view :=
  mkView c (option_map u_id (User.lookup (c_userId c) w)).

Definition findByPk_with_user `{Platform} (k : jsval)
  : M (option comment_view) :=
  c <- findByPk k ;;
  gets (fun w => option_map (view w) c).

(** [Comment.count({ where: { entityType, entityId } })] *)
Definition matches (t : string) (e : Z) (c : comment_row) : bool :=
  (c_entityType c =? t)%string && (c_entityId c =? e).

Definition count (t : string) (e : option Z) : M nat :=
  issue (Select TComment) ;;;
  match e with
  | Some e => gets (fun w => List.length (filter (matches t e) (comments w)))
  | None => throw QueryError
  end.

Definition isTopLevel (c : comment_row) : bool :=
  match c_parentId c with None => true | Some _ => false end.

Definition isReplyTo (p : Z) (c : comment_row) : bool :=
  match c_parentId c with Some q => q =? p | None => false end.

(** The [replies] association of one comment, each reply with its author.
    The include is joined into the statement of the query, and the
    [order: [['createdAt', 'ASC']]] written inside it is not applied: the
    replies come in the order the store returns joined rows in. *)
Definition replies `{Platform} (w : world) (p : comment_row)
  : list comment_view :=
  map (view w) (join_order (filter (isReplyTo (c_id p)) (comments w))).

(** The query of [getEntityComments]: the rows of the entity whose
    [parentId] is null, newest first, each with its author and its
    [replies].  A filter value that is not a number makes the statement
    fail. *)
Definition threads `{Platform} (t : string) (e : Z) (w : world)
  : list node :=
  map (fun c => mkNode c (cv_user (view w c)) (replies w c))
      (order_by DESC
         (filter (fun c => matches t e c && isTopLevel c) (comments w))).

Definition findAll_threads `{Platform} (t : string) (e : option Z)
  : M (list node) :=
  issue (Select TComment) ;;;
  match e with
  | Some e => gets (threads t e)
  | None => throw QueryError
  end.

(** [findByPk(id, { include: [{ model: Comment, as: 'replies' }] })] *)
Definition findByPk_with_replies `{Platform} (k : jsval)
  : M (option (comment_row * list comment_row)) :=
  c <- findByPk k ;;
  gets (fun w =>
    option_map (fun c => (c, filter (isReplyTo (c_id c)) (comments w))) c).

(** The validators of the model: [entityType] in the enumeration,
    [entityId] an integer that is at least 1, [comment] not blank and of 1
    to 5000 characters. *)
Definition validBody (b : string) : bool := notEmpty b && len 1 5000 b.

(** The string the validators of [comment] are run on, [String(value)];
    [null] and [undefined] are refused before ([allowNull: false]). *)
Definition validated_text `{Platform} (v : jsval) : option string :=
  match v with
  | JStr s => Some s
  | JNum n => Some (jsString n)
  | JUndefined | JNull => None
  end.

(** The text the TEXT column keeps for the value. *)
Definition stored_text `{Platform} (v : jsval) : string :=
  match v with
  | JStr s => s
  | JNum n => sqlText n
  | JUndefined | JNull => EmptyString
  end.

Definition references (ids : list Z) (c : comment_row) : bool :=
  match c_parentId c with
  | Some p => mem p ids
  | None => false
  end.

(** [Comment.create]: validation, then the INSERT.  [userId] is a foreign
    key into [users] and [parentId] one into the same table: the store
    refuses a value that names no row.  [createdAt] is the time of the
    call ([timestamps: true]). *)
Definition create `{Platform} (entityType entityId : jsval) (userId : Z)
  (comment : jsval) (parentId : jsval) : M comment_row :=
  match entityType, to_int entityId, validated_text comment with
  | JStr t, Some e, Some b =>
      if existsb (String.eqb t) validEntityTypes && (1 <=? e) && validBody b
      then
        issue (Insert TComment) ;;;
        cs <- gets comments ;;
        us <- gets users ;;
        (if mem userId (map u_id us) then ret tt else throw QueryError) ;;;
        p <- match parentId with
             | JNull | JUndefined => ret None
             | v => match to_int v with
                    | Some p => if mem p (map c_id cs) then ret (Some p)
                                else throw QueryError
                    | None => throw QueryError
                    end
             end ;;
        id <- gets nextCommentId ;;
        t' <- gets now ;;
        let c := mkComment id t e userId (stored_text comment) p t' in
        modify (set_comments (cs ++ [c]) (id + 1)) ;;;
        ret c
      else throw ValidationError
  | _, _, _ => throw ValidationError
  end.

(** [instance.update({ comment })]: validation, then the UPDATE of the
    row with the instance's primary key. *)
Definition with_body (b : string) (c : comment_row) : comment_row :=
  mkComment (c_id c) (c_entityType c) (c_entityId c) (c_userId c) b
            (c_parentId c) (c_createdAt c).

(** The table after [UPDATE ... SET comment = b WHERE id = ...]. *)
Definition set_body (id : Z) (b : string) (cs : list comment_row)
  : list comment_row :=
  map (fun d => if c_id d =? id then with_body b d else d) cs.

Definition update `{Platform} (c : comment_row) (body : jsval)
  : M comment_row :=
  match validated_text body with
  | Some b =>
      if validBody b then
        issue (Update TComment) ;;;
        modify (fun w =>
          set_comments (set_body (c_id c) (stored_text body) (comments w))
                       (nextCommentId w) w) ;;;
        ret (with_body (stored_text body) c)
      else throw ValidationError
  | None => throw ValidationError
  end.

(** ON DELETE CASCADE on [parentId]: the rows that reference a deleted
    row are deleted in turn, round after round. *)
Fixpoint cascade (fuel : nat) (ids : list Z) (cs : list comment_row)
  : list comment_row :=
  match fuel with
  | O => cs
  | S fuel' =>
      match filter (references ids) cs with
      | [] => cs
      | kids => cascade fuel' (map c_id kids)
                        (filter (fun c => negb (references ids c)) cs)
      end
  end.

Definition without (id : Z) (cs : list comment_row) : list comment_row :=
  filter (fun c => negb (c_id c =? id)) cs.

(** The table after [DELETE ... WHERE id = ...]: the row goes, and the
    cascade runs for at most as many rounds as rows are left. *)
Definition delete_row (id : Z) (cs : list comment_row) : list comment_row :=
  let rest := without id cs in
  cascade (List.length rest) [id] rest.

(** [instance.destroy()] *)
Definition destroy (c : comment_row) : M unit :=
  issue (Delete TComment) ;;;
  modify (fun w =>
    set_comments (delete_row (c_id c) (comments w)) (nextCommentId w) w).
End Comment.

(** ** utils/logger.js *)

(** [createLog]: every failure inside the [try] is reported on the console
    and turned into [null]. *)
Definition createLog `{Platform} (action : string) (desc : description)
  (entityType : string) (entityId : Z) (oldValue newValue : option snapshot)
  (performedBy : Z) (req : request) : M (option log) :=
  try_catch
    (let ipAddress :=
       first_truthy [req_ip req; connection_remoteAddress req;
                     socket_remoteAddress req;
                     connection_socket_remoteAddress req] in
     let userAgent := first_truthy [user_agent req] in
     l <- Log.create action desc entityType entityId oldValue newValue
                     performedBy ipAddress userAgent ;;
     ret (Some l))
    (fun e => console_error HCreateLog e ;;; ret None).

(** ** controllers/commentController.js *)

Definition respond (st : Z) (ok : bool) (m : msg) (d : payload) : M response :=
  ret (mkResponse st ok m d).

(** [req.user]: reading a property of it when it is not set throws. *)
Definition current_user (req : request) : M user :=
  match req_user req with
  | Some u => ret u
  | None => throw TypeError
  end.

(** The [switch (entityType)] over the four models; no case matches
    another value and [entity] stays [undefined]. *)
Definition find_entity `{Platform} (entityType entityId : jsval)
  : M (option Z) :=
  if strict_eq entityType (JStr "project") then Project.findByPk entityId
  else if strict_eq entityType (JStr "document") then Document.findByPk entityId
  else if strict_eq entityType (JStr "task") then Task.findByPk entityId
  else if strict_eq entityType (JStr "meeting") then Meeting.findByPk entityId
  else ret None.

(** The block of [createComment] that checks [parentId] when one is given:
    the answer it returns early with, if any. *)
Definition check_parent `{Platform} (entityType entityId parentId : jsval)
  : M (option response) :=
  if truthy parentId then
    parentComment <- Comment.findByPk parentId ;;
    match parentComment with
    | None => r <- respond 404 false MsgParentNotFound NoData ;;
              ret (Some r)
    | Some pc =>
        if negb (strict_eq (JStr (c_entityType pc)) entityType)
           || negb (strict_eq (JNum (c_entityId pc)) entityId)
        then r <- respond 400 false MsgParentOnOtherEntity NoData ;;
             ret (Some r)
        else ret None
    end
  else ret None.

(** The rest of [createComment] once every check has passed: the insert,
    the audit entry, and the answer with the comment read back. *)
Definition create_and_log `{Platform} (req : request)
  (entityType entityId comment parentId : jsval) : M response :=
  u <- current_user req ;;
  newComment <- Comment.create entityType entityId (u_id u)
                               comment (js_or parentId JNull) ;;
  createLog "CREATE_COMMENT"
    (DescCreated entityType entityId (truthy parentId))
    "comment" (c_id newComment) None
    (Some (SnapLinkage (c_entityType newComment)
                       (c_entityId newComment)
                       (c_parentId newComment)))
    (u_id u) req ;;;
  createdComment <- Comment.findByPk_with_user (JNum (c_id newComment)) ;;
  respond 201 true MsgCommentCreated (CommentData createdComment).

Definition createComment `{Platform} (req : request) : M response :=
  try_catch
    (let entityType := body req "entityType" in
     let entityId := body req "entityId" in
     let comment := body req "comment" in
     let parentId := body req "parentId" in
     if negb (truthy entityType) || negb (truthy entityId)
        || negb (truthy comment)
     then respond 400 false MsgFieldsRequired
            (FieldErrors (negb (truthy entityType)) (negb (truthy entityId))
                         (negb (truthy comment)))
     else if negb (includes Comment.validEntityTypes entityType)
     then respond 400 false MsgEntityTypeMustBe NoData
     else
       entity <- find_entity entityType entityId ;;
       match entity with
       | None => respond 404 false MsgEntityNotFound NoData
       | Some _ =>
           early <- check_parent entityType entityId parentId ;;
           match early with
           | Some r => ret r
           | None => create_and_log req entityType entityId comment parentId
           end
       end)
    (fun e => console_error HCreateComment e ;;;
              respond 500 false MsgCreateCommentError NoData).

Definition getEntityComments `{Platform} (req : request) : M response :=
  try_catch
    (let entityType := params req "entityType" in
     let entityId := params req "entityId" in
     if negb (includes Comment.validEntityTypes (JStr entityType))
     then respond 400 false MsgEntityTypeMustBe NoData
     else
       entity <- find_entity (JStr entityType) (JStr entityId) ;;
       match entity with
       | None => respond 404 false MsgEntityNotFound NoData
       | Some _ =>
           comments <- Comment.findAll_threads entityType (parseInt entityId) ;;
           totalComments <- Comment.count entityType (parseInt entityId) ;;
           respond 200 true MsgNone
             (CommentList comments totalComments (List.length comments))
       end)
    (fun e => console_error HGetEntityComments e ;;;
              respond 500 false MsgListCommentsError NoData).

Definition updateComment `{Platform} (req : request) : M response :=
  try_catch
    (let id := params req "id" in
     let comment := body req "comment" in
     if negb (truthy comment)
     then respond 400 false MsgCommentRequired NoData
     else
       existingComment <- Comment.findByPk (JStr id) ;;
       match existingComment with
       | None => respond 404 false MsgCommentNotFound NoData
       | Some existing =>
           u <- current_user req ;;
           if negb (c_userId existing =? u_id u)
           then respond 403 false MsgNotAllowedToModify NoData
           else
             let oldValue := SnapBody (JStr (c_comment existing)) in
             updated <- Comment.update existing comment ;;
             (* the instance holds the value it was given *)
             let newValue := SnapBody comment in
             createLog "UPDATE_COMMENT"
               (DescUpdated (c_entityType updated) (c_entityId updated))
               "comment" (c_id updated) (Some oldValue) (Some newValue)
               (u_id u) req ;;;
             updatedComment <-
               Comment.findByPk_with_user (JNum (c_id updated)) ;;
             respond 200 true MsgCommentUpdated (CommentData updatedComment)
       end)
    (fun e => console_error HUpdateComment e ;;;
              respond 500 false MsgUpdateCommentError NoData).

Definition deleteComment `{Platform} (req : request) : M response :=
  try_catch
    (let id := params req "id" in
     found <- Comment.findByPk_with_replies (JStr id) ;;
     match found with
     | None => respond 404 false MsgCommentNotFound NoData
     | Some (comment, replies) =>
         u <- current_user req ;;
         if negb (c_userId comment =? u_id u)
            && negb (u_role u =? "admin")%string
         then respond 403 false MsgNotAllowedToDelete NoData
         else
           let repliesCount := List.length replies in
           let commentData :=
             SnapDeleted (c_id comment) (c_entityType comment)
                         (c_entityId comment) (c_comment comment)
                         repliesCount in
           createLog "DELETE_COMMENT"
             (DescDeleted (c_entityType comment) (c_entityId comment)
                          repliesCount)
             "comment" (c_id comment) (Some commentData) None (u_id u) req ;;;
           Comment.destroy comment ;;;
           respond 200 true MsgCommentDeleted NoData
     end)
    (fun e => console_error HDeleteComment e ;;;
              respond 500 false MsgDeleteCommentError NoData).

(** ** middleware/auth.js *)

(** [s.split(' ')] *)
Fixpoint split_space (s : string) : list string :=
  match s with
  | EmptyString => [EmptyString]
  | String a rest =>
      if Ascii.eqb a " "%char then EmptyString :: split_space rest
      else match split_space rest with
           | [] => [String a EmptyString]
           | part :: parts => String a part :: parts
           end
  end.

(** What a middleware does with a request: answer it, or call [next()]
    after setting [req.user]. *)
Inductive gate : Type :=
| Rejected (r : response)
| Next (u : user).

Definition reject (st : Z) (m : msg) : M gate :=
  ret (Rejected (mkResponse st false m NoData)).

(** [jwt.verify(token, process.env.JWT_SECRET)] *)
Definition verify `{Platform} (token : string) : M Z :=
  match jwt_verify token with
  | inl id => ret id
  | inr e => throw e
  end.

(** The token of [Authorization: Bearer <token>]: the second of the
    space-separated parts of the header, when the header starts with
    [Bearer]. *)
Definition bearer_token (req : request) : option string :=
  match authorization req with
  | Some h => if negb (h =? EmptyString)%string && prefix "Bearer" h
              then nth_error (split_space h) 1
              else None
  | None => None
  end.

Definition protect `{Platform} (req : request) : M gate :=
  try_catch
    (let token := bearer_token req in
     match first_truthy [token] with
     | None => reject 401 MsgTokenMissing
     | Some token =>
         try_catch
           (decoded_id <- verify token ;;
            user <- User.findByPk (JNum decoded_id) ;;
            match user with
            | None => reject 401 MsgUserNotFound
            | Some user =>
                if negb (u_isActive user)
                then reject 403 MsgAccountDisabled
                else ret (Next user)
            end)
           (fun error =>
              match error with
              | TokenExpiredError => reject 401 MsgTokenExpired
              | JsonWebTokenError => reject 401 MsgTokenInvalid
              | _ => throw error
              end)
     end)
    (fun e => console_error HProtect e ;;; reject 500 MsgAuthError).

(** [router.METHOD(path, protect, handler)]: the handler runs only when
    [protect] calls [next()]. *)
Definition route `{Platform} (handler : request -> M response)
  (req : request) : M response :=
  g <- protect req ;;
  match g with
  | Rejected r => ret r
  | Next u => handler (with_user u req)
  end.

(** ** The team models *)

Definition opt_eqb (k : option Z) (n : Z) : bool :=
  match k with Some m => m =? n | None => false end.

Module Team.
(** [Team.findOne({ where: { id: teamId, managerId: userId } })] *)
Definition findOne_id_manager `{Platform} (teamId : jsval) (userId : Z)
  : M (option team) :=
  issue (Select TTeam) ;;;
  gets (fun w =>
    find (fun t => opt_eqb (to_int teamId) (t_id t)
                   && (t_managerId t =? userId)) (teams w)).

(** [Team.findOne({ where: { managerId: userId } })] *)
Definition findOne_manager (userId : Z) : M (option team) :=
  issue (Select TTeam) ;;;
  gets (fun w => find (fun t => t_managerId t =? userId) (teams w)).

(** [Team.findAll({ where: { managerId: userId } })] *)
Definition findAll_manager (userId : Z) : M (list team) :=
  issue (Select TTeam) ;;;
  gets (fun w => filter (fun t => t_managerId t =? userId) (teams w)).
End Team.

Module TeamMember.
Definition is_pair (teamId : Z) (userId : option Z) (m : team_member)
  : bool :=
  (tm_teamId m =? teamId) && opt_eqb userId (tm_userId m).

(** [TeamMember.findOne({ where: { teamId, userId } })] *)
Definition findOne `{Platform} (teamId : Z) (userId : jsval)
  : M (option team_member) :=
  issue (Select TTeamMember) ;;;
  gets (fun w => find (is_pair teamId (to_int userId)) (teamMembers w)).

(** [TeamMember.create]: the unique index on (teamId, userId) refuses a
    second row for the pair. *)
Definition create (teamId userId : Z) (role : jsval) : M team_member :=
  issue (Insert TTeamMember) ;;;
  ms <- gets teamMembers ;;
  if existsb (is_pair teamId (Some userId)) ms then throw QueryError
  else
    let m := mkTeamMember teamId userId role in
    modify (set_teamMembers (ms ++ [m])) ;;;
    ret m.
End TeamMember.

Module TeamInvitation.
Definition is_pending (i : team_invitation) : bool :=
  match i_status i with Pending => true | _ => false end.

Definition is_pair (teamId : Z) (userId : option Z) (i : team_invitation)
  : bool :=
  (i_teamId i =? teamId) && opt_eqb userId (i_userId i).

(** [findOne({ where: { teamId, userId, status: 'pending' } })] *)
Definition findOne_pending `{Platform} (teamId : Z) (userId : jsval)
  : M (option team_invitation) :=
  issue (Select TTeamInvitation) ;;;
  gets (fun w =>
    find (fun i => is_pair teamId (to_int userId) i && is_pending i)
         (invitations w)).

(** [destroy({ where: { teamId, userId, status: { [Op.in]: ['declined',
    'cancelled', 'accepted'] } } })] *)
Definition purge (teamId : Z) (userId : option Z)
  (ivs : list team_invitation) : list team_invitation :=
  filter (fun i => negb (is_pair teamId userId i && negb (is_pending i))) ivs.

Definition destroy_resolved `{Platform} (teamId : Z) (userId : jsval)
  : M unit :=
  issue (Delete TTeamInvitation) ;;;
  modify (fun w =>
    set_invitations (purge teamId (to_int userId) (invitations w))
                    (nextInvitationId w) w).

(** [TeamInvitation.create({ ..., status: 'pending' })]; [userId] has to
    be an integer. *)
Definition create `{Platform} (teamId : Z) (userId : jsval) (invitedBy : Z)
  (role message : jsval) : M team_invitation :=
  match to_int userId with
  | Some n =>
      issue (Insert TTeamInvitation) ;;;
      id <- gets nextInvitationId ;;
      let i := mkInvitation id teamId n invitedBy role message Pending in
      modify (fun w => set_invitations (invitations w ++ [i]) (id + 1) w) ;;;
      ret i
  | None => throw ValidationError
  end.

Definition findByPk (id : Z) : M (option team_invitation) :=
  issue (Select TTeamInvitation) ;;;
  gets (fun w => find (fun i => i_id i =? id) (invitations w)).

(** [findOne({ where: { id: invitationId, userId, status: 'pending' } })] *)
Definition findOne_pending_for `{Platform} (invitationId : string)
  (userId : Z) : M (option team_invitation) :=
  issue (Select TTeamInvitation) ;;;
  gets (fun w =>
    find (fun i => opt_eqb (sqlInt invitationId) (i_id i)
                   && (i_userId i =? userId) && is_pending i)
         (invitations w)).

(** [findOne({ where: { id: invitationId, teamId: { [Op.in]: teamIds },
    status: 'pending' } })] *)
Definition findOne_pending_in `{Platform} (invitationId : string)
  (teamIds : list Z) : M (option team_invitation) :=
  issue (Select TTeamInvitation) ;;;
  gets (fun w =>
    find (fun i => opt_eqb (sqlInt invitationId) (i_id i)
                   && mem (i_teamId i) teamIds && is_pending i)
         (invitations w)).

Definition with_status (s : inv_status) (i : team_invitation)
  : team_invitation :=
  mkInvitation (i_id i) (i_teamId i) (i_userId i) (i_invitedBy i)
               (i_role i) (i_message i) s.

(** [instance.update({ status })] *)
Definition set_status (id : Z) (s : inv_status)
  (ivs : list team_invitation) : list team_invitation :=
  map (fun j => if i_id j =? id then with_status s j else j) ivs.

Definition update_status (i : team_invitation) (s : inv_status)
  : M team_invitation :=
  issue (Update TTeamInvitation) ;;;
  modify (fun w =>
    set_invitations (set_status (i_id i) s (invitations w))
                    (nextInvitationId w) w) ;;;
  ret (with_status s i).
End TeamInvitation.

(** ** controllers/teamController.js: the invitation workflow *)

(** The block of [sendInvitation] that finds the team: the one named by
    [teamId] if the caller manages it, else the first team the caller
    manages; or the answer it returns early with. *)
Definition resolve_team `{Platform} (teamId : jsval) (userId : Z)
  : M (response + team) :=
  if truthy teamId then
    team <- Team.findOne_id_manager teamId userId ;;
    match team with
    | None => r <- respond 404 false MsgTeamNotFoundOrNotManager NoData ;;
              ret (inl r)
    | Some team => ret (inr team)
    end
  else
    team <- Team.findOne_manager userId ;;
    match team with
    | None => r <- respond 400 false MsgCreateTeamFirst NoData ;;
              ret (inl r)
    | Some team => ret (inr team)
    end.

Definition sendInvitation `{Platform} (req : request) : M response :=
  try_catch
    (u <- current_user req ;;
     let userId := u_id u in
     let targetUserId := body req "targetUserId" in
     let role := body req "role" in
     let message := body req "message" in
     let teamId := body req "teamId" in
     resolved <- resolve_team teamId userId ;;
     match resolved with
     | inl r => ret r
     | inr team =>
         targetUser <- User.findByPk targetUserId ;;
         match targetUser with
         | None => respond 404 false MsgTargetNotFound NoData
         | Some targetUser =>
             if negb (u_role targetUser =? "consultant")%string
             then respond 400 false MsgOnlyConsultants NoData
             else
               existingMember <- TeamMember.findOne (t_id team) targetUserId ;;
               match existingMember with
               | Some _ => respond 400 false MsgAlreadyMember NoData
               | None =>
                   existingPendingInvitation <-
                     TeamInvitation.findOne_pending (t_id team) targetUserId ;;
                   match existingPendingInvitation with
                   | Some _ => respond 400 false MsgInvitationPending NoData
                   | None =>
                       TeamInvitation.destroy_resolved (t_id team)
                                                       targetUserId ;;;
                       invitation <-
                         TeamInvitation.create (t_id team) targetUserId userId
                           (js_or role (JStr "member")) message ;;
                       createdInvitation <-
                         TeamInvitation.findByPk (i_id invitation) ;;
                       respond 201 true MsgInvitationSent
                               (InvitationData createdInvitation)
                   end
               end
         end
     end)
    (fun e => console_error HSendInvitation e ;;;
              respond 500 false MsgSendInvitationError NoData).

Definition respondToInvitation `{Platform} (req : request) : M response :=
  try_catch
    (u <- current_user req ;;
     let userId := u_id u in
     let invitationId := params req "invitationId" in
     let response := body req "response" in
     if negb (includes ["accepted"; "declined"] response)
     then respond 400 false MsgBadResponse NoData
     else
       invitation <- TeamInvitation.findOne_pending_for invitationId userId ;;
       match invitation with
       | None => respond 404 false MsgInvitationNotFound NoData
       | Some invitation =>
           let accepted := strict_eq response (JStr "accepted") in
           invitation <-
             TeamInvitation.update_status invitation
               (if accepted then Accepted else Declined) ;;
           (if accepted
            then TeamMember.create (i_teamId invitation) userId
                                   (i_role invitation) ;;; ret tt
            else ret tt) ;;;
           respond 200 true (if accepted then MsgJoined else MsgDeclined)
                   (InvitationData (Some invitation))
       end)
    (fun e => console_error HRespondToInvitation e ;;;
              respond 500 false MsgRespondError NoData).

Definition cancelInvitation `{Platform} (req : request) : M response :=
  try_catch
    (u <- current_user req ;;
     let userId := u_id u in
     let invitationId := params req "invitationId" in
     teams <- Team.findAll_manager userId ;;
     match teams with
     | [] => respond 404 false MsgNoTeams NoData
     | _ =>
         let teamIds := map t_id teams in
         invitation <- TeamInvitation.findOne_pending_in invitationId teamIds ;;
         match invitation with
         | None => respond 404 false MsgInvitationNotFound NoData
         | Some invitation =>
             TeamInvitation.update_status invitation Cancelled ;;;
             respond 200 true MsgInvitationCancelled NoData
         end
     end)
    (fun e => console_error HCancelInvitation e ;;;
              respond 500 false MsgCancelError NoData).

(** *** [sendInvitation] around its pending check

    Every [await] of a handler is a point at which another request may
    run.  The two parts of [sendInvitation] on either side of the [await]
    that follows its pending check: the checks, which end with the answer
    the handler returns early with or with the team it goes on with, and
    the statements that purge and insert.  Both run inside the [try] of
    the handler. *)






(** ** A concrete platform and small worlds, for evaluating the handlers *)

Definition digit_of (a : ascii) : option Z :=
  let n := Z.of_nat (nat_of_ascii a) in
  if (48 <=? n) && (n <=? 57) then Some (n - 48) else None.

Fixpoint decimal_from (acc : Z) (s : string) : option Z :=
  match s with
  | EmptyString => Some acc
  | String a rest => match digit_of a with
                     | Some d => decimal_from (10 * acc + d) rest
                     | None => None
                     end
  end.

(** A non-empty string of decimal digits denotes its value. *)
Definition decimal (s : string) : option Z :=
  match s with
  | EmptyString => None
  | _ => decimal_from 0 s
  end.

(** The decimal digits of a natural number, most significant first. *)
Fixpoint digits_from (fuel : nat) (n : Z) (acc : string) : string :=
  let acc' := String (ascii_of_nat (Z.to_nat (48 + n mod 10))) acc in
  match fuel with
  | O => acc'
  | S fuel' => if n <? 10 then acc' else digits_from fuel' (n / 10) acc'
  end.

Definition numeral (n : Z) : string :=
  if n <? 0
  then String "-" (digits_from (Z.to_nat (Z.log2 (- n))) (- n) EmptyString)
  else digits_from (Z.to_nat (Z.log2 n)) n EmptyString.

(** A platform on which a numeral is read as its value by both [parseInt]
    and the store, a number is written as its numeral, a column takes the
    strings that are not longer than its width, joined rows come in the
    order of the table, and a token is the decimal id of the user it was
    issued to; the token [expired] has expired and any other is
    malformed. *)
Definition demo : Platform := {|
  parseInt := decimal;
  sqlInt := decimal;
  jwt_verify := fun token =>
    match decimal token with
    | Some id => inl id
    | None => if (token =? "expired")%string then inr TokenExpiredError
              else inr JsonWebTokenError
    end;
  jsString := numeral;
  sqlText := numeral;
  fits := fun n s => (characters s <=? n)%nat;
  join_order := fun l => l;
  join_order_perm := fun l => Permutation_refl l
|}.

Definition empty_world : world :=
  mkWorld [] [] [] [] [] [] [] [] [] [] 1 1 1 0 false [] [].

Definition alice : user := mkUser 7 "consultant" true.
Definition bob : user := mkUser 3 "consultant" true.
Definition carol : user := mkUser 9 "admin" true.
Definition dave : user := mkUser 4 "consultant" false.
Definition erin : user := mkUser 5 "project_manager" true.

Definition nice_work : comment_row :=
  mkComment 1 "project" 1 7 "nice work" None 10.
Definition thanks : comment_row :=
  mkComment 2 "project" 1 3 "thanks" (Some 1) 20.

(** Project 1 with a comment by alice and bob's reply to it. *)
Definition thread_world : world :=
  mkWorld [1] [] [2] [] [alice; bob; carol; dave; erin] [nice_work; thanks]
          [] [mkTeam 1 5] [] [] 3 1 1 30 false [] [].

(** ** Properties of stores and of answers, used to state the results *)

(** The primary key of the comment table. *)
Definition pk_unique (cs : list comment_row) : Prop := NoDup (map c_id cs).

(** Every id in use lies below the auto-increment counter. *)
Definition ids_below (n : Z) (cs : list comment_row) : Prop :=
  forall c, In c cs -> c_id c < n.

(** Reply linkage: a comment with a parent has that parent in the table, on
    the same entity. *)
Definition reply_linked (cs : list comment_row) : Prop :=
  forall c p, In c cs -> c_parentId c = Some p ->
    exists d, In d cs /\ c_id d = p
              /\ c_entityType d = c_entityType c
              /\ c_entityId d = c_entityId c.

Definition store_ok (w : world) : Prop :=
  pk_unique (comments w)
  /\ ids_below (nextCommentId w) (comments w)
  /\ reply_linked (comments w).

(** The value a create call stores in the [parentId] column for the
    argument [parent], in a table [cs]. *)
Definition parent_column `{Platform} (parent : jsval) (cs : list comment_row)
  (p : option Z) : Prop :=
  match parent with
  | JNull | JUndefined => p = None
  | v => exists q, to_int v = Some q /\ mem q (map c_id cs) = true
                   /\ p = Some q
  end.

(** The checks of [createComment] that come before the parent is looked
    at: the three required fields, the entity type, the entity. *)
Definition passes_early_checks `{Platform} (req : request) (w : world)
  : Prop :=
  truthy (body req "entityType") = true
  /\ truthy (body req "entityId") = true
  /\ truthy (body req "comment") = true
  /\ includes Comment.validEntityTypes (body req "entityType") = true
  /\ exists x, fst (find_entity (body req "entityType")
                                (body req "entityId") w) = Ok (Some x).

(** A row whose parent, if it has one, is a row of [cs] on the same
    entity. *)
Definition linked_to (cs : list comment_row) (c : comment_row) : Prop :=
  match c_parentId c with
  | None => True
  | Some p => exists pc, In pc cs /\ c_id pc = p
                         /\ c_entityType pc = c_entityType c
                         /\ c_entityId pc = c_entityId c
  end.

(** The (entityType, entityId) pair a create request asks for is the pair
    of the row [pc]. *)
Definition same_entity (entityType entityId : jsval) (pc : comment_row)
  : Prop :=
  entityType = JStr (c_entityType pc) /\ entityId = JNum (c_entityId pc).

Definition newest_first (l : list comment_row) : Prop :=
  StronglySorted (fun a b => c_createdAt b < c_createdAt a) l.

Definition oldest_first (l : list comment_row) : Prop :=
  StronglySorted (fun a b => c_createdAt a < c_createdAt b) l.

(** The rows a reader of the returned tree sees. *)
Definition visible (nodes : list node) : list comment_row :=
  flat_map (fun n => n_row n :: map cv_row (n_replies n)) nodes.

(** The pending invitations of a (team, user) pair. *)
Definition pending_for (t u : Z) (w : world) : list team_invitation :=
  filter (fun i => TeamInvitation.is_pair t (Some u) i
                   && TeamInvitation.is_pending i) (invitations w).


Definition single_pending (w : world) : Prop :=
  forall t u, (List.length (pending_for t u w) <= 1)%nat.

(** [w'] differs from [w] at most in the log table, its counter, the
    console and the trace. *)
Definition log_only (w w' : world) : Prop :=
  projects w' = projects w /\ documents w' = documents w
  /\ tasks w' = tasks w /\ meetings w' = meetings w
  /\ users w' = users w /\ comments w' = comments w
  /\ teams w' = teams w /\ teamMembers w' = teamMembers w
  /\ invitations w' = invitations w
  /\ nextCommentId w' = nextCommentId w
  /\ nextInvitationId w' = nextInvitationId w
  /\ now w' = now w /\ logDown w' = logDown w.

(** [w'] differs from [w] at most in the comment table, the log table, the
    log counter, the console and the trace. *)
Definition comments_and_log_only (w w' : world) : Prop :=
  projects w' = projects w /\ documents w' = documents w
  /\ tasks w' = tasks w /\ meetings w' = meetings w
  /\ users w' = users w
  /\ teams w' = teams w /\ teamMembers w' = teamMembers w
  /\ invitations w' = invitations w
  /\ nextCommentId w' = nextCommentId w
  /\ nextInvitationId w' = nextInvitationId w
  /\ now w' = now w /\ logDown w' = logDown w.

(** The entity tables and the users are the same in [w] and [w']. *)
Definition entities_kept (w w' : world) : Prop :=
  projects w' = projects w /\ documents w' = documents w
  /\ tasks w' = tasks w /\ meetings w' = meetings w
  /\ users w' = users w.

(** The rows one thread shows: a top-level comment and its replies. *)
Definition thread_rows `{Platform} (cs : list comment_row) (c0 : comment_row)
  : list comment_row :=
  c0 :: join_order (filter (Comment.isReplyTo (c_id c0)) cs).

(** The row [sendInvitation] inserts. *)
Definition new_invitation (req : request) (u : user) (team : team)
  (target : user) (w : world) : team_invitation :=
  mkInvitation (nextInvitationId w) (t_id team) (u_id target) (u_id u)
               (js_or (body req "role") (JStr "member")) (body req "message")
               Pending.

(** Requests built from object literals. *)
Definition str_params (fields : list (string * string)) (k : string)
  : string :=
  match find (fun kv => (k =? fst kv)%string) fields with
  | Some kv => snd kv
  | None => EmptyString
  end.

Definition request_of (u : option user) (b : list (string * jsval))
  (p : list (string * string)) : request :=
  mkRequest None None None None None None u (obj b) (str_params p).

(** The same, with the log table out of reach. *)
Definition down_world : world := set_logDown true thread_world.

(** Task 2 with three top-level comments, stored out of creation order,
    and two replies to the second one, the later reply stored first. *)
Definition first_note : comment_row := mkComment 11 "task" 2 7 "first" None 10.
Definition third_note : comment_row := mkComment 12 "task" 2 3 "third" None 30.
Definition second_note : comment_row :=
  mkComment 13 "task" 2 7 "second" None 20.
Definition late_reply : comment_row :=
  mkComment 14 "task" 2 7 "late" (Some 12) 50.
Definition early_reply : comment_row :=
  mkComment 15 "task" 2 3 "early" (Some 12) 40.

Definition busy_world : world :=
  mkWorld [1] [] [2] [] [alice; bob; carol; dave; erin]
          [first_note; third_note; second_note; late_reply; early_reply]
          [] [] [] [] 16 1 1 60 false [] [].

(** * Further code of the same files

    The rest of the middleware, of the models and of the team controller
    that can be written over the same store, and the notions used to state
    results about it. *)

(** ** Further notions used to state results *)

(** [s] contains a space. *)
Fixpoint has_space (s : string) : bool :=
  match s with
  | EmptyString => false
  | String a rest => Ascii.eqb a " "%char || has_space rest
  end.

(** [w'] differs from [w] at most in the console and the trace: every
    table and every counter is as it was. *)
Definition tables_kept (w w' : world) : Prop :=
  log_only w w' /\ logs w' = logs w /\ nextLogId w' = nextLogId w.

(** The answer is one of the refusals a handler sends before it writes:
    status 400, 403 or 404. *)
Definition refused (r : response) : bool :=
  (status r =? 400) || (status r =? 403) || (status r =? 404).

(** The validators of the Log model, as [Log.create] applies them. *)
Definition log_valid (action entityType : string) (entityId : Z) : bool :=
  notEmpty action && notEmpty entityType && (1 <=? entityId).

(** The row [createLog] inserts for a request, in a world. *)
Definition log_entry (action : string) (desc : description)
  (entityType : string) (entityId : Z) (oldValue newValue : option snapshot)
  (performedBy : Z) (req : request) (w : world) : log :=
  mkLog (nextLogId w) action desc entityType entityId oldValue newValue
        performedBy
        (first_truthy [req_ip req; connection_remoteAddress req;
                       socket_remoteAddress req;
                       connection_socket_remoteAddress req])
        (first_truthy [user_agent req]) (now w).

(** The store takes the row [createLog] builds: the author of the entry is
    a user, and the strings fit their columns. *)
Definition log_storable `{Platform} (action entityType : string)
  (performedBy : Z) (req : request) (w : world) : bool :=
  mem performedBy (map u_id (users w))
  && Log.fits_columns action entityType
       (first_truthy [req_ip req; connection_remoteAddress req;
                      socket_remoteAddress req;
                      connection_socket_remoteAddress req])
       (first_truthy [user_agent req]).

(** [d] is a reply to the comment [id], or a reply to such a reply, and so
    on, in the table [cs]. *)
Inductive descends (cs : list comment_row) (id : Z) : comment_row -> Prop :=
| descends_reply d :
    In d cs -> c_parentId d = Some id -> descends cs id d
| descends_deeper d p :
    In d cs -> descends cs id p -> c_parentId d = Some (c_id p) ->
    descends cs id d.

(** [d] is a reply to a comment of [cs] that is itself a reply. *)
Definition is_nested (cs : list comment_row) (d : comment_row) : bool :=
  match c_parentId d with
  | Some p => match Comment.lookup p cs with
              | Some pc => negb (Comment.isTopLevel pc)
              | None => false
              end
  | None => false
  end.

(** [w'] differs from [w] at most in the membership table, the console and
    the trace. *)
Definition members_only (w w' : world) : Prop :=
  projects w' = projects w /\ documents w' = documents w
  /\ tasks w' = tasks w /\ meetings w' = meetings w
  /\ users w' = users w /\ comments w' = comments w
  /\ logs w' = logs w /\ teams w' = teams w
  /\ invitations w' = invitations w
  /\ nextCommentId w' = nextCommentId w /\ nextLogId w' = nextLogId w
  /\ nextInvitationId w' = nextInvitationId w
  /\ now w' = now w /\ logDown w' = logDown w.

(** No pending invitation is addressed to a user who already is a member
    of the team. *)
Definition no_pending_member (w : world) : Prop :=
  forall i, In i (invitations w) -> TeamInvitation.is_pending i = true ->
    find (TeamMember.is_pair (i_teamId i) (Some (i_userId i))) (teamMembers w)
    = None.

Definition invitations_ok (w : world) : Prop :=
  single_pending w /\ no_pending_member w.

(** ** models/Comment.js: further instance and class methods *)

Module CommentModel.
(** [Comment.prototype.isReply]: [this.parentId !== null] *)
Definition isReply (c : comment_row) : bool :=
  match c_parentId c with Some _ => true | None => false end.

(** [Comment.countByEntity(entityType, entityId)] *)
Definition countByEntity (entityType : string) (entityId : Z) : M nat :=
  Comment.count entityType (Some entityId).

(** [Comment.getRecentByUser(userId, limit = 10)]: the newest [limit]
    comments of the user; an argument left out is 10. *)
Definition getRecentByUser (userId : Z) (limit : option nat)
  : M (list comment_row) :=
  let limit := match limit with Some n => n | None => 10%nat end in
  issue (Select TComment) ;;;
  gets (fun w =>
    firstn limit
      (order_by DESC (filter (fun c => c_userId c =? userId) (comments w)))).
End CommentModel.

(** ** models/Log.js: class methods *)

(** [ORDER BY timestamp DESC] *)
Fixpoint insert_log (l : log) (ls : list log) : list log :=
  match ls with
  | [] => [l]
  | d :: rest => if DESC (l_timestamp l) (l_timestamp d) then l :: ls
                 else d :: insert_log l rest
  end.

Definition newest_logs_first (ls : list log) : list log :=
  fold_right insert_log [] ls.

(** A log entry joined with the user who performed the action
    ([include] of [user]), reduced to the user's id. *)
Record log_view : Type := mkLogView {
  lv_row : log;
  lv_user : option Z
}.

Module LogModel.
(** [Log.getLogsByEntity(entityType, entityId)] *)
Definition getLogsByEntity (entityType : string) (entityId : Z)
  : M (list log_view) :=
  issue (Select TLog) ;;;
  gets (fun w =>
    map (fun l => mkLogView l (option_map u_id
                                 (User.lookup (l_performedBy l) w)))
        (newest_logs_first
           (filter (fun l => (l_entityType l =? entityType)%string
                             && (l_entityId l =? entityId)) (logs w)))).

End LogModel.

(** ** middleware/auth.js: [authorize]; routes/teams.routes.js *)

(** The messages of [authorize]: the caller is not authenticated, or the
    caller's role, which the message names, is not allowed. *)
Inductive authorize_msg : Type :=
| MsgNotAuthorized
| MsgRoleRefused (role : string).

Record refusal : Type := mkRefusal {
  rf_status : Z;
  rf_success : bool;
  rf_message : authorize_msg
}.

(** What the middleware [authorize(...roles)] does with a request: answer
    it, or call [next()] ([None]). *)
Definition authorize (roles : list string) (req : request) : option refusal :=
  match req_user req with
  | None => Some (mkRefusal 401 false MsgNotAuthorized)
  | Some u =>
      if negb (includes roles (JStr (u_role u)))
      then Some (mkRefusal 403 false (MsgRoleRefused (u_role u)))
      else None
  end.

(** [router.use(protect)] followed by
    [router.METHOD(path, authorize(...roles), handler)]: the handler runs
    only when both middlewares call [next()]. *)
Definition team_route `{Platform} (roles : list string)
  (handler : request -> M response) (req : request)
  : M (response + refusal) :=
  g <- protect req ;;
  match g with
  | Rejected r => ret (inl r)
  | Next u =>
      let req := with_user u req in
      match authorize roles req with
      | Some r => ret (inr r)
      | None => r <- handler req ;; ret (inl r)
      end
  end.

(** The roles the team routes are restricted to. *)
Definition managers : list string := ["project_manager"; "admin"].

(** [router.post('/invitations', authorize('project_manager', 'admin'),
    teamController.sendInvitation)] *)
Definition post_invitations `{Platform} : request -> M (response + refusal) :=
  team_route managers sendInvitation.

(** ** Handlers with a console of their own

    [optionalAuth] and the two handlers that remove a member report on the
    console as well; the lines they write are kept beside the world. *)

Inductive reporter : Type := ROptionalAuth | RRemoveMember | RRemoveTeamMember.

Inductive notice : Type :=
| ConsoleLog (who : reporter)                  (* console.log of a fixed text *)
| ConsoleError (who : reporter) (e : error).   (* console.error(text, error) *)

Record site : Type := mkSite {
  store : world;
  notices : list notice
}.

Definition MC (A : Type) : Type := site -> outcome A * site.

Definition mc_ret {A} (a : A) : MC A := fun s => (Ok a, s).

Definition mc_bind {A B} (m : MC A) (k : A -> MC B) : MC B :=
  fun s => match m s with
           | (Ok a, s') => k a s'
           | (Thrown e, s') => (Thrown e, s')
           end.

Definition mc_try {A} (m : MC A) (h : error -> MC A) : MC A :=
  fun s => match m s with
           | (Ok a, s') => (Ok a, s')
           | (Thrown e, s') => h e s'
           end.

(** A model call or a step of the other handlers, run on the world. *)
Definition lift {A} (m : M A) : MC A :=
  fun s => match m (store s) with
           | (o, w') => (o, mkSite w' (notices s))
           end.

Definition say (n : notice) : MC unit :=
  fun s => (Ok tt, mkSite (store s) (notices s ++ [n])).

Notation "x <~ m ;; k" := (mc_bind m (fun x => k))
  (at level 61, m at next level, right associativity).
Notation "m ~;; k" := (mc_bind m (fun _ => k))
  (at level 61, right associativity).

(** [optionalAuth]: the request [next()] goes on with.  Whatever goes
    wrong with the token is written to the console and the request goes on
    without a user. *)
Definition optionalAuth `{Platform} (req : request) : MC request :=
  mc_try
    (let token := bearer_token req in
     match first_truthy [token] with
     | Some token =>
         mc_try
           (decoded_id <~ lift (verify token) ;;
            user <~ lift (User.findByPk (JNum decoded_id)) ;;
            match user with
            | Some user => if u_isActive user then mc_ret (with_user user req)
                           else mc_ret req
            | None => mc_ret req
            end)
           (fun _ => say (ConsoleLog ROptionalAuth) ~;; mc_ret req)
     | None => mc_ret req
     end)
    (fun e => say (ConsoleError ROptionalAuth e) ~;; mc_ret req).

(** ** controllers/teamController.js: removing a member *)

Inductive remove_msg : Type :=
| MsgTeamNotFound                 (* 'Team not found' *)
| MsgTeamNotFoundOrNotTheManager  (* 'Team not found or you are not the
                                     manager' *)
| MsgMemberNotInYourTeam          (* 'Member not found in your team' *)
| MsgMemberNotInThisTeam          (* 'Member not found in this team' *)
| MsgMemberRemoved                (* 'Member removed from team successfully' *)
| MsgRemoveMemberError.           (* 'Error removing member' *)

Record remove_response : Type := mkRemoveResponse {
  rr_status : Z;
  rr_success : bool;
  rr_message : remove_msg;
  rr_error : option error
}.

Module Membership.
(** [TeamMember.findOne({ where: { teamId, userId: memberId } })] with
    both values taken from the route. *)
Definition is_pair_of `{Platform} (teamId memberId : string) (m : team_member)
  : bool :=
  opt_eqb (sqlInt teamId) (tm_teamId m)
  && opt_eqb (sqlInt memberId) (tm_userId m).

Definition findOne_params `{Platform} (teamId memberId : string)
  : M (option team_member) :=
  issue (Select TTeamMember) ;;;
  gets (fun w => find (is_pair_of teamId memberId) (teamMembers w)).

Fixpoint remove_first (f : team_member -> bool) (ms : list team_member)
  : list team_member :=
  match ms with
  | [] => []
  | m :: rest => if f m then rest else m :: remove_first f rest
  end.

(** [member.destroy()] for a row read by its (teamId, userId) pair: the
    row it was read from, the first of that pair, goes. *)
Definition destroy (m : team_member) : M unit :=
  issue (Delete TTeamMember) ;;;
  modify (fun w =>
    set_teamMembers
      (remove_first (TeamMember.is_pair (tm_teamId m) (Some (tm_userId m)))
                    (teamMembers w)) w).
End Membership.

Definition removeMember `{Platform} (req : request) : MC remove_response :=
  mc_try
    (u <~ lift (current_user req) ;;
     let userId := u_id u in
     let memberId := params req "memberId" in
     team <~ lift (Team.findOne_manager userId) ;;
     match team with
     | None => mc_ret (mkRemoveResponse 404 false MsgTeamNotFound None)
     | Some team =>
         member <~ lift (TeamMember.findOne (t_id team) (JStr memberId)) ;;
         match member with
         | None =>
             mc_ret (mkRemoveResponse 404 false MsgMemberNotInYourTeam None)
         | Some member =>
             lift (Membership.destroy member) ~;;
             mc_ret (mkRemoveResponse 200 true MsgMemberRemoved None)
         end
     end)
    (fun e => say (ConsoleError RRemoveMember e) ~;;
              mc_ret (mkRemoveResponse 500 false MsgRemoveMemberError
                                      (Some e))).

Definition removeTeamMember `{Platform} (req : request) : MC remove_response :=
  mc_try
    (u <~ lift (current_user req) ;;
     let userId := u_id u in
     let teamId := params req "teamId" in
     let memberId := params req "memberId" in
     team <~ lift (Team.findOne_id_manager (JStr teamId) userId) ;;
     match team with
     | None =>
         mc_ret (mkRemoveResponse 404 false MsgTeamNotFoundOrNotTheManager None)
     | Some _ =>
         member <~ lift (Membership.findOne_params teamId memberId) ;;
         match member with
         | None =>
             mc_ret (mkRemoveResponse 404 false MsgMemberNotInThisTeam None)
         | Some member =>
             lift (Membership.destroy member) ~;;
             mc_ret (mkRemoveResponse 200 true MsgMemberRemoved None)
         end
     end)
    (fun e => say (ConsoleError RRemoveTeamMember e) ~;;
              mc_ret (mkRemoveResponse 500 false MsgRemoveMemberError
                                      (Some e))).

(** ** Further small worlds *)

(** Project 1 with a thread three comments deep. *)
Definition welcome : comment_row :=
  mkComment 3 "project" 1 7 "welcome" (Some 2) 25.

Definition deep_world : world :=
  mkWorld [1] [] [2] [] [alice; bob; carol; dave; erin]
          [nice_work; thanks; welcome] [] [mkTeam 1 5] [] [] 4 1 1 30 false
          [] [].

(** erin has invited bob to her team. *)
Definition invitation_to_bob : team_invitation :=
  mkInvitation 1 1 3 5 (JStr "member") JUndefined Pending.

Definition invited_world : world :=
  mkWorld [1] [] [2] [] [alice; bob; carol; dave; erin] [nice_work; thanks]
          [] [mkTeam 1 5] [] [invitation_to_bob] 3 1 2 30 false [] [].


(** erin manages two teams; bob has joined the first one and alice is a
    member of the second. *)
Definition member_world : world :=
  mkWorld [1] [] [2] [] [alice; bob; carol; dave; erin] [nice_work; thanks]
          [] [mkTeam 1 5; mkTeam 2 5]
          [mkTeamMember 1 3 (JStr "member"); mkTeamMember 2 7 (JStr "member")]
          [TeamInvitation.with_status Accepted invitation_to_bob]
          3 1 2 30 false [] [].

(** Sample bodies: white space that is not a space (a form feed and a
    no-break space, U+00A0), and strings made of copies of a character. *)
Definition blank_body : string :=
  String "012" (String "194" (String "160" EmptyString)).

Fixpoint copies (n : nat) (s : string) : string :=
  match n with
  | O => EmptyString
  | S n' => s ++ copies n' s
  end.

(** The euro sign, U+20AC, in three bytes. *)
Definition euro : string :=
  String "226" (String "130" (String "172" EmptyString)).

(** 5001 characters. *)
Definition long_body : string := String "a" (copies 5000 "a").

(** A request with a bearer token and nothing else set. *)
Definition bearer_request (token : string) (b : list (string * jsval))
  (p : list (string * string)) : request :=
  mkRequest (Some ("Bearer " ++ token)) None None None None None None
            (obj b) (str_params p).

(** * Results *)

(** ** The monad *)

Lemma bind_ok {A B} (m : M A) (k : A -> M B) w a w' :
  m w = (Ok a, w') -> bind m k w = k a w'.
Proof. intros E. unfold bind. rewrite E. reflexivity. Qed.

Lemma bind_thrown {A B} (m : M A) (k : A -> M B) w e w' :
  m w = (Thrown e, w') -> bind m k w = (Thrown e, w').
Proof. intros E. unfold bind. rewrite E. reflexivity. Qed.

Lemma bind_ret {A B} (a : A) (k : A -> M B) w : bind (ret a) k w = k a w.
Proof. reflexivity. Qed.

Lemma try_catch_ok {A} (m : M A) h w a w' :
  m w = (Ok a, w') -> try_catch m h w = (Ok a, w').
Proof. intros E. unfold try_catch. rewrite E. reflexivity. Qed.

Lemma try_catch_thrown {A} (m : M A) h w e w' :
  m w = (Thrown e, w') -> try_catch m h w = h e w'.
Proof. intros E. unfold try_catch. rewrite E. reflexivity. Qed.

(** ** Entity-type closure *)

Section EntityTypeClosure.
Context `{Platform}.

(** C4, as amended.  When the entity type is outside the closed set, the
    list operation answers InvalidEntityType whatever the entity id is, and
    the create operation answers InvalidEntityType when [entityType],
    [entityId] and [comment] are all present and ValidationFailed when one
    of them is missing; either way the world is left as it was, trace
    included: no statement reaches the store. *)
Theorem entity_type_closure (lreq creq : request) (w : world) :
  includes Comment.validEntityTypes (JStr (params lreq "entityType")) = false ->
  includes Comment.validEntityTypes (body creq "entityType") = false ->
  (exists r, getEntityComments lreq w = (Ok r, w)
             /\ kind_of r = Some InvalidEntityType)
  /\ (exists r, createComment creq w = (Ok r, w)
                /\ kind_of r =
                   Some (if truthy (body creq "entityType")
                            && truthy (body creq "entityId")
                            && truthy (body creq "comment")
                         then InvalidEntityType else ValidationFailed)).
Proof.
  intros Hl Hc. split.
  - eexists. split.
    + unfold getEntityComments, try_catch. rewrite Hl. reflexivity.
    + reflexivity.
  - unfold createComment, try_catch. rewrite Hc.
    destruct (truthy (body creq "entityType")),
             (truthy (body creq "entityId")),
             (truthy (body creq "comment"));
      eexists; (split; [reflexivity | reflexivity]).
Qed.

End EntityTypeClosure.

(** C4 fails as stated: with a type outside the closed set and the entity
    id 0, the create operation answers ValidationFailed (the required-field
    check comes first), not InvalidEntityType. *)
Lemma entity_type_closure_counterexample :
  let req := request_of (Some (mkUser 7 "consultant" true))
               [("entityType", JStr "folder"); ("entityId", JNum 0);
                ("comment", JStr "hello")] [] in
  includes Comment.validEntityTypes (body req "entityType") = false
  /\ exists r, fst (createComment (H := demo) req empty_world) = Ok r
               /\ message r = MsgFieldsRequired
               /\ kind_of r = Some ValidationFailed
               /\ kind_of r <> Some InvalidEntityType.
Proof.
  split; [reflexivity |].
  eexists. repeat split; try reflexivity. discriminate.
Qed.

Lemma entity_type_closure_witness :
  let lreq := request_of None []
                [("entityType", "folder"); ("entityId", "1")] in
  let creq := request_of None
                [("entityType", JStr "folder"); ("entityId", JNum 1);
                 ("comment", JStr "hello")] [] in
  (exists r, getEntityComments (H := demo) lreq empty_world
             = (Ok r, empty_world)
             /\ kind_of r = Some InvalidEntityType)
  /\ (exists r, createComment (H := demo) creq empty_world
                = (Ok r, empty_world)
                /\ kind_of r = Some InvalidEntityType).
Proof.
  exact (entity_type_closure (H := demo)
           (request_of None [] [("entityType", "folder"); ("entityId", "1")])
           (request_of None
              [("entityType", JStr "folder"); ("entityId", JNum 1);
               ("comment", JStr "hello")] [])
           empty_world eq_refl eq_refl).
Defined.

(** ** What the shared steps do to the world *)

Lemma filter_nil_none {A} (f : A -> bool) l x :
  filter f l = [] -> In x l -> f x = false.
Proof.
  intros E Hx. destruct (f x) eqn:F; [|reflexivity].
  assert (Hin : In x (filter f l)) by (apply filter_In; auto).
  rewrite E in Hin. contradiction.
Qed.

Lemma log_only_refl w : log_only w w.
Proof. repeat split. Qed.

Lemma log_only_push_trace e w : log_only w (push_trace e w).
Proof. repeat split. Qed.

Lemma log_only_trans w1 w2 w3 :
  log_only w1 w2 -> log_only w2 w3 -> log_only w1 w3.
Proof. unfold log_only. intuition congruence. Qed.

Section Steps.
Context `{Platform}.

(** [Log.create], case by case. *)
Lemma Log_create_run action desc entityType entityId oldValue newValue
  performedBy ipAddress userAgent w :
  Log.create action desc entityType entityId oldValue newValue performedBy
             ipAddress userAgent w
  = if notEmpty action && notEmpty entityType && (1 <=? entityId) then
      let w1 := push_trace (Insert TLog) w in
      if logDown w then (Thrown StoreUnavailable, w1)
      else if mem performedBy (map u_id (users w)) then
        if Log.fits_columns action entityType ipAddress userAgent then
          let l := mkLog (nextLogId w) action desc entityType entityId
                         oldValue newValue performedBy ipAddress userAgent
                         (now w) in
          (Ok l, set_logs (logs w ++ [l]) (nextLogId w + 1) w1)
        else (Thrown QueryError, w1)
      else (Thrown QueryError, w1)
    else (Thrown ValidationError, w).
Proof.
  unfold Log.create.
  destruct (notEmpty action && notEmpty entityType && (1 <=? entityId));
    [|reflexivity].
  unfold bind, issue, modify, gets, throw, ret.
  cbn -[mem Log.fits_columns].
  destruct (logDown w); [reflexivity|].
  destruct (mem performedBy (map u_id (users w))); [|reflexivity].
  cbn -[mem Log.fits_columns].
  destruct (Log.fits_columns _ _ _ _); reflexivity.
Qed.

(** [createLog], case by case. *)
Lemma createLog_run action desc entityType entityId oldValue newValue
  performedBy req w :
  let ipAddress :=
    first_truthy [req_ip req; connection_remoteAddress req;
                  socket_remoteAddress req;
                  connection_socket_remoteAddress req] in
  let userAgent := first_truthy [user_agent req] in
  createLog action desc entityType entityId oldValue newValue performedBy
            req w
  = if notEmpty action && notEmpty entityType && (1 <=? entityId) then
      let w1 := push_trace (Insert TLog) w in
      if logDown w
      then (Ok None, push_console (HCreateLog, StoreUnavailable) w1)
      else if mem performedBy (map u_id (users w)) then
        if Log.fits_columns action entityType ipAddress userAgent then
          let l := mkLog (nextLogId w) action desc entityType entityId
                         oldValue newValue performedBy ipAddress userAgent
                         (now w) in
          (Ok (Some l), set_logs (logs w ++ [l]) (nextLogId w + 1) w1)
        else (Ok None, push_console (HCreateLog, QueryError) w1)
      else (Ok None, push_console (HCreateLog, QueryError) w1)
    else (Ok None, push_console (HCreateLog, ValidationError) w).
Proof.
  intros ipAddress userAgent.
  unfold createLog, try_catch, bind. fold ipAddress userAgent.
  rewrite Log_create_run.
  destruct (notEmpty action && notEmpty entityType && (1 <=? entityId));
    [|reflexivity].
  destruct (logDown w); [reflexivity|].
  destruct (mem performedBy (map u_id (users w))); [|reflexivity].
  destruct (Log.fits_columns _ _ _ _); reflexivity.
Qed.

(** [createLog] always returns: a log entry, or [null] after a failure.
    It touches nothing but the log; with the log table down it returns
    [null] and writes no entry. *)
Lemma createLog_total action desc entityType entityId oldValue newValue
  performedBy req w :
  exists o w',
    createLog action desc entityType entityId oldValue newValue performedBy
              req w = (Ok o, w')
    /\ log_only w w'
    /\ (logDown w = true -> o = None /\ logs w' = logs w).
Proof.
  rewrite createLog_run.
  destruct (notEmpty action && notEmpty entityType && (1 <=? entityId)) eqn:V.
  - destruct (logDown w) eqn:D;
      [|destruct (mem performedBy (map u_id (users w)));
        [destruct (Log.fits_columns _ _ _ _)|]];
      cbn; eexists _, _; (split; [reflexivity|]); split;
      try (repeat split; assumption); try discriminate;
      intros _; split; reflexivity.
  - cbn. eexists _, _. split; [reflexivity|]. split; [repeat split|].
    intros _. split; reflexivity.
Qed.

Lemma findByPk_run k w :
  Comment.findByPk k w
  = (Ok (Comment.select_pk k w), push_trace (Select TComment) w).
Proof. reflexivity. Qed.

Lemma select_pk_frame k w w' :
  comments w' = comments w ->
  Comment.select_pk k w' = Comment.select_pk k w.
Proof. intros E. unfold Comment.select_pk. now rewrite E. Qed.

(** The entity lookup always returns and leaves every table as it was. *)
Lemma find_entity_run entityType entityId w :
  exists w', find_entity entityType entityId w
             = (fst (find_entity entityType entityId w), w')
             /\ (exists o, fst (find_entity entityType entityId w) = Ok o)
             /\ log_only w w' /\ logs w' = logs w.
Proof.
  unfold find_entity.
  destruct (strict_eq entityType (JStr "project"));
    [eexists; split; [reflexivity|]; repeat split; eexists; reflexivity|].
  destruct (strict_eq entityType (JStr "document"));
    [eexists; split; [reflexivity|]; repeat split; eexists; reflexivity|].
  destruct (strict_eq entityType (JStr "task"));
    [eexists; split; [reflexivity|]; repeat split; eexists; reflexivity|].
  destruct (strict_eq entityType (JStr "meeting"));
    eexists; (split; [reflexivity|]); repeat split; eexists; reflexivity.
Qed.

End Steps.

(** ** The cascade *)

Lemma cascade_incl fuel : forall ids cs d,
  In d (Comment.cascade fuel ids cs) -> In d cs.
Proof.
  induction fuel as [|fuel IH]; intros ids cs d Hd; [exact Hd|].
  cbn in Hd. destruct (filter (Comment.references ids) cs) as [|k kids] eqn:E.
  - exact Hd.
  - apply IH in Hd. apply filter_In in Hd. tauto.
Qed.

Lemma cascade_no_reference fuel ids cs d :
  In d (Comment.cascade (S fuel) ids cs) -> Comment.references ids d = false.
Proof.
  cbn. destruct (filter (Comment.references ids) cs) as [|k kids] eqn:E.
  - intros Hd. eapply filter_nil_none; eauto.
  - intros Hd. apply cascade_incl in Hd. apply filter_In in Hd.
    destruct Hd as [_ Hd]. now apply negb_true_iff in Hd.
Qed.

(** After a delete, what is left was there before, and neither has the
    deleted id nor replies to it. *)
Lemma delete_row_spec id cs d :
  In d (Comment.delete_row id cs) ->
  In d cs /\ c_id d <> id /\ Comment.isReplyTo id d = false.
Proof.
  unfold Comment.delete_row. intros Hd.
  assert (Hin : In d (Comment.without id cs)) by (eapply cascade_incl; eauto).
  apply filter_In in Hin. destruct Hin as [Hin Hne].
  apply negb_true_iff, Z.eqb_neq in Hne.
  repeat split; auto.
  destruct (Comment.without id cs) as [|x rest] eqn:E.
  - cbn in Hd. contradiction.
  - cbn [List.length] in Hd. apply cascade_no_reference in Hd.
    unfold Comment.references in Hd. unfold Comment.isReplyTo.
    destruct (c_parentId d); [|reflexivity].
    cbn in Hd. now rewrite orb_false_r in Hd.
Qed.

(** ** Who may update and who may delete *)

Section Rights.
Context `{Platform}.

(** A handler whose [catch] answers 500 always answers. *)
Lemma handler_total (m : M response) h st ms w :
  exists r w',
    try_catch m (fun e => console_error h e ;;; respond st false ms NoData) w
    = (Ok r, w').
Proof.
  unfold try_catch.
  destruct (m w) as [[r|e] w1]; cbn; eexists _, _; reflexivity.
Qed.

Lemma createComment_total req w :
  exists r w', createComment req w = (Ok r, w').
Proof. unfold createComment. apply handler_total. Qed.

Lemma getEntityComments_total req w :
  exists r w', getEntityComments req w = (Ok r, w').
Proof. unfold getEntityComments. apply handler_total. Qed.

Lemma updateComment_total req w :
  exists r w', updateComment req w = (Ok r, w').
Proof. unfold updateComment. apply handler_total. Qed.

Lemma deleteComment_total req w :
  exists r w', deleteComment req w = (Ok r, w').
Proof. unfold deleteComment. apply handler_total. Qed.

Lemma update_by_other req w existing u :
  req_user req = Some u ->
  Comment.select_pk (JStr (params req "id")) w = Some existing ->
  c_userId existing <> u_id u ->
  exists r w', updateComment req w = (Ok r, w')
    /\ success r = false
    /\ kind_of r = Some (if truthy (body req "comment")
                         then Forbidden else ValidationFailed)
    /\ comments w' = comments w.
Proof.
  intros Hu Hf Hne.
  unfold updateComment, try_catch.
  destruct (truthy (body req "comment")) eqn:T; cbn [negb].
  - rewrite (bind_ok _ _ _ _ _ (findByPk_run _ _)), Hf.
    unfold current_user. rewrite Hu.
    apply Z.eqb_neq in Hne. cbn. rewrite Hne. cbn.
    eexists _, _. repeat split.
  - cbn. eexists _, _. repeat split.
Qed.

Lemma update_success_only_author req w r w' :
  updateComment req w = (Ok r, w') -> success r = true ->
  exists existing u, req_user req = Some u
     /\ Comment.select_pk (JStr (params req "id")) w = Some existing
     /\ c_userId existing = u_id u.
Proof.
  unfold updateComment, try_catch.
  destruct (truthy (body req "comment")) eqn:T; cbn [negb].
  2:{ cbn. intros E S. inversion E; subst. discriminate. }
  rewrite (bind_ok _ _ _ _ _ (findByPk_run _ _)).
  destruct (Comment.select_pk _ w) as [existing|] eqn:Hf.
  2:{ cbn. intros E S. inversion E; subst. discriminate. }
  unfold current_user. destruct (req_user req) as [u|] eqn:Hu.
  2:{ cbn. intros E S. inversion E; subst. discriminate. }
  destruct (c_userId existing =? u_id u) eqn:Hid.
  - intros _ _. exists existing, u. apply Z.eqb_eq in Hid. auto.
  - cbn. rewrite Hid. cbn. intros E S. inversion E; subst. discriminate.
Qed.

(** C5, as amended.  An update of an existing comment by a caller who is
    not its author, whatever the caller's role, fails and leaves every
    comment as it was; the failure is Forbidden when the request carries a
    new body and ValidationFailed when the body is missing or empty (that
    check comes first).  An update that succeeds was made by the author. *)
Theorem author_only_update (req : request) (w : world)
  (existing : comment_row) (u : user) :
  req_user req = Some u ->
  Comment.select_pk (JStr (params req "id")) w = Some existing ->
  exists r w', updateComment req w = (Ok r, w')
    /\ (c_userId existing <> u_id u ->
          success r = false
          /\ kind_of r = Some (if truthy (body req "comment")
                               then Forbidden else ValidationFailed)
          /\ comments w' = comments w)
    /\ (success r = true -> c_userId existing = u_id u).
Proof.
  intros Hu Hf.
  destruct (updateComment_total req w) as (r & w' & E).
  exists r, w'. split; [exact E|]. split.
  - intros Hne.
    destruct (update_by_other req w existing u Hu Hf Hne)
      as (r1 & w1 & E1 & P). rewrite E in E1. inversion E1; subst. exact P.
  - intros S.
    destruct (update_success_only_author req w r w' E S)
      as (x & u' & Hu' & Hf' & Hid).
    rewrite Hu in Hu'. rewrite Hf in Hf'. inversion Hu'; inversion Hf'; subst.
    exact Hid.
Qed.

Lemma delete_allowed req w c u :
  req_user req = Some u ->
  Comment.select_pk (JStr (params req "id")) w = Some c ->
  (c_userId c =? u_id u) || (u_role u =? "admin")%string = true ->
  exists r w', deleteComment req w = (Ok r, w')
    /\ status r = 200 /\ success r = true
    /\ comments w' = Comment.delete_row (c_id c) (comments w)
    /\ comments_and_log_only w w'
    /\ (logDown w = true -> logs w' = logs w).
Proof.
  intros Hu Hf Hok.
  unfold deleteComment, try_catch, Comment.findByPk_with_replies.
  rewrite (bind_ok _ _ _ _ _ (bind_ok _ _ _ _ _ (findByPk_run _ _))), Hf.
  cbn [gets option_map bind]. unfold current_user. rewrite Hu, bind_ret.
  replace (negb (c_userId c =? u_id u) && negb (u_role u =? "admin")%string)
    with false by (rewrite <- negb_orb, Hok; reflexivity).
  match goal with
  | |- context [bind (createLog ?a ?b ?c0 ?d ?e ?f ?g ?h) ?k ?x] =>
      destruct (createLog_total a b c0 d e f g h x) as (o & w1 & E & L & D)
  end.
  rewrite (bind_ok _ _ _ _ _ E).
  cbn. eexists _, _. split; [reflexivity|].
  destruct L as (Lp&Ld&Lt&Lm&Lu&Lc&Lte&Ltm&Li&Lnc&Lni&Lnow&Ldown).
  cbn in *.
  repeat split; cbn; try congruence;
    try (intros Dn; apply D in Dn; tauto).
  unfold Comment.delete_row, Comment.without. now rewrite Lc.
Qed.

Lemma delete_forbidden req w c u :
  req_user req = Some u ->
  Comment.select_pk (JStr (params req "id")) w = Some c ->
  (c_userId c =? u_id u) || (u_role u =? "admin")%string = false ->
  exists r, deleteComment req w = (Ok r, push_trace (Select TComment) w)
            /\ kind_of r = Some Forbidden.
Proof.
  intros Hu Hf Hno.
  unfold deleteComment, try_catch, Comment.findByPk_with_replies.
  rewrite (bind_ok _ _ _ _ _ (bind_ok _ _ _ _ _ (findByPk_run _ _))), Hf.
  cbn [gets option_map bind]. unfold current_user. rewrite Hu, bind_ret.
  replace (negb (c_userId c =? u_id u) && negb (u_role u =? "admin")%string)
    with true by (rewrite <- negb_orb, Hno; reflexivity).
  cbn. eexists. split; reflexivity.
Qed.

(** C6.  For an existing comment: a delete by its author succeeds; a delete
    by a caller who is neither the author nor an admin fails with Forbidden
    and changes no table (the world differs only by the one read in its
    trace); a delete by an admin who is not the author succeeds.  After a
    successful delete the comment is gone. *)
Theorem author_or_admin_delete (req : request) (w : world) (c : comment_row)
  (u : user) :
  req_user req = Some u ->
  Comment.select_pk (JStr (params req "id")) w = Some c ->
  exists r w', deleteComment req w = (Ok r, w')
    /\ (c_userId c = u_id u ->
          status r = 200 /\ success r = true /\ ~ In c (comments w'))
    /\ (c_userId c <> u_id u -> u_role u <> "admin" ->
          kind_of r = Some Forbidden
          /\ w' = push_trace (Select TComment) w)
    /\ (c_userId c <> u_id u -> u_role u = "admin" ->
          status r = 200 /\ success r = true /\ ~ In c (comments w')).
Proof.
  intros Hu Hf.
  assert (Gone : forall w',
            comments w' = Comment.delete_row (c_id c) (comments w) ->
            ~ In c (comments w')).
  { intros w' E Hin. rewrite E in Hin. apply delete_row_spec in Hin.
    destruct Hin as (_ & Hne & _). now apply Hne. }
  destruct ((c_userId c =? u_id u) || (u_role u =? "admin")%string) eqn:B.
  - destruct (delete_allowed req w c u Hu Hf B)
      as (r & w' & E & St & Su & Cs & _).
    exists r, w'. split; [exact E|].
    apply orb_true_iff in B. split; [|split].
    + intros _. auto.
    + intros Hne Hrole. exfalso. destruct B as [B|B].
      * apply Z.eqb_eq in B. contradiction.
      * apply String.eqb_eq in B. contradiction.
    + intros _ _. auto.
  - destruct (delete_forbidden req w c u Hu Hf B) as (r & E & K).
    exists r, (push_trace (Select TComment) w). split; [exact E|].
    apply orb_false_iff in B. destruct B as [B1 B2].
    apply Z.eqb_neq in B1. apply String.eqb_neq in B2.
    split; [|split].
    + intros He. contradiction.
    + intros _ _. auto.
    + intros _ Hr. contradiction.
Qed.

End Rights.

(** C5 fails as stated: bob, who is not the author of comment 1, sends an
    update without a body and is answered ValidationFailed, not Forbidden. *)
Lemma author_only_update_counterexample :
  let req := request_of (Some bob) [("comment", JStr EmptyString)] [("id", "1")] in
  Comment.select_pk (H := demo) (JStr (params req "id")) thread_world
  = Some nice_work
  /\ c_userId nice_work <> u_id bob
  /\ exists r, fst (updateComment (H := demo) req thread_world) = Ok r
               /\ message r = MsgCommentRequired
               /\ kind_of r = Some ValidationFailed
               /\ kind_of r <> Some Forbidden.
Proof.
  split; [reflexivity|]. split; [discriminate|].
  eexists. repeat split; try reflexivity. discriminate.
Qed.

Lemma author_only_update_witness :
  let req := request_of (Some carol) [("comment", JStr "edited")]
                        [("id", "1")] in
  exists r w', updateComment (H := demo) req thread_world = (Ok r, w')
    /\ (c_userId nice_work <> u_id carol ->
          success r = false
          /\ kind_of r = Some (if truthy (body req "comment")
                               then Forbidden else ValidationFailed)
          /\ comments w' = comments thread_world)
    /\ (success r = true -> c_userId nice_work = u_id carol).
Proof.
  exact (author_only_update (H := demo)
           (request_of (Some carol) [("comment", JStr "edited")] [("id", "1")])
           thread_world nice_work carol eq_refl eq_refl).
Defined.

Lemma author_or_admin_delete_witness :
  let req := request_of (Some carol) [] [("id", "1")] in
  exists r w', deleteComment (H := demo) req thread_world = (Ok r, w')
    /\ (c_userId nice_work = u_id carol ->
          status r = 200 /\ success r = true /\ ~ In nice_work (comments w'))
    /\ (c_userId nice_work <> u_id carol -> u_role carol <> "admin" ->
          kind_of r = Some Forbidden
          /\ w' = push_trace (Select TComment) thread_world)
    /\ (c_userId nice_work <> u_id carol -> u_role carol = "admin" ->
          status r = 200 /\ success r = true /\ ~ In nice_work (comments w')).
Proof.
  exact (author_or_admin_delete (H := demo)
           (request_of (Some carol) [] [("id", "1")])
           thread_world nice_work carol eq_refl eq_refl).
Defined.

(** ** The authentication gate *)

Section Gate.
Context `{Platform}.

(** C9, as amended.  A request whose token is valid and not expired but
    belongs to a deactivated user is answered 403 "account disabled", the
    Forbidden kind rather than the Unauthorized kind of a missing or invalid
    credential, and the handler behind the gate is not run: the answer and
    the resulting world are the same for every handler, and the world
    differs from the initial one only by the read of the user. *)
Theorem inactive_user_rejected (handler : request -> M response)
  (req : request) (w : world) (token : string) (id : Z) (u : user) :
  first_truthy [bearer_token req] = Some token ->
  jwt_verify token = inl id ->
  User.lookup id w = Some u ->
  u_isActive u = false ->
  exists r, route handler req w = (Ok r, push_trace (Select TUser) w)
            /\ status r = 403 /\ message r = MsgAccountDisabled
            /\ kind_of r = Some Forbidden.
Proof.
  intros Ht Hv Hl Ha.
  unfold route, protect, try_catch. rewrite Ht.
  unfold verify. rewrite Hv. unfold User.lookup in Hl.
  cbn. unfold bind. rewrite Hl, Ha. cbn.
  eexists. repeat split.
Qed.

End Gate.

(** C9 fails as stated: dave's token is valid but his account is
    deactivated; the gate answers 403, whose kind is Forbidden, whereas a
    request without a credential is answered 401, Unauthorized. *)
Lemma inactive_user_rejected_counterexample :
  let req := mkRequest (Some "Bearer 4") None None None None None None
                       (obj []) (str_params []) in
  let bare := mkRequest None None None None None None None
                        (obj []) (str_params []) in
  jwt_verify (Platform := demo) "4" = inl 4
  /\ User.lookup 4 thread_world = Some dave
  /\ u_isActive dave = false
  /\ (exists r, fst (route (H := demo) (createComment (H := demo)) req
                         thread_world) = Ok r
                /\ status r = 403
                /\ kind_of r = Some Forbidden
                /\ kind_of r <> Some Unauthorized)
  /\ (exists r, fst (route (H := demo) (createComment (H := demo)) bare
                         thread_world) = Ok r
                /\ status r = 401
                /\ kind_of r = Some Unauthorized).
Proof.
  repeat split; try reflexivity.
  - eexists. repeat split; try reflexivity. discriminate.
  - eexists. repeat split; reflexivity.
Qed.

Lemma inactive_user_rejected_witness :
  exists r,
    route (H := demo) (deleteComment (H := demo))
          (mkRequest (Some "Bearer 4") None None None None None None
                     (obj []) (str_params [("id", "1")]))
          thread_world
    = (Ok r, push_trace (Select TUser) thread_world)
    /\ status r = 403 /\ message r = MsgAccountDisabled
    /\ kind_of r = Some Forbidden.
Proof.
  exact (inactive_user_rejected (H := demo) (deleteComment (H := demo))
           (mkRequest (Some "Bearer 4") None None None None None None
                      (obj []) (str_params [("id", "1")]))
           thread_world "4" 4 dave eq_refl eq_refl eq_refl eq_refl).
Defined.

(** ** Ordering of the listed threads *)

Section Sorting.
Variable le : Z -> Z -> bool.
Hypothesis le_total : forall a b, le a b = false -> le b a = true.
Hypothesis le_trans :
  forall a b c, le a b = true -> le b c = true -> le a c = true.

Lemma insert_by_perm c l : Permutation (c :: l) (insert_by le c l).
Proof.
  induction l as [|d l IH]; cbn.
  - apply Permutation_refl.
  - destruct (le (c_createdAt c) (c_createdAt d)).
    + apply Permutation_refl.
    + eapply perm_trans; [apply perm_swap|]. now apply perm_skip.
Qed.

Lemma order_by_perm l : Permutation l (order_by le l).
Proof.
  induction l as [|c l IH]; cbn.
  - apply perm_nil.
  - eapply perm_trans; [apply perm_skip, IH|]. apply insert_by_perm.
Qed.

Lemma insert_by_sorted c l :
  StronglySorted (fun a b => le (c_createdAt a) (c_createdAt b) = true) l ->
  StronglySorted (fun a b => le (c_createdAt a) (c_createdAt b) = true)
                 (insert_by le c l).
Proof.
  induction 1 as [|d l Hs IH Hd]; cbn.
  - constructor; constructor.
  - destruct (le (c_createdAt c) (c_createdAt d)) eqn:E.
    + constructor; [constructor; assumption|].
      constructor; [exact E|].
      eapply Forall_impl; [|exact Hd]. intros x Hx. cbn in *. eauto.
    + constructor; [exact IH|].
      eapply Permutation_Forall; [apply insert_by_perm|].
      constructor; [|exact Hd]. now apply le_total.
Qed.

Lemma order_by_sorted l :
  StronglySorted (fun a b => le (c_createdAt a) (c_createdAt b) = true)
                 (order_by le l).
Proof.
  induction l as [|c l IH]; cbn.
  - constructor.
  - now apply insert_by_sorted.
Qed.

End Sorting.

(** A list sorted for [R] that is a permutation of a list sorted for a
    strict order [S] opposed to [R] is that list. *)
Lemma sorted_perm_unique {A} (R S : A -> A -> Prop) :
  (forall a, S a a -> False) ->
  (forall a b, S a b -> R b a -> False) ->
  forall l' l, Permutation l l' -> StronglySorted R l -> StronglySorted S l' ->
  l = l'.
Proof.
  intros Hirr Hex. induction l' as [|x t' IH]; intros l Hp Hl Hl'.
  - now apply Permutation_nil, Permutation_sym.
  - destruct l as [|y t].
    + apply Permutation_nil in Hp. discriminate.
    + inversion Hl as [|? ? Ht Hy]; subst.
      inversion Hl' as [|? ? Ht' Hx]; subst.
      assert (Hin : In y (x :: t'))
        by (eapply Permutation_in; [exact Hp|now left]).
      destruct Hin as [->|Hin].
      * f_equal. apply IH; auto. now apply Permutation_cons_inv in Hp.
      * exfalso. rewrite Forall_forall in Hx, Hy.
        assert (Hxin : In x (y :: t))
          by (eapply Permutation_in;
              [apply Permutation_sym; exact Hp|now left]).
        destruct Hxin as [->|Hxin].
        -- eapply Hirr, Hx, Hin.
        -- eapply Hex; [apply Hx; exact Hin|apply Hy; exact Hxin].
Qed.

Lemma order_by_DESC_unique l tops :
  Permutation l tops -> newest_first tops -> order_by DESC l = tops.
Proof.
  intros Hp Hs.
  apply (sorted_perm_unique
           (fun a b => DESC (c_createdAt a) (c_createdAt b) = true)
           (fun a b => c_createdAt b < c_createdAt a)).
  - intros a. lia.
  - intros a b. unfold DESC. rewrite Z.geb_le. lia.
  - eapply perm_trans; [apply Permutation_sym, order_by_perm|exact Hp].
  - apply order_by_sorted; unfold DESC; intros a b.
    + rewrite Z.geb_leb, Z.leb_gt, Z.geb_le. lia.
    + intros c. rewrite !Z.geb_le. lia.
  - exact Hs.
Qed.

Section Listing.
Context `{Platform}.

Lemma find_entity_frame entityType entityId w w' :
  projects w' = projects w -> documents w' = documents w ->
  tasks w' = tasks w -> meetings w' = meetings w ->
  fst (find_entity entityType entityId w')
  = fst (find_entity entityType entityId w).
Proof.
  intros Ep Ed Et Em. unfold find_entity.
  destruct (strict_eq entityType (JStr "project"));
    [cbn; unfold rows_select; cbn; now rewrite Ep|].
  destruct (strict_eq entityType (JStr "document"));
    [cbn; unfold rows_select; cbn; now rewrite Ed|].
  destruct (strict_eq entityType (JStr "task"));
    [cbn; unfold rows_select; cbn; now rewrite Et|].
  destruct (strict_eq entityType (JStr "meeting"));
    [cbn; unfold rows_select; cbn; now rewrite Em|reflexivity].
Qed.

Lemma threads_frame t e w w' :
  comments w' = comments w -> users w' = users w ->
  Comment.threads t e w' = Comment.threads t e w.
Proof.
  intros Ec Eu. unfold Comment.threads. rewrite Ec.
  apply map_ext. intros c. f_equal.
  - unfold Comment.view, User.lookup. cbn. now rewrite Eu.
  - unfold Comment.replies. rewrite Ec. apply map_ext. intros d.
    unfold Comment.view, User.lookup. now rewrite Eu.
Qed.

(** The answer of the list operation for an existing entity. *)
Lemma list_shape req w e :
  includes Comment.validEntityTypes (JStr (params req "entityType")) = true ->
  (exists x, fst (find_entity (JStr (params req "entityType"))
                              (JStr (params req "entityId")) w)
             = Ok (Some x)) ->
  parseInt (params req "entityId") = Some e ->
  exists w',
    getEntityComments req w
    = (Ok (mkResponse 200 true MsgNone
             (CommentList
                (Comment.threads (params req "entityType") e w)
                (List.length
                   (filter (Comment.matches (params req "entityType") e)
                           (comments w)))
                (List.length
                   (Comment.threads (params req "entityType") e w)))), w').
Proof.
  intros Hv (x & Hx) Hp.
  unfold getEntityComments, try_catch. rewrite Hv. cbn [negb].
  destruct (find_entity_run (JStr (params req "entityType"))
              (JStr (params req "entityId")) w) as (w1 & E & _ & L & _).
  rewrite Hx in E. rewrite (bind_ok _ _ _ _ _ E).
  destruct L as (_&_&_&_&Lu&Lc&_).
  rewrite Hp.
  unfold Comment.findAll_threads, Comment.count, issue, modify, gets, respond,
    ret, bind.
  rewrite (threads_frame _ _ w (push_trace (Select TComment) w1) Lc Lu).
  cbn. rewrite Lc. eexists. reflexivity.
Qed.

(** C3.  When the list operation is asked for an existing entity, the
    top-level comments of the entity come back newest first: if they are,
    in some order, the rows [tops] and [tops] is strictly decreasing in
    creation time, the answer lists exactly [tops] in that order (for three
    rows created at t1 < t2 < t3: [t3; t2; t1]).  The replies attached to a
    returned parent are not put in order: the [order] written inside the
    include is not applied, and every node carries the replies to its
    comment in the order in which the store returns joined rows, whatever
    their creation times are. *)
Theorem list_ordering (req : request) (w : world) (e : Z)
  (tops : list comment_row) :
  includes Comment.validEntityTypes (JStr (params req "entityType")) = true ->
  (exists x, fst (find_entity (JStr (params req "entityType"))
                              (JStr (params req "entityId")) w)
             = Ok (Some x)) ->
  parseInt (params req "entityId") = Some e ->
  Permutation
    (filter (fun c => Comment.matches (params req "entityType") e c
                      && Comment.isTopLevel c) (comments w)) tops ->
  newest_first tops ->
  exists nodes total w',
    getEntityComments req w
    = (Ok (mkResponse 200 true MsgNone
             (CommentList nodes total (List.length nodes))), w')
    /\ map n_row nodes = tops
    /\ (forall n, In n nodes ->
          map cv_row (n_replies n)
          = join_order
              (filter (Comment.isReplyTo (c_id (n_row n))) (comments w))).
Proof.
  intros Hv Hx Hp Ptop Stop.
  destruct (list_shape req w e Hv Hx Hp) as (w' & E).
  eexists _, _, _. split; [exact E|]. split.
  - unfold Comment.threads. rewrite map_map. cbn. rewrite map_id.
    now apply order_by_DESC_unique.
  - intros n Hn. apply in_map_iff in Hn. destruct Hn as (c & <- & Hc).
    cbn. unfold Comment.replies. rewrite map_map. cbn. now rewrite map_id.
Qed.

End Listing.

(** On task 2 of [busy_world], with a store that returns joined rows in
    the order of the table, the three top-level comments come back newest
    first, and the two replies to the newest one come back as the table
    holds them: the reply created at 50 before the reply created at 40,
    which is not oldest first, the order the include asks for. *)
Lemma list_ordering_witness :
  exists nodes total w',
    getEntityComments (H := demo)
      (request_of None [] [("entityType", "task"); ("entityId", "2")])
      busy_world
    = (Ok (mkResponse 200 true MsgNone
             (CommentList nodes total (List.length nodes))), w')
    /\ map n_row nodes = [third_note; second_note; first_note]
    /\ (forall n, In n nodes -> n_row n = third_note ->
                  map cv_row (n_replies n) = [late_reply; early_reply])
    /\ c_createdAt late_reply = 50 /\ c_createdAt early_reply = 40
    /\ ~ oldest_first [late_reply; early_reply]
    /\ order_by ASC [late_reply; early_reply] = [early_reply; late_reply].
Proof.
  destruct (list_ordering (H := demo)
              (request_of None [] [("entityType", "task"); ("entityId", "2")])
              busy_world 2 [third_note; second_note; first_note])
    as (nodes & total & w' & E & Ht & Hr).
  - reflexivity.
  - exists 2. reflexivity.
  - reflexivity.
  - cbn. eapply perm_trans; [apply perm_swap|]. apply perm_skip, perm_swap.
  - repeat constructor; cbn; lia.
  - exists nodes, total, w'. split; [exact E|]. split; [exact Ht|].
    split; [|split; [reflexivity|split; [reflexivity|split]]].
    + intros n Hn Hrow. rewrite (Hr n Hn), Hrow. reflexivity.
    + intros S. inversion S as [|? ? _ F]; subst.
      inversion F as [|? ? L _]; subst. cbn in L. lia.
    + reflexivity.
Defined.

(** ** Cascade on delete *)

Lemma lookup_some n cs c :
  Comment.lookup n cs = Some c -> In c cs /\ c_id c = n.
Proof.
  unfold Comment.lookup. intros E. apply find_some in E.
  destruct E as [Hin E]. apply Z.eqb_eq in E. auto.
Qed.

Lemma pk_unique_NoDup cs : pk_unique cs -> NoDup cs.
Proof. apply NoDup_map_inv. Qed.

Lemma pk_unique_eq cs a b :
  pk_unique cs -> In a cs -> In b cs -> c_id a = c_id b -> a = b.
Proof.
  unfold pk_unique. induction cs as [|x cs IH]; cbn; [tauto|].
  intros Hn Ha Hb E. inversion Hn as [|? ? Hx Hn']; subst.
  destruct Ha as [->|Ha], Hb as [->|Hb]; auto.
  - exfalso. apply Hx. rewrite E. now apply in_map.
  - exfalso. apply Hx. rewrite <- E. now apply in_map.
Qed.

Lemma cascade_NoDup fuel : forall ids cs,
  NoDup cs -> NoDup (Comment.cascade fuel ids cs).
Proof.
  induction fuel as [|fuel IH]; intros ids cs Hn; [exact Hn|].
  cbn. destruct (filter (Comment.references ids) cs); [exact Hn|].
  apply IH. now apply NoDup_filter.
Qed.

Lemma delete_row_NoDup id cs : NoDup cs -> NoDup (Comment.delete_row id cs).
Proof.
  intros Hn. unfold Comment.delete_row. apply cascade_NoDup.
  now apply NoDup_filter.
Qed.

(** The comments counted for the entity of a deleted top-level comment go
    down by at least the comment and its direct replies. *)
Lemma delete_row_count cs c :
  pk_unique cs -> reply_linked cs -> In c cs -> c_parentId c = None ->
  let m := Comment.matches (c_entityType c) (c_entityId c) in
  (List.length (filter m (Comment.delete_row (c_id c) cs))
   + List.length (filter (Comment.isReplyTo (c_id c)) cs) + 1
   <= List.length (filter m cs))%nat.
Proof.
  intros Hpk Hrl Hc Htop m.
  pose proof (pk_unique_NoDup _ Hpk) as Hnd.
  assert (Hm : forall d, c_entityType d = c_entityType c ->
                         c_entityId d = c_entityId c -> m d = true).
  { intros d Et Ei. unfold m, Comment.matches.
    rewrite Et, Ei, String.eqb_refl, Z.eqb_refl. reflexivity. }
  set (cid := c_id c).
  set (gone := fun d => (c_id d =? cid) || Comment.isReplyTo cid d).
  assert (Hsplit :
    (List.length (filter m cs)
     = List.length (filter gone (filter m cs))
       + List.length (filter (fun d => negb (gone d)) (filter m cs)))%nat).
  { symmetry. apply filter_length. }
  assert (Hkept :
    (List.length (filter m (Comment.delete_row cid cs))
     <= List.length (filter (fun d => negb (gone d)) (filter m cs)))%nat).
  { apply NoDup_incl_length.
    - apply NoDup_filter. now apply delete_row_NoDup.
    - intros d Hd. apply filter_In in Hd. destruct Hd as [Hd Hmd].
      apply delete_row_spec in Hd. destruct Hd as (Hin & Hne & Hnr).
      apply filter_In. split; [apply filter_In; auto|].
      unfold gone. rewrite Hnr. apply Z.eqb_neq in Hne. now rewrite Hne. }
  assert (Hgone :
    (List.length (c :: filter (Comment.isReplyTo cid) cs)
     <= List.length (filter gone (filter m cs)))%nat).
  { apply NoDup_incl_length.
    - constructor; [|now apply NoDup_filter].
      intros Hin. apply filter_In in Hin. destruct Hin as [_ Hr].
      unfold Comment.isReplyTo in Hr. now rewrite Htop in Hr.
    - intros d [<-|Hd].
      + apply filter_In. split; [apply filter_In; auto|].
        unfold gone, cid. now rewrite Z.eqb_refl.
      + apply filter_In in Hd. destruct Hd as [Hin Hr].
        apply filter_In. split; [apply filter_In; split; [exact Hin|]|].
        * unfold Comment.isReplyTo in Hr.
          destruct (c_parentId d) as [q|] eqn:Hq; [|discriminate].
          apply Z.eqb_eq in Hr. subst q.
          destruct (Hrl d cid Hin Hq) as (p & Hp & Hpid & Het & Hei).
          assert (p = c) by (eapply pk_unique_eq; eauto). subst p.
          apply Hm; auto.
        * unfold gone. rewrite Hr. apply orb_true_r. }
  cbn [List.length] in Hgone. lia.
Qed.

Lemma order_by_In le l x : In x (order_by le l) <-> In x l.
Proof.
  split; apply Permutation_in;
    [apply Permutation_sym|]; apply order_by_perm.
Qed.

(** Whatever the returned tree shows is a row of the table. *)
Lemma visible_threads_incl `{Platform} t e w d :
  In d (visible (Comment.threads t e w)) -> In d (comments w).
Proof.
  unfold visible, Comment.threads. intros Hd.
  apply in_flat_map in Hd. destruct Hd as (n & Hn & Hd).
  apply in_map_iff in Hn. destruct Hn as (c & <- & Hc).
  cbn in Hd. destruct Hd as [<-|Hd].
  - apply order_by_In, filter_In in Hc. tauto.
  - unfold Comment.replies in Hd. rewrite map_map in Hd. cbn in Hd.
    rewrite map_id in Hd.
    apply (Permutation_in _ (join_order_perm _)), filter_In in Hd. tauto.
Qed.

Section Cascade.
Context `{Platform}.

Lemma select_pk_some k w c :
  Comment.select_pk k w = Some c -> In c (comments w).
Proof.
  unfold Comment.select_pk. destruct (to_int k); [|discriminate].
  intros E. now apply lookup_some in E.
Qed.

(** C7.  In a store that satisfies the primary key and the reply linkage,
    a successful delete of a top-level comment removes the comment and each
    of its N direct replies.  A list of the comment's entity afterwards
    shows none of them, neither as a thread nor as a reply, and its total
    counts the comments left on the entity: at least N + 1 fewer than
    before. *)
Theorem cascade_on_delete (dreq lreq : request) (w : world) (c : comment_row)
  (u : user) :
  pk_unique (comments w) ->
  reply_linked (comments w) ->
  req_user dreq = Some u ->
  Comment.select_pk (JStr (params dreq "id")) w = Some c ->
  c_parentId c = None ->
  (c_userId c =? u_id u) || (u_role u =? "admin")%string = true ->
  params lreq "entityType" = c_entityType c ->
  parseInt (params lreq "entityId") = Some (c_entityId c) ->
  includes Comment.validEntityTypes (JStr (params lreq "entityType")) = true ->
  (exists x, fst (find_entity (JStr (params lreq "entityType"))
                              (JStr (params lreq "entityId")) w)
             = Ok (Some x)) ->
  let m := Comment.matches (c_entityType c) (c_entityId c) in
  let removed d := d = c \/ Comment.isReplyTo (c_id c) d = true in
  exists r w' nodes total w'',
    deleteComment dreq w = (Ok r, w')
    /\ status r = 200 /\ success r = true
    /\ (forall d, removed d -> ~ In d (comments w'))
    /\ getEntityComments lreq w'
       = (Ok (mkResponse 200 true MsgNone
                (CommentList nodes total (List.length nodes))), w'')
    /\ (forall d, removed d -> ~ In d (visible nodes))
    /\ total = List.length (filter m (comments w'))
    /\ (total + List.length (filter (Comment.isReplyTo (c_id c)) (comments w))
        + 1 <= List.length (filter m (comments w)))%nat.
Proof.
  intros Hpk Hrl Hu Hf Htop Hok Ht He Hv Hx m removed.
  destruct (delete_allowed dreq w c u Hu Hf Hok)
    as (r & w' & E & St & Su & Cs & Fr & _).
  destruct Fr as (Fp & Fd & Ft & Fm & Fu & _).
  assert (Hx' : exists x,
             fst (find_entity (JStr (params lreq "entityType"))
                              (JStr (params lreq "entityId")) w')
             = Ok (Some x)).
  { destruct Hx as (x & Hx). exists x.
    now rewrite (find_entity_frame _ _ w w' Fp Fd Ft Fm). }
  destruct (list_shape lreq w' (c_entityId c) Hv Hx' He) as (w'' & L).
  assert (Gone : forall d, removed d -> ~ In d (comments w')).
  { intros d Hd Hin. rewrite Cs in Hin. apply delete_row_spec in Hin.
    destruct Hin as (_ & Hne & Hnr). destruct Hd as [->|Hd].
    - now apply Hne.
    - rewrite Hd in Hnr. discriminate. }
  eexists r, w', _, _, w''. split; [exact E|].
  split; [exact St|]. split; [exact Su|]. split; [exact Gone|].
  split; [exact L|]. split; [|split].
  - intros d Hd Hin. apply visible_threads_incl in Hin. now apply (Gone d).
  - rewrite Ht. reflexivity.
  - rewrite Ht, Cs. apply delete_row_count; auto.
    now apply select_pk_some in Hf.
Qed.

End Cascade.

Lemma cascade_on_delete_witness :
  let m := Comment.matches "task" 2 in
  let removed d := d = third_note \/ Comment.isReplyTo 12 d = true in
  exists r w' nodes total w'',
    deleteComment (H := demo) (request_of (Some carol) [] [("id", "12")])
                  busy_world = (Ok r, w')
    /\ status r = 200 /\ success r = true
    /\ (forall d, removed d -> ~ In d (comments w'))
    /\ getEntityComments (H := demo)
         (request_of None [] [("entityType", "task"); ("entityId", "2")]) w'
       = (Ok (mkResponse 200 true MsgNone
                (CommentList nodes total (List.length nodes))), w'')
    /\ (forall d, removed d -> ~ In d (visible nodes))
    /\ total = List.length (filter m (comments w'))
    /\ (total + List.length (filter (Comment.isReplyTo 12)
                                    (comments busy_world))
        + 1 <= List.length (filter m (comments busy_world)))%nat.
Proof.
  apply (cascade_on_delete (H := demo)
           (request_of (Some carol) [] [("id", "12")])
           (request_of None [] [("entityType", "task"); ("entityId", "2")])
           busy_world third_note carol).
  - unfold pk_unique. cbn. repeat constructor; cbn; intuition discriminate.
  - intros d p Hd Hp. cbn in Hd.
    destruct Hd as [<-|[<-|[<-|[<-|[<-|[]]]]]]; cbn in Hp;
      try discriminate; inversion Hp; subst;
      exists third_note; cbn; intuition.
  - reflexivity.
  - reflexivity.
  - reflexivity.
  - reflexivity.
  - reflexivity.
  - reflexivity.
  - reflexivity.
  - exists 2. reflexivity.
Defined.

(** ** Creating a comment *)

Lemma strict_eq_true a b : strict_eq a b = true -> a = b.
Proof.
  destruct a, b; cbn; try discriminate; auto.
  - intros E. apply Z.eqb_eq in E. now subst.
  - intros E. apply String.eqb_eq in E. now subst.
Qed.

Lemma strict_eq_refl a : strict_eq a a = true.
Proof. destruct a; cbn; auto using Z.eqb_refl, String.eqb_refl. Qed.

Section Create.
Context `{Platform}.

Lemma create_cases entityType entityId userId comment parent w :
  (exists e w', Comment.create entityType entityId userId comment parent w
                = (Thrown e, w')
                /\ log_only w w' /\ logs w' = logs w)
  \/ (exists t e b p,
        entityType = JStr t /\ to_int entityId = Some e
        /\ Comment.validated_text comment = Some b
        /\ existsb (String.eqb t) Comment.validEntityTypes = true
        /\ 1 <= e /\ Comment.validBody b = true
        /\ mem userId (map u_id (users w)) = true
        /\ parent_column parent (comments w) p
        /\ let c := mkComment (nextCommentId w) t e userId
                              (Comment.stored_text comment) p (now w) in
           Comment.create entityType entityId userId comment parent w
           = (Ok c, set_comments (comments w ++ [c]) (nextCommentId w + 1)
                                 (push_trace (Insert TComment) w))).
Proof.
  unfold Comment.create.
  assert (Rejected : forall e,
    exists e' w', (throw e : M comment_row) w = (Thrown e', w')
                  /\ log_only w w' /\ logs w' = logs w).
  { intros e. eexists _, _. split; [reflexivity|].
    split; [apply log_only_refl|reflexivity]. }
  destruct entityType as [| |n|t]; try (left; apply Rejected).
  destruct (to_int entityId) as [e|] eqn:Ee; try (left; apply Rejected).
  destruct (Comment.validated_text comment) as [b|] eqn:Eb;
    try (left; apply Rejected).
  destruct (existsb (String.eqb t) Comment.validEntityTypes) eqn:Vt;
    cbn [andb]; try (left; apply Rejected).
  destruct (1 <=? e) eqn:Ve; cbn [andb]; try (left; apply Rejected).
  destruct (Comment.validBody b) eqn:Vb; try (left; apply Rejected).
  apply Z.leb_le in Ve.
  unfold bind, issue, modify, gets, ret, throw.
  cbn -[mem Z.add Comment.stored_text].
  destruct (mem userId (map u_id (users w))) eqn:Mu.
  2:{ left. eexists _, _. split; [reflexivity|].
      split; [apply log_only_push_trace|reflexivity]. }
  destruct parent as [| |q|s]; cbn -[mem Z.add Comment.stored_text].
  - right. exists t, e, b, None. repeat split; auto.
  - right. exists t, e, b, None. repeat split; auto.
  - destruct (mem q (map c_id (comments w))) eqn:Mq.
    + right. exists t, e, b, (Some q). repeat split; auto.
      exists q. auto.
    + left. eexists _, _. split; [reflexivity|].
      split; [apply log_only_push_trace|reflexivity].
  - destruct (sqlInt s) as [q|] eqn:Es.
    + destruct (mem q (map c_id (comments w))) eqn:Mq.
      * right. exists t, e, b, (Some q). repeat split; auto.
        exists q. auto.
      * left. eexists _, _. split; [reflexivity|].
        split; [apply log_only_push_trace|reflexivity].
    + left. eexists _, _. split; [reflexivity|].
      split; [apply log_only_push_trace|reflexivity].
Qed.

Lemma check_parent_run entityType entityId parentId w :
  check_parent entityType entityId parentId w
  = if truthy parentId then
      (Ok match Comment.select_pk parentId w with
          | None => Some (mkResponse 404 false MsgParentNotFound NoData)
          | Some pc =>
              if negb (strict_eq (JStr (c_entityType pc)) entityType)
                 || negb (strict_eq (JNum (c_entityId pc)) entityId)
              then Some (mkResponse 400 false MsgParentOnOtherEntity NoData)
              else None
          end, push_trace (Select TComment) w)
    else (Ok None, w).
Proof.
  unfold check_parent. destruct (truthy parentId); [|reflexivity].
  rewrite (bind_ok _ _ _ _ _ (findByPk_run _ _)).
  destruct (Comment.select_pk parentId w) as [pc|]; [|reflexivity].
  destruct (negb _ || negb _); reflexivity.
Qed.


Lemma create_and_log_cases req entityType entityId comment parentId w :
  (exists e w', create_and_log req entityType entityId comment parentId w
                = (Thrown e, w')
                /\ log_only w w' /\ logs w' = logs w)
  \/ (exists u t e b p r w',
        req_user req = Some u
        /\ entityType = JStr t /\ to_int entityId = Some e
        /\ Comment.validated_text comment = Some b
        /\ existsb (String.eqb t) Comment.validEntityTypes = true
        /\ 1 <= e /\ Comment.validBody b = true
        /\ parent_column (js_or parentId JNull) (comments w) p
        /\ create_and_log req entityType entityId comment parentId w
           = (Ok r, w')
        /\ status r = 201 /\ success r = true
        /\ comments w'
           = (comments w
              ++ [mkComment (nextCommentId w) t e (u_id u)
                            (Comment.stored_text comment) p (now w)])%list
        /\ nextCommentId w' = nextCommentId w + 1
        /\ (logDown w = true -> logs w' = logs w)).
Proof.
  unfold create_and_log, current_user.
  destruct (req_user req) as [u|] eqn:Hu.
  2:{ left. eexists _, _. split; [reflexivity|].
      split; [apply log_only_refl|reflexivity]. }
  rewrite bind_ret.
  destruct (create_cases entityType entityId (u_id u) comment
                         (js_or parentId JNull) w)
    as [(e & w1 & E & L & Ll)
       |(t & e & b & p & Et & Ee & Ec & Vt & Ve & Vb & Mu & Pc & E)].
  - left. rewrite (bind_thrown _ _ _ _ _ E). eauto.
  - right. cbn zeta in E. rewrite (bind_ok _ _ _ _ _ E).
    match goal with
    | |- context [bind (createLog ?a ?b0 ?c0 ?d ?e0 ?f ?g ?h) ?k ?x] =>
        destruct (createLog_total a b0 c0 d e0 f g h x)
          as (o & w2 & El & L & D)
    end.
    rewrite (bind_ok _ _ _ _ _ El).
    destruct L as (Lp&Ld&Lt&Lm&Lu&Lc&Lte&Ltm&Li&Lnc&Lni&Lnow&Ldown).
    cbn in *.
    exists u, t, e, b, p. eexists _, _.
    repeat split; eauto; cbn; try congruence.
    intros Dn. apply D in Dn. tauto.
Qed.


Lemma createComment_cases req w :
  exists r w', createComment req w = (Ok r, w')
    /\ ((comments w' = comments w /\ nextCommentId w' = nextCommentId w
         /\ success r = false)
        \/ (exists c, comments w' = (comments w ++ [c])%list
                      /\ nextCommentId w' = nextCommentId w + 1
                      /\ c_id c = nextCommentId w
                      /\ status r = 201
                      /\ linked_to (comments w) c)).
Proof.
  unfold createComment, try_catch.
  destruct (negb (truthy (body req "entityType"))
            || negb (truthy (body req "entityId"))
            || negb (truthy (body req "comment"))).
  { cbn. eexists _, _. split; [reflexivity|]. left. auto. }
  destruct (negb (includes Comment.validEntityTypes (body req "entityType"))).
  { cbn. eexists _, _. split; [reflexivity|]. left. auto. }
  destruct (find_entity_run (body req "entityType") (body req "entityId") w)
    as (w1 & E & (o & Eo) & L & _).
  destruct L as (_&_&_&_&_&Lc&_&_&_&Lnc&_).
  rewrite Eo in E. rewrite (bind_ok _ _ _ _ _ E).
  destruct o as [x|].
  2:{ cbn. eexists _, _. split; [reflexivity|]. left. auto. }
  cbn beta iota. unfold bind at 1. rewrite check_parent_run.
  destruct (truthy (body req "parentId")) eqn:Tp.
  - destruct (Comment.select_pk (body req "parentId") w1) as [pc|] eqn:Hp.
    2:{ cbn. eexists _, _. split; [reflexivity|]. left. auto. }
    destruct (negb (strict_eq (JStr (c_entityType pc)) (body req "entityType"))
              || negb (strict_eq (JNum (c_entityId pc)) (body req "entityId")))
      eqn:Hs.
    { cbn. eexists _, _. split; [reflexivity|]. left. auto. }
    apply orb_false_iff in Hs. destruct Hs as [Hs1 Hs2].
    apply negb_false_iff, strict_eq_true in Hs1, Hs2.
    cbn beta iota.
    destruct (create_and_log_cases req (body req "entityType")
                (body req "entityId") (body req "comment")
                (body req "parentId") (push_trace (Select TComment) w1))
      as [(e & w2 & Ec & L2 & _)
         |(u & t & e & b & p & r & w2 & Hu & Et & Ee & Eb & _ & _ & _ & Pc
           & Ec & St & Su & Cs & Nc & _)].
    + rewrite Ec. cbn.
      destruct L2 as (_&_&_&_&_&Lc2&_&_&_&Lnc2&_). cbn in *.
      eexists _, _. split; [reflexivity|]. left. cbn. repeat split; congruence.
    + rewrite Ec. cbn in *.
      eexists _, _. split; [reflexivity|]. right.
      eexists. rewrite Cs, Nc, Lc, Lnc. repeat split; auto.
      unfold linked_to. cbn.
      unfold js_or in Pc. rewrite Tp in Pc.
      unfold Comment.select_pk in Hp.
      destruct (body req "parentId") as [| |n|s] eqn:Bp; try discriminate;
        destruct Pc as (q & Eq & _ & ->); rewrite Eq in Hp;
        apply lookup_some in Hp; destruct Hp as [Hin Hid];
        rewrite Lc in Hin; exists pc; repeat split; auto;
        try (rewrite <- Hs1 in Et; now inversion Et);
        rewrite <- Hs2 in Ee; cbn in Ee; now inversion Ee.
  - cbn beta iota.
    destruct (create_and_log_cases req (body req "entityType")
                (body req "entityId") (body req "comment")
                (body req "parentId") w1)
      as [(e & w2 & Ec & L2 & _)
         |(u & t & e & b & p & r & w2 & Hu & Et & Ee & Eb & _ & _ & _ & Pc
           & Ec & St & Su & Cs & Nc & _)].
    + rewrite Ec. cbn.
      destruct L2 as (_&_&_&_&_&Lc2&_&_&_&Lnc2&_). cbn in *.
      eexists _, _. split; [reflexivity|]. left. cbn. repeat split; congruence.
    + rewrite Ec. cbn in *.
      eexists _, _. split; [reflexivity|]. right.
      eexists. rewrite Cs, Nc, Lc, Lnc. repeat split; auto.
      unfold linked_to. cbn.
      unfold js_or in Pc. rewrite Tp in Pc. cbn in Pc. now subst p.
Qed.
End Create.

(** ** The store invariant is kept *)

(** Appending a fresh, linked row *)
Lemma store_ok_append cs n c :
  pk_unique cs -> ids_below n cs -> reply_linked cs ->
  c_id c = n -> linked_to cs c ->
  pk_unique (cs ++ [c]) /\ ids_below (n + 1) (cs ++ [c])
  /\ reply_linked (cs ++ [c]).
Proof.
  intros Hpk Hid Hrl Hc Hl. repeat split.
  - unfold pk_unique in *. rewrite map_app. cbn.
    apply NoDup_app; [exact Hpk|repeat constructor; intros []|].
    intros x Hx [<-|[]]. apply in_map_iff in Hx.
    destruct Hx as (d & Hd & Hin). apply Hid in Hin. lia.
  - intros d Hd. apply in_app_or in Hd. destruct Hd as [Hd|[<-|[]]].
    + apply Hid in Hd. lia.
    + lia.
  - intros d p Hd Hp. apply in_app_or in Hd. destruct Hd as [Hd|[<-|[]]].
    + destruct (Hrl d p Hd Hp) as (x & Hx & R). exists x.
      split; [apply in_or_app; now left|exact R].
    + unfold linked_to in Hl. rewrite Hp in Hl.
      destruct Hl as (x & Hx & R). exists x.
      split; [apply in_or_app; now left|exact R].
Qed.

(** Rewriting bodies *)
Lemma store_ok_map (f : comment_row -> comment_row) cs n :
  (forall d, c_id (f d) = c_id d /\ c_entityType (f d) = c_entityType d
             /\ c_entityId (f d) = c_entityId d
             /\ c_parentId (f d) = c_parentId d) ->
  pk_unique cs -> ids_below n cs -> reply_linked cs ->
  pk_unique (map f cs) /\ ids_below n (map f cs) /\ reply_linked (map f cs).
Proof.
  intros Hf Hpk Hid Hrl. repeat split.
  - unfold pk_unique in *. rewrite map_map.
    erewrite map_ext; [exact Hpk|]. intros d. apply Hf.
  - intros d Hd. apply in_map_iff in Hd. destruct Hd as (x & <- & Hx).
    destruct (Hf x) as (-> & _). now apply Hid.
  - intros d p Hd Hp. apply in_map_iff in Hd. destruct Hd as (x & <- & Hx).
    destruct (Hf x) as (E1 & E2 & E3 & E4). rewrite E4 in Hp.
    destruct (Hrl x p Hx Hp) as (y & Hy & R1 & R2 & R3).
    exists (f y). split; [now apply in_map|].
    destruct (Hf y) as (F1 & F2 & F3 & F4). repeat split; congruence.
Qed.

(** The cascade leaves no reference to a missing row *)
Lemma cascade_closed fuel : forall ids cs,
  (List.length cs <= fuel)%nat ->
  (forall c p, In c cs -> c_parentId c = Some p ->
               (exists d, In d cs /\ c_id d = p) \/ mem p ids = true) ->
  forall c p, In c (Comment.cascade fuel ids cs) -> c_parentId c = Some p ->
              exists d, In d (Comment.cascade fuel ids cs) /\ c_id d = p.
Proof.
  induction fuel as [|fuel IH]; intros ids cs Hlen Hcs c p Hc Hp.
  - cbn in Hc. destruct cs; [contradiction|cbn in Hlen; lia].
  - cbn in *. destruct (filter (Comment.references ids) cs) as [|k kids] eqn:E.
    + destruct (Hcs c p Hc Hp) as [Hd|Hm]; [exact Hd|].
      exfalso. assert (Hr : Comment.references ids c = false)
        by (eapply filter_nil_none; eauto).
      unfold Comment.references in Hr. rewrite Hp in Hr. congruence.
    + eapply (IH (map c_id (k :: kids))
                 (filter (fun c => negb (Comment.references ids c)) cs));
        [| |exact Hc|exact Hp].
      * pose proof (filter_length (Comment.references ids) cs) as Hl.
        rewrite E in Hl. cbn in Hl. lia.
      * intros c' p' Hc' Hp'. apply filter_In in Hc'.
        destruct Hc' as [Hin Hnr]. apply negb_true_iff in Hnr.
        destruct (Hcs c' p' Hin Hp') as [(d & Hd & Hid)|Hm].
        -- destruct (Comment.references ids d) eqn:Rd.
           ++ right. unfold mem. apply existsb_exists. exists (c_id d).
              split; [|now apply Z.eqb_eq].
              apply in_map. rewrite <- E. apply filter_In. auto.
           ++ left. exists d. split; [|exact Hid]. apply filter_In.
              now rewrite Rd.
        -- unfold Comment.references in Hnr. rewrite Hp' in Hnr. congruence.
Qed.

Lemma NoDup_map_filter {A B} (f : A -> B) (g : A -> bool) l :
  NoDup (map f l) -> NoDup (map f (filter g l)).
Proof.
  induction l as [|x l IH]; cbn; [auto|].
  intros Hn. inversion Hn as [|? ? Hx Hn']; subst.
  destruct (g x); cbn; auto. constructor; auto.
  intros Hin. apply Hx. apply in_map_iff in Hin.
  destruct Hin as (y & Ey & Hy). apply filter_In in Hy.
  rewrite <- Ey. apply in_map. tauto.
Qed.

Lemma cascade_pk_unique fuel : forall ids cs,
  pk_unique cs -> pk_unique (Comment.cascade fuel ids cs).
Proof.
  induction fuel as [|fuel IH]; intros ids cs Hn; [exact Hn|].
  cbn. destruct (filter (Comment.references ids) cs); [exact Hn|].
  apply IH. now apply NoDup_map_filter.
Qed.

Lemma store_ok_delete cs n id :
  pk_unique cs -> ids_below n cs -> reply_linked cs ->
  pk_unique (Comment.delete_row id cs) /\ ids_below n (Comment.delete_row id cs)
  /\ reply_linked (Comment.delete_row id cs).
Proof.
  intros Hpk Hid Hrl. repeat split.
  - unfold Comment.delete_row. apply cascade_pk_unique.
    now apply NoDup_map_filter.
  - intros d Hd. apply delete_row_spec in Hd. apply Hid. tauto.
  - intros c p Hc Hp.
    assert (Hex : exists d, In d (Comment.delete_row id cs) /\ c_id d = p).
    { unfold Comment.delete_row in *.
      eapply cascade_closed; eauto.
      intros c' p' Hc' Hp'. apply filter_In in Hc'. destruct Hc' as [Hin _].
      destruct (Hrl c' p' Hin Hp') as (d & Hd & Hdid & _).
      destruct (c_id d =? id) eqn:Ed.
      - right. cbn. rewrite <- Hdid, Ed. reflexivity.
      - left. exists d. split; [|exact Hdid]. apply filter_In.
        now rewrite Ed. }
    destruct Hex as (d & Hd & Hdid). exists d. split; [exact Hd|].
    split; [exact Hdid|].
    apply delete_row_spec in Hc, Hd.
    destruct (Hrl c p (proj1 Hc) Hp) as (x & Hx & Hxid & R).
    assert (x = d) by (eapply pk_unique_eq; eauto; try tauto; congruence).
    subst x. exact R.
Qed.

Section Cases.
Context `{Platform}.

Lemma update_run c b w :
  Comment.validBody b = true ->
  Comment.update c (JStr b) w
  = (Ok (Comment.with_body b c),
     set_comments (Comment.set_body (c_id c) b (comments w)) (nextCommentId w)
                  (push_trace (Update TComment) w)).
Proof.
  intros V. unfold Comment.update. cbn [Comment.validated_text].
  rewrite V. reflexivity.
Qed.

(** The same for any value: the validators see [String(value)]. *)
Lemma update_value_run c v b w :
  Comment.validated_text v = Some b ->
  Comment.validBody b = true ->
  Comment.update c v w
  = (Ok (Comment.with_body (Comment.stored_text v) c),
     set_comments (Comment.set_body (c_id c) (Comment.stored_text v)
                                    (comments w))
                  (nextCommentId w) (push_trace (Update TComment) w)).
Proof. intros E V. unfold Comment.update. rewrite E, V. reflexivity. Qed.

Lemma update_author req w existing u :
  truthy (body req "comment") = true ->
  req_user req = Some u ->
  Comment.select_pk (JStr (params req "id")) w = Some existing ->
  c_userId existing = u_id u ->
  exists r w', updateComment req w = (Ok r, w')
    /\ nextCommentId w' = nextCommentId w
    /\ ((exists b, Comment.validated_text (body req "comment") = Some b
                   /\ Comment.validBody b = true
                   /\ status r = 200 /\ success r = true
                   /\ comments w'
                      = Comment.set_body (c_id existing)
                          (Comment.stored_text (body req "comment"))
                          (comments w)
                   /\ (logDown w = true -> logs w' = logs w))
        \/ ((forall b, Comment.validated_text (body req "comment") = Some b ->
                       Comment.validBody b = false)
            /\ kind_of r = Some Internal /\ comments w' = comments w)).
Proof.
  intros T Hu Hf Ha.
  unfold updateComment, try_catch. rewrite T. cbn [negb].
  rewrite (bind_ok _ _ _ _ _ (findByPk_run _ _)), Hf.
  unfold current_user. rewrite Hu, bind_ret.
  apply Z.eqb_eq in Ha. rewrite Ha. cbn [negb].
  destruct (Comment.validated_text (body req "comment")) as [b|] eqn:Bc.
  2:{ unfold Comment.update. rewrite Bc.
      cbn. eexists _, _. split; [reflexivity|]. split; [reflexivity|].
      right. repeat split. intros; discriminate. }
  destruct (Comment.validBody b) eqn:Vb.
  2:{ unfold Comment.update. rewrite Bc, Vb.
      cbn. eexists _, _. split; [reflexivity|]. split; [reflexivity|].
      right. repeat split. intros b' E. inversion E; subst. exact Vb. }
  rewrite (bind_ok _ _ _ _ _ (update_value_run _ _ _ _ Bc Vb)).
  match goal with
  | |- context [bind (createLog ?a ?b0 ?c0 ?d ?e0 ?f ?g ?h) ?k ?x] =>
      destruct (createLog_total a b0 c0 d e0 f g h x)
        as (o & w2 & El & L & D)
  end.
  rewrite (bind_ok _ _ _ _ _ El).
  destruct L as (Lp&Ld&Lt&Lm&Lu&Lc&Lte&Ltm&Li&Lnc&Lni&Lnow&Ldown).
  cbn in *. eexists _, _. split; [reflexivity|]. cbn.
  split; [exact Lnc|]. left. exists b. repeat split; auto.
  intros Dn. apply D in Dn. tauto.
Qed.

Lemma updateComment_cases req w :
  exists r w', updateComment req w = (Ok r, w')
    /\ nextCommentId w' = nextCommentId w
    /\ (comments w' = comments w
        \/ exists id b, comments w' = Comment.set_body id b (comments w)).
Proof.
  destruct (truthy (body req "comment")) eqn:T.
  2:{ unfold updateComment, try_catch. rewrite T. cbn.
      eexists _, _. split; [reflexivity|]. auto. }
  destruct (Comment.select_pk (JStr (params req "id")) w) as [c|] eqn:Hf.
  2:{ unfold updateComment, try_catch. rewrite T. cbn [negb].
      rewrite (bind_ok _ _ _ _ _ (findByPk_run _ _)), Hf. cbn.
      eexists _, _. split; [reflexivity|]. auto. }
  destruct (req_user req) as [u|] eqn:Hu.
  2:{ unfold updateComment, try_catch. rewrite T. cbn [negb].
      rewrite (bind_ok _ _ _ _ _ (findByPk_run _ _)), Hf.
      unfold current_user. rewrite Hu. cbn.
      eexists _, _. split; [reflexivity|]. auto. }
  destruct (Z.eq_dec (c_userId c) (u_id u)) as [Ha|Hn].
  - destruct (update_author req w c u T Hu Hf Ha)
      as (r & w' & E & N & [(b & _ & _ & _ & _ & Cs & _)|(_ & _ & Cs)]);
      exists r, w'; repeat split; eauto.
  - destruct (update_by_other req w c u Hu Hf Hn) as (r & w' & E & _ & _ & Cs).
    exists r, w'. split; [exact E|]. split; [|auto].
    revert E. unfold updateComment, try_catch. rewrite T. cbn [negb].
    rewrite (bind_ok _ _ _ _ _ (findByPk_run _ _)), Hf.
    unfold current_user. rewrite Hu, bind_ret.
    apply Z.eqb_neq in Hn. rewrite Hn. cbn. intros E. now inversion E.
Qed.

Lemma deleteComment_cases req w :
  exists r w', deleteComment req w = (Ok r, w')
    /\ nextCommentId w' = nextCommentId w
    /\ (comments w' = comments w
        \/ exists id, comments w' = Comment.delete_row id (comments w)).
Proof.
  destruct (Comment.select_pk (JStr (params req "id")) w) as [c|] eqn:Hf.
  2:{ unfold deleteComment, try_catch, Comment.findByPk_with_replies.
      rewrite (bind_ok _ _ _ _ _ (bind_ok _ _ _ _ _ (findByPk_run _ _))), Hf.
      cbn. eexists _, _. split; [reflexivity|]. auto. }
  destruct (req_user req) as [u|] eqn:Hu.
  2:{ unfold deleteComment, try_catch, Comment.findByPk_with_replies.
      rewrite (bind_ok _ _ _ _ _ (bind_ok _ _ _ _ _ (findByPk_run _ _))), Hf.
      unfold current_user. rewrite Hu. cbn.
      eexists _, _. split; [reflexivity|]. auto. }
  destruct ((c_userId c =? u_id u) || (u_role u =? "admin")%string) eqn:B.
  - destruct (delete_allowed req w c u Hu Hf B)
      as (r & w' & E & _ & _ & Cs & Fr & _).
    exists r, w'. split; [exact E|].
    destruct Fr as (_&_&_&_&_&_&_&_&Nc&_). split; [exact Nc|]. eauto.
  - destruct (delete_forbidden req w c u Hu Hf B) as (r & E & _).
    eexists _, _. split; [exact E|]. auto.
Qed.

(** Each of the three mutating operations keeps the primary key, the bound
    on the ids and the reply linkage. *)
Lemma store_ok_preserved req w :
  store_ok w ->
  store_ok (snd (createComment req w))
  /\ store_ok (snd (updateComment req w))
  /\ store_ok (snd (deleteComment req w)).
Proof.
  intros (Hpk & Hid & Hrl). split; [|split].
  - destruct (createComment_cases req w)
      as (r & w' & E & [(Cs & Nc & _)|(c & Cs & Nc & Hc & _ & Hl)]);
      rewrite E; unfold store_ok; cbn [snd]; rewrite Cs, Nc.
    + auto.
    + now apply store_ok_append.
  - destruct (updateComment_cases req w)
      as (r & w' & E & Nc & [Cs|(id & b & Cs)]);
      rewrite E; unfold store_ok; cbn [snd]; rewrite Cs, Nc.
    + auto.
    + apply store_ok_map; auto.
      intros d. destruct (c_id d =? id); cbn; auto.
  - destruct (deleteComment_cases req w)
      as (r & w' & E & Nc & [Cs|(id & Cs)]);
      rewrite E; unfold store_ok; cbn [snd]; rewrite Cs, Nc.
    + auto.
    + now apply store_ok_delete.
Qed.

End Cases.

(** ** Reply linkage *)

Section Linkage.
Context `{Platform}.

(** When the checks that come first pass and a parent id is given, a
    missing parent and a parent on another entity are both refused, and
    nothing is written. *)
Lemma create_parent_rejected req w :
  passes_early_checks req w ->
  truthy (body req "parentId") = true ->
  exists r w', createComment req w = (Ok r, w')
    /\ match Comment.select_pk (body req "parentId") w with
       | None => status r = 404 /\ message r = MsgParentNotFound
                 /\ comments w' = comments w
       | Some pc =>
           ~ same_entity (body req "entityType") (body req "entityId") pc ->
           status r = 400 /\ message r = MsgParentOnOtherEntity
           /\ comments w' = comments w
       end.
Proof.
  intros (T1 & T2 & T3 & V & x & Hx) Tp.
  destruct (find_entity_run (body req "entityType") (body req "entityId") w)
    as (w1 & E & _ & L & _).
  rewrite Hx in E. destruct L as (_&_&_&_&_&Lc&_).
  destruct (createComment_total req w) as (r & w' & Er).
  exists r, w'. split; [exact Er|]. revert Er.
  unfold createComment, try_catch. rewrite T1, T2, T3, V. cbn [negb orb].
  rewrite (bind_ok _ _ _ _ _ E). cbn beta iota. unfold bind at 1.
  rewrite check_parent_run, Tp, (select_pk_frame _ _ _ Lc).
  destruct (Comment.select_pk (body req "parentId") w) as [pc|].
  - intros Er Hne.
    destruct (negb (strict_eq (JStr (c_entityType pc)) (body req "entityType"))
              || negb (strict_eq (JNum (c_entityId pc)) (body req "entityId")))
      eqn:Hs.
    + cbn in Er. inversion Er; subst. cbn. auto.
    + exfalso. apply Hne. apply orb_false_iff in Hs. destruct Hs as [Hs1 Hs2].
      apply negb_false_iff, strict_eq_true in Hs1, Hs2. split; congruence.
  - cbn. intros Er. inversion Er; subst. cbn. auto.
Qed.

(** C1, as amended.  For a create request that passes the checks made
    before the parent is looked at (the three required fields, the entity
    type, the existence of the entity) and gives a parent id that is
    neither 0 nor empty: when no comment has that id the request fails with
    NotFound, when the parent's (entityType, entityId) differs from the
    request's it fails with InvalidReference, and in both cases no comment is
    written.  Moreover create, update and delete, on any request, keep the
    store well formed; so every stored comment with a parent has that
    parent stored, with the same (entityType, entityId). *)
Theorem reply_linkage (req : request) (w : world) :
  store_ok w ->
  passes_early_checks req w ->
  truthy (body req "parentId") = true ->
  exists r w', createComment req w = (Ok r, w')
    /\ match Comment.select_pk (body req "parentId") w with
       | None => kind_of r = Some NotFound /\ comments w' = comments w
       | Some pc =>
           ~ same_entity (body req "entityType") (body req "entityId") pc ->
           kind_of r = Some InvalidReference /\ comments w' = comments w
       end
    /\ reply_linked (comments w')
    /\ (forall any, store_ok (snd (createComment any w))
                    /\ store_ok (snd (updateComment any w))
                    /\ store_ok (snd (deleteComment any w))).
Proof.
  intros Hok Hp Tp.
  destruct (create_parent_rejected req w Hp Tp) as (r & w' & E & R).
  exists r, w'. split; [exact E|]. split; [|split].
  - destruct (Comment.select_pk (body req "parentId") w) as [pc|].
    + intros Hne. destruct (R Hne) as (St & Ms & Cs).
      split; [|exact Cs]. unfold kind_of. rewrite St, Ms. reflexivity.
    + destruct R as (St & Ms & Cs).
      split; [|exact Cs]. unfold kind_of. rewrite St. reflexivity.
  - destruct (store_ok_preserved req w Hok) as (Hc & _).
    rewrite E in Hc. apply Hc.
  - intros any. now apply store_ok_preserved.
Qed.

End Linkage.

(** C1 fails as stated, on two counts.  Bob replies to comment 1, which is
    on (project, 1), with the target (task, 99): the parent's pair differs
    from the request's, yet the answer is NotFound (task 99 does not exist
    and that check comes first), not InvalidReference.  And a request with
    the parent id 0, which no comment has, is not refused: it is stored as a
    top-level comment. *)
Lemma reply_linkage_counterexample :
  let req := request_of (Some bob)
               [("entityType", JStr "task"); ("entityId", JNum 99);
                ("comment", JStr "me too"); ("parentId", JNum 1)] [] in
  let zero := request_of (Some bob)
                [("entityType", JStr "task"); ("entityId", JNum 2);
                 ("comment", JStr "me too"); ("parentId", JNum 0)] [] in
  (Comment.select_pk (H := demo) (body req "parentId") thread_world
   = Some nice_work
   /\ ~ same_entity (body req "entityType") (body req "entityId") nice_work
   /\ exists r, fst (createComment (H := demo) req thread_world) = Ok r
                /\ message r = MsgEntityNotFound
                /\ kind_of r = Some NotFound
                /\ kind_of r <> Some InvalidReference)
  /\ (Comment.select_pk (H := demo) (body zero "parentId") thread_world = None
      /\ exists r, fst (createComment (H := demo) zero thread_world) = Ok r
                   /\ status r = 201
                   /\ kind_of r <> Some NotFound).
Proof.
  split.
  - split; [reflexivity|]. split.
    + intros [E _]. discriminate.
    + eexists. repeat split; try reflexivity. discriminate.
  - split; [reflexivity|].
    eexists. split; [vm_compute; reflexivity|]. split; [reflexivity|].
    discriminate.
Qed.

Lemma thread_world_ok : store_ok thread_world.
Proof.
  split; [|split].
  - unfold pk_unique. cbn. repeat constructor; cbn; intuition discriminate.
  - intros c Hc. cbn in Hc. destruct Hc as [<-|[<-|[]]]; cbn; lia.
  - intros c p Hc Hp. cbn in Hc. destruct Hc as [<-|[<-|[]]]; cbn in Hp;
      try discriminate; inversion Hp; subst.
    exists nice_work. cbn. intuition.
Defined.

Lemma reply_linkage_witness :
  let req := request_of (Some bob)
               [("entityType", JStr "task"); ("entityId", JNum 2);
                ("comment", JStr "me too"); ("parentId", JNum 1)] [] in
  exists r w', createComment (H := demo) req thread_world = (Ok r, w')
    /\ match Comment.select_pk (H := demo) (body req "parentId") thread_world
       with
       | None => kind_of r = Some NotFound
                 /\ comments w' = comments thread_world
       | Some pc =>
           ~ same_entity (body req "entityType") (body req "entityId") pc ->
           kind_of r = Some InvalidReference
           /\ comments w' = comments thread_world
       end
    /\ reply_linked (comments w')
    /\ (forall any,
          store_ok (snd (createComment (H := demo) any thread_world))
          /\ store_ok (snd (updateComment (H := demo) any thread_world))
          /\ store_ok (snd (deleteComment (H := demo) any thread_world))).
Proof.
  apply (reply_linkage (H := demo)
           (request_of (Some bob)
              [("entityType", JStr "task"); ("entityId", JNum 2);
               ("comment", JStr "me too"); ("parentId", JNum 1)] [])
           thread_world).
  - exact thread_world_ok.
  - repeat split; try reflexivity. exists 2. reflexivity.
  - reflexivity.
Defined.

(** ** The audit log does not block the operation *)

Section Audit.
Context `{Platform}.

Lemma mem_ids q cs pc : In pc cs -> c_id pc = q -> mem q (map c_id cs) = true.
Proof.
  intros Hin Hid. unfold mem. apply existsb_exists. exists q.
  split; [|apply Z.eqb_refl]. rewrite <- Hid. now apply in_map.
Qed.

Lemma mem_users u us : In u us -> mem (u_id u) (map u_id us) = true.
Proof.
  intros Hin. unfold mem. apply existsb_exists. exists (u_id u).
  split; [now apply in_map|apply Z.eqb_refl].
Qed.

Lemma create_run t entityId e userId b parent p w :
  existsb (String.eqb t) Comment.validEntityTypes = true ->
  to_int entityId = Some e -> 1 <= e ->
  Comment.validBody b = true ->
  mem userId (map u_id (users w)) = true ->
  (truthy parent = false /\ parent = JNull /\ p = None
   \/ truthy parent = true
      /\ exists pc, Comment.select_pk parent w = Some pc
                    /\ p = Some (c_id pc)) ->
  let c := mkComment (nextCommentId w) t e userId b p (now w) in
  Comment.create (JStr t) entityId userId (JStr b) parent w
  = (Ok c, set_comments (comments w ++ [c]) (nextCommentId w + 1)
                        (push_trace (Insert TComment) w)).
Proof.
  intros Vt Ee Ve Vb Mu Hp c. unfold Comment.create.
  cbn [Comment.validated_text].
  rewrite Ee, Vt, Vb. apply Z.leb_le in Ve. rewrite Ve. cbn [andb].
  unfold bind, issue, modify, gets, ret, throw.
  cbn -[mem Z.add]. rewrite Mu.
  destruct Hp as [(_ & -> & ->)|(Tp & pc & Hpc & ->)]; [reflexivity|].
  unfold Comment.select_pk in Hpc.
  destruct parent as [| |q|s]; try discriminate; cbn -[mem Z.add] in *.
  - apply lookup_some in Hpc. destruct Hpc as [Hin Hid].
    rewrite (mem_ids q _ pc Hin Hid). subst c. now rewrite Hid.
  - destruct (sqlInt s) as [q|]; [|discriminate].
    apply lookup_some in Hpc. destruct Hpc as [Hin Hid].
    rewrite (mem_ids q _ pc Hin Hid). subst c. now rewrite Hid.
Qed.

Lemma create_success req w u t e b p :
  passes_early_checks req w ->
  req_user req = Some u ->
  In u (users w) ->
  body req "entityType" = JStr t ->
  to_int (body req "entityId") = Some e -> 1 <= e ->
  body req "comment" = JStr b -> Comment.validBody b = true ->
  (truthy (body req "parentId") = false /\ p = None
   \/ truthy (body req "parentId") = true
      /\ exists pc, Comment.select_pk (body req "parentId") w = Some pc
                    /\ same_entity (body req "entityType")
                                   (body req "entityId") pc
                    /\ p = Some (c_id pc)) ->
  exists r w', createComment req w = (Ok r, w')
    /\ status r = 201 /\ success r = true
    /\ comments w'
       = (comments w
          ++ [mkComment (nextCommentId w) t e (u_id u) b p (now w)])%list
    /\ entities_kept w w'
    /\ (logDown w = true -> logs w' = logs w).
Proof.
  intros (T1 & T2 & T3 & V & x & Hx) Hu Hin Et Ee Ve Eb Vb Hp.
  destruct (find_entity_run (body req "entityType") (body req "entityId") w)
    as (w1 & E & _ & L & Ll).
  rewrite Hx in E.
  destruct L as (Lp&Ld&Lt&Lm&Lu&Lc&_&_&_&Lnc&_&Lnow&Ldown).
  unfold createComment, try_catch. rewrite T1, T2, T3, V. cbn [negb orb].
  rewrite (bind_ok _ _ _ _ _ E). cbn beta iota. unfold bind at 1.
  rewrite check_parent_run.
  assert (Vt : existsb (String.eqb t) Comment.validEntityTypes = true).
  { rewrite Et in V. unfold includes in V. cbn in V |- *.
    rewrite !(String.eqb_sym t). exact V. }
  set (w2 := if truthy (body req "parentId")
             then push_trace (Select TComment) w1 else w1).
  assert (F2 : comments w2 = comments w /\ nextCommentId w2 = nextCommentId w
               /\ now w2 = now w /\ logDown w2 = logDown w
               /\ logs w2 = logs w /\ entities_kept w w2).
  { unfold w2, entities_kept.
    destruct (truthy (body req "parentId")); cbn; repeat split; auto. }
  destruct F2 as (Fc & Fn & Fnow & Fd & Fl & Fp & Fdo & Ft & Fm & Fu).
  assert (Early :
    (if truthy (body req "parentId")
     then (Ok match Comment.select_pk (body req "parentId") w1 with
              | Some pc =>
                  if negb (strict_eq (JStr (c_entityType pc))
                                     (body req "entityType"))
                     || negb (strict_eq (JNum (c_entityId pc))
                                        (body req "entityId"))
                  then Some (mkResponse 400 false MsgParentOnOtherEntity NoData)
                  else None
              | None => Some (mkResponse 404 false MsgParentNotFound NoData)
              end, push_trace (Select TComment) w1)
     else (Ok None, w1)) = (Ok None, w2)).
  { unfold w2. destruct Hp as [(Tp & _)|(Tp & pc & Hpc & (S1 & S2) & _)];
      rewrite Tp; [reflexivity|].
    rewrite (select_pk_frame _ _ _ Lc), Hpc, S1, S2.
    now rewrite !strict_eq_refl. }
  rewrite Early. clear Early.
  unfold create_and_log, current_user. rewrite Hu, bind_ret, Et, Eb.
  assert (Hp2 : truthy (js_or (body req "parentId") JNull) = false
                /\ js_or (body req "parentId") JNull = JNull /\ p = None
                \/ truthy (js_or (body req "parentId") JNull) = true
                   /\ exists pc,
                        Comment.select_pk (js_or (body req "parentId") JNull) w2
                        = Some pc /\ p = Some (c_id pc)).
  { unfold js_or. destruct Hp as [(Tp & ->)|(Tp & pc & Hpc & _ & ->)];
      rewrite Tp; [left; auto|right].
    split; [exact Tp|]. exists pc. split; [|reflexivity].
    now rewrite (select_pk_frame _ _ _ Fc). }
  assert (Mu : mem (u_id u) (map u_id (users w2)) = true)
    by (rewrite Fu; now apply mem_users).
  rewrite (bind_ok _ _ _ _ _
             (create_run t (body req "entityId") e (u_id u) b _ p w2
                         Vt Ee Ve Vb Mu Hp2)).
  match goal with
  | |- context [bind (createLog ?a ?b0 ?c0 ?d ?e0 ?f ?g ?h) ?k ?x] =>
      destruct (createLog_total a b0 c0 d e0 f g h x)
        as (o & w3 & El & L & D)
  end.
  rewrite (bind_ok _ _ _ _ _ El).
  destruct L as (Lp3&Ld3&Lt3&Lm3&Lu3&Lc3&_).
  cbn in *. eexists _, _. split; [reflexivity|]. cbn.
  repeat split; cbn; try congruence;
    try (intros Dn; rewrite <- Fl; apply D; congruence).
Qed.

(** With the log table down, [createLog] catches the failure, reports it on
    the console and returns [null]; nothing else changes. *)
Lemma createLog_down action desc entityType entityId oldValue newValue
  performedBy req w :
  logDown w = true ->
  exists e w',
    createLog action desc entityType entityId oldValue newValue performedBy
              req w = (Ok None, w')
    /\ console w' = (console w ++ [(HCreateLog, e)])%list
    /\ logs w' = logs w /\ log_only w w'.
Proof.
  intros D. rewrite createLog_run, D.
  destruct (notEmpty action && notEmpty entityType && (1 <=? entityId));
    cbn; eexists _, _; repeat split.
Qed.

End Audit.

(** ** Replies to replies *)

Lemma visible_threads_eq `{Platform} t e w :
  visible (Comment.threads t e w)
  = flat_map (thread_rows (comments w))
      (order_by DESC
         (filter (fun c => Comment.matches t e c && Comment.isTopLevel c)
                 (comments w))).
Proof.
  unfold visible, Comment.threads.
  generalize (order_by DESC
                (filter (fun c => Comment.matches t e c && Comment.isTopLevel c)
                        (comments w))).
  intros l. induction l as [|c0 l IH]; [reflexivity|].
  cbn [flat_map map n_row n_replies]. rewrite IH.
  unfold thread_rows, Comment.replies. rewrite map_map.
  cbn [cv_row Comment.view].
  now rewrite map_id.
Qed.

Lemma NoDup_flat_map {A B} (f : A -> list B) l :
  NoDup l ->
  (forall x, In x l -> NoDup (f x)) ->
  (forall x y b, In x l -> In y l -> In b (f x) -> In b (f y) -> x = y) ->
  NoDup (flat_map f l).
Proof.
  induction l as [|x l IH]; cbn; intros Hn Hf Hd; [constructor|].
  inversion Hn as [|? ? Hx Hn']; subst.
  apply NoDup_app.
  - apply Hf. now left.
  - apply IH; auto. intros a b c Ha Hb. apply Hd; now right.
  - intros b Hb Hin. apply in_flat_map in Hin. destruct Hin as (y & Hy & Hby).
    assert (x = y) by (eapply Hd; eauto). subst. contradiction.
Qed.

Lemma isReplyTo_parent p d :
  Comment.isReplyTo p d = true <-> c_parentId d = Some p.
Proof.
  unfold Comment.isReplyTo. destruct (c_parentId d) as [q|]; split; intros E;
    try discriminate.
  - apply Z.eqb_eq in E. now subst.
  - inversion E. apply Z.eqb_refl.
Qed.

Lemma isTopLevel_parent d : Comment.isTopLevel d = true <-> c_parentId d = None.
Proof.
  unfold Comment.isTopLevel. destruct (c_parentId d); split; auto; discriminate.
Qed.

Lemma thread_rows_In `{Platform} cs c0 d :
  In d (thread_rows cs c0) <->
  d = c0 \/ (In d cs /\ c_parentId d = Some (c_id c0)).
Proof.
  unfold thread_rows. cbn.
  assert (P : In d (join_order (filter (Comment.isReplyTo (c_id c0)) cs))
              <-> In d (filter (Comment.isReplyTo (c_id c0)) cs)).
  { split; apply Permutation_in;
      [|apply Permutation_sym]; apply join_order_perm. }
  rewrite P, filter_In, isReplyTo_parent. intuition.
Qed.

Lemma visible_NoDup `{Platform} t e w :
  pk_unique (comments w) -> NoDup (visible (Comment.threads t e w)).
Proof.
  intros Hpk. pose proof (pk_unique_NoDup _ Hpk) as Hnd.
  rewrite visible_threads_eq.
  set (tops := order_by DESC _).
  assert (Htops : forall x, In x tops ->
                    In x (comments w) /\ c_parentId x = None).
  { intros x Hx. apply order_by_In, filter_In in Hx.
    destruct Hx as [Hin Hx]. apply andb_true_iff in Hx.
    split; [exact Hin|]. now apply isTopLevel_parent. }
  apply NoDup_flat_map.
  - eapply Permutation_NoDup; [apply order_by_perm|]. now apply NoDup_filter.
  - intros x Hx. unfold thread_rows. constructor.
    + intros Hin. apply (Permutation_in _ (join_order_perm _)) in Hin.
      apply filter_In in Hin. destruct Hin as [_ Hp].
      apply isReplyTo_parent in Hp.
      destruct (Htops x Hx) as [_ Hn]. congruence.
    + eapply Permutation_NoDup;
        [apply Permutation_sym, join_order_perm|]. now apply NoDup_filter.
  - intros x y b Hx Hy Hbx Hby.
    apply thread_rows_In in Hbx, Hby.
    destruct (Htops x Hx) as [Hxin Hxn], (Htops y Hy) as [Hyin Hyn].
    destruct Hbx as [->|[_ Hbx]], Hby as [->|[_ Hby]]; auto; try congruence.
    eapply pk_unique_eq; eauto. congruence.
Qed.

Lemma nested_reply_invisible `{Platform} t e w c pc g :
  pk_unique (comments w) -> reply_linked (comments w) ->
  In c (comments w) -> In pc (comments w) ->
  c_parentId c = Some (c_id pc) -> c_parentId pc = Some g ->
  c_entityType c = t -> c_entityId c = e ->
  ~ In c (visible (Comment.threads t e w))
  /\ In c (filter (Comment.matches t e) (comments w))
  /\ (List.length (visible (Comment.threads t e w))
      < List.length (filter (Comment.matches t e) (comments w)))%nat.
Proof.
  intros Hpk Hrl Hc Hpc Hcp Hpp Et Ee.
  assert (Htops : forall x,
            In x (order_by DESC
                    (filter (fun c => Comment.matches t e c
                                      && Comment.isTopLevel c) (comments w))) ->
            In x (comments w) /\ Comment.matches t e x = true
            /\ c_parentId x = None).
  { intros x Hx. apply order_by_In, filter_In in Hx.
    destruct Hx as [Hin Hx]. apply andb_true_iff in Hx.
    destruct Hx as [Hm Ht]. apply isTopLevel_parent in Ht. auto. }
  assert (Hnot : ~ In c (visible (Comment.threads t e w))).
  { rewrite visible_threads_eq. intros Hin. apply in_flat_map in Hin.
    destruct Hin as (x & Hx & Hcx). apply thread_rows_In in Hcx.
    destruct (Htops x Hx) as (Hxin & _ & Hxn).
    destruct Hcx as [->|[_ Hcx]]; [congruence|].
    assert (x = pc) by (eapply pk_unique_eq; eauto; congruence).
    subst x. congruence. }
  assert (Hm : Comment.matches t e c = true).
  { unfold Comment.matches. rewrite Et, Ee, String.eqb_refl, Z.eqb_refl.
    reflexivity. }
  split; [exact Hnot|]. split; [apply filter_In; auto|].
  apply (NoDup_incl_length (l := c :: visible (Comment.threads t e w))).
  - constructor; [exact Hnot|]. now apply visible_NoDup.
  - intros d [<-|Hd]; [apply filter_In; auto|].
    rewrite visible_threads_eq in Hd. apply in_flat_map in Hd.
    destruct Hd as (x & Hx & Hdx). apply thread_rows_In in Hdx.
    destruct (Htops x Hx) as (Hxin & Hxm & Hxn).
    destruct Hdx as [->|[Hdin Hdp]]; [apply filter_In; auto|].
    apply filter_In. split; [exact Hdin|].
    destruct (Hrl d (c_id x) Hdin Hdp) as (y & Hy & Hyid & Yt & Yi).
    assert (y = x) by (eapply pk_unique_eq; eauto). subst y.
    unfold Comment.matches in *. now rewrite <- Yt, <- Yi.
Qed.

Section Nested.
Context `{Platform}.

(** C10.  The create operation accepts a parent that is itself a reply:
    only its existence and its (entityType, entityId) are checked, so the
    new comment of a caller who is a user of the store is stored with that
    parent, at depth 2.  In a well-formed
    store, a list of the entity afterwards answers a tree that shows no
    comment whose parent is a reply (the new one among them), although each
    of them is counted in the total, so the total exceeds the number of
    comments the tree shows. *)
Theorem nested_reply_counted_not_listed (creq lreq : request) (w : world)
  (u : user) (t : string) (e : Z) (b : string) (pc : comment_row) (g : Z) :
  store_ok w ->
  passes_early_checks creq w ->
  req_user creq = Some u ->
  In u (users w) ->
  body creq "entityType" = JStr t ->
  to_int (body creq "entityId") = Some e -> 1 <= e ->
  body creq "comment" = JStr b -> Comment.validBody b = true ->
  truthy (body creq "parentId") = true ->
  Comment.select_pk (body creq "parentId") w = Some pc ->
  same_entity (body creq "entityType") (body creq "entityId") pc ->
  c_parentId pc = Some g ->
  params lreq "entityType" = t ->
  parseInt (params lreq "entityId") = Some e ->
  (exists x, fst (find_entity (JStr (params lreq "entityType"))
                              (JStr (params lreq "entityId")) w)
             = Ok (Some x)) ->
  exists r w' c nodes total w'',
    createComment creq w = (Ok r, w')
    /\ status r = 201 /\ success r = true
    /\ comments w' = (comments w ++ [c])%list
    /\ c_parentId c = Some (c_id pc)
    /\ getEntityComments lreq w'
       = (Ok (mkResponse 200 true MsgNone
                (CommentList nodes total (List.length nodes))), w'')
    /\ total = List.length (filter (Comment.matches t e) (comments w'))
    /\ (forall d pd gd,
          In d (comments w') -> In pd (comments w') ->
          c_parentId d = Some (c_id pd) -> c_parentId pd = Some gd ->
          c_entityType d = t -> c_entityId d = e ->
          ~ In d (visible nodes)
          /\ In d (filter (Comment.matches t e) (comments w')))
    /\ ~ In c (visible nodes)
    /\ (List.length (visible nodes) < total)%nat.
Proof.
  intros Hok Hp Hu Hin Et Ee Ve Eb Vb Tp Hpc Hs Hg Lt Le Hx.
  assert (Hpar : truthy (body creq "parentId") = false /\ Some (c_id pc) = None
                 \/ truthy (body creq "parentId") = true
                    /\ exists pc0,
                         Comment.select_pk (body creq "parentId") w = Some pc0
                         /\ same_entity (body creq "entityType")
                                        (body creq "entityId") pc0
                         /\ Some (c_id pc) = Some (c_id pc0)).
  { right. split; [exact Tp|]. exists pc. auto. }
  destruct (create_success creq w u t e b (Some (c_id pc))
              Hp Hu Hin Et Ee Ve Eb Vb Hpar)
    as (r & w' & E & St & Su & Cs & (Fp & Fd & Ft & Fm & Fu) & _).
  set (c := mkComment (nextCommentId w) t e (u_id u) b (Some (c_id pc))
                      (now w)) in *.
  destruct (store_ok_preserved creq w Hok) as (Hok' & _).
  rewrite E in Hok'. cbn [snd] in Hok'. destruct Hok' as (Hpk' & _ & Hrl').
  assert (Hv : includes Comment.validEntityTypes
                 (JStr (params lreq "entityType")) = true).
  { destruct Hp as (_ & _ & _ & V & _). now rewrite Lt, <- Et. }
  assert (Hx' : exists x,
             fst (find_entity (JStr (params lreq "entityType"))
                              (JStr (params lreq "entityId")) w')
             = Ok (Some x)).
  { destruct Hx as (x & Hx). exists x.
    now rewrite (find_entity_frame _ _ w w' Fp Fd Ft Fm). }
  destruct (list_shape lreq w' e Hv Hx' Le) as (w'' & L).
  rewrite Lt in L.
  assert (Hcin : In c (comments w')).
  { rewrite Cs. apply in_or_app. right. now left. }
  assert (Hpin : In pc (comments w')).
  { rewrite Cs. apply in_or_app. left.
    eapply select_pk_some. exact Hpc. }
  destruct (nested_reply_invisible t e w' c pc g Hpk' Hrl' Hcin Hpin
              eq_refl Hg eq_refl eq_refl) as (Hnot & _ & Hlt).
  exists r, w', c. eexists _, _, w''.
  split; [exact E|]. split; [exact St|]. split; [exact Su|].
  split; [exact Cs|]. split; [reflexivity|]. split; [exact L|].
  split; [reflexivity|]. split; [|split; [exact Hnot|exact Hlt]].
  intros d pd gd Hd Hpd Hdp Hpdp Hdt Hde.
  destruct (nested_reply_invisible t e w' d pd gd Hpk' Hrl' Hd Hpd
              Hdp Hpdp Hdt Hde) as (N & I & _). auto.
Qed.

End Nested.

Lemma nested_reply_counted_not_listed_witness :
  let creq := request_of (Some alice)
                [("entityType", JStr "project"); ("entityId", JNum 1);
                 ("comment", JStr "you are welcome"); ("parentId", JNum 2)]
                [] in
  let lreq := request_of None []
                [("entityType", "project"); ("entityId", "1")] in
  exists r w' c nodes total w'',
    createComment (H := demo) creq thread_world = (Ok r, w')
    /\ status r = 201 /\ success r = true
    /\ comments w' = (comments thread_world ++ [c])%list
    /\ c_parentId c = Some (c_id thanks)
    /\ getEntityComments (H := demo) lreq w'
       = (Ok (mkResponse 200 true MsgNone
                (CommentList nodes total (List.length nodes))), w'')
    /\ total = List.length (filter (Comment.matches "project" 1)
                                   (comments w'))
    /\ (forall d pd gd,
          In d (comments w') -> In pd (comments w') ->
          c_parentId d = Some (c_id pd) -> c_parentId pd = Some gd ->
          c_entityType d = "project" -> c_entityId d = 1 ->
          ~ In d (visible nodes)
          /\ In d (filter (Comment.matches "project" 1) (comments w')))
    /\ ~ In c (visible nodes)
    /\ (List.length (visible nodes) < total)%nat.
Proof.
  apply (nested_reply_counted_not_listed (H := demo)
           (request_of (Some alice)
              [("entityType", JStr "project"); ("entityId", JNum 1);
               ("comment", JStr "you are welcome"); ("parentId", JNum 2)] [])
           (request_of None [] [("entityType", "project"); ("entityId", "1")])
           thread_world alice "project" 1 "you are welcome" thanks 1);
    try reflexivity.
  - exact thread_world_ok.
  - repeat (split; [reflexivity|]). exists 1. reflexivity.
  - cbn. tauto.
  - split; reflexivity.
  - exists 1. reflexivity.
Defined.

(** ** Team invitations *)

Section Invitations.
Context `{Platform}.

Lemma resolve_team_run teamId userId w :
  exists o, resolve_team teamId userId w = (Ok o, push_trace (Select TTeam) w).
Proof.
  unfold resolve_team. destruct (truthy teamId).
  - unfold Team.findOne_id_manager, bind, issue, modify, gets, ret, respond.
    cbn. destruct (find _ (teams w)); cbn; eexists; reflexivity.
  - unfold Team.findOne_manager, bind, issue, modify, gets, ret, respond.
    cbn. destruct (find _ (teams w)); cbn; eexists; reflexivity.
Qed.

Lemma user_select_pk_some k w target :
  User.select_pk k w = Some target -> to_int k = Some (u_id target).
Proof.
  unfold User.select_pk, User.lookup.
  destruct (to_int k) as [n|]; [|discriminate].
  intros E. apply find_some in E. destruct E as [_ E].
  apply Z.eqb_eq in E. now subst.
Qed.

(** A key that names a user is sent to the store. *)
Lemma User_findByPk_some k w target :
  User.select_pk k w = Some target ->
  User.findByPk k
  = fun w0 => (Ok (User.select_pk k w0), push_trace (Select TUser) w0).
Proof. destruct k; try discriminate; reflexivity. Qed.

(** A key that names no user: the answer is [null], and nothing but the
    trace may have changed. *)
Lemma User_findByPk_none k w :
  User.select_pk k w = None ->
  exists w', User.findByPk k w = (Ok None, w')
             /\ (w' = w \/ w' = push_trace (Select TUser) w).
Proof.
  intros E. destruct k as [| |n|s].
  - eexists. split; [reflexivity|now left].
  - eexists. split; [reflexivity|now left].
  - exists (push_trace (Select TUser) w). split; [|now right].
    unfold User.findByPk, bind, issue, modify, gets.
    cbn -[User.select_pk].
    change (User.select_pk (JNum n) (push_trace (Select TUser) w))
      with (User.select_pk (JNum n) w). now rewrite E.
  - exists (push_trace (Select TUser) w). split; [|now right].
    unfold User.findByPk, bind, issue, modify, gets.
    cbn -[User.select_pk].
    change (User.select_pk (JStr s) (push_trace (Select TUser) w))
      with (User.select_pk (JStr s) w). now rewrite E.
Qed.

Lemma send_checked req w u team target :
  req_user req = Some u ->
  fst (resolve_team (body req "teamId") (u_id u) w) = Ok (inr team) ->
  User.select_pk (body req "targetUserId") w = Some target ->
  u_role target = "consultant" ->
  find (TeamMember.is_pair (t_id team) (Some (u_id target))) (teamMembers w)
  = None ->
  exists r w', sendInvitation req w = (Ok r, w')
    /\ teamMembers w' = teamMembers w
    /\ match find (fun i => TeamInvitation.is_pair (t_id team)
                              (Some (u_id target)) i
                            && TeamInvitation.is_pending i) (invitations w)
       with
       | Some _ => status r = 400 /\ message r = MsgInvitationPending
                   /\ invitations w' = invitations w
       | None => status r = 201 /\ success r = true
                 /\ invitations w'
                    = (TeamInvitation.purge (t_id team) (Some (u_id target))
                                            (invitations w)
                       ++ [new_invitation req u team target w])%list
       end.
Proof.
  intros Hu Ht Hs Hr Hm.
  pose proof (user_select_pk_some _ _ _ Hs) as Hn.
  destruct (resolve_team_run (body req "teamId") (u_id u) w) as (o & Er).
  rewrite Er in Ht. cbn in Ht. inversion Ht; subst o. clear Ht.
  unfold sendInvitation, try_catch, current_user. rewrite Hu, bind_ret.
  cbn zeta. rewrite (bind_ok _ _ _ _ _ Er).
  rewrite (User_findByPk_some _ _ _ Hs).
  unfold TeamMember.findOne, TeamInvitation.findOne_pending,
    TeamInvitation.destroy_resolved, TeamInvitation.create,
    TeamInvitation.findByPk.
  unfold bind, issue, modify, gets, ret, respond. cbn -[String.eqb find].
  change (User.select_pk (body req "targetUserId")
            (push_trace (Select TTeam) w))
    with (User.select_pk (body req "targetUserId") w).
  rewrite Hs, Hr, Hn. cbn -[find]. rewrite Hm. cbn -[find].
  destruct (find _ (invitations w)) as [i|] eqn:Hp; cbn.
  - eexists _, _. repeat split.
  - eexists _, _. repeat split.
Qed.

Lemma find_none_filter {A} (f : A -> bool) l :
  find f l = None <-> filter f l = [].
Proof.
  induction l as [|x l IH]; cbn; [tauto|].
  destruct (f x); [split; discriminate|exact IH].
Qed.

Lemma sendInvitation_cases req w :
  exists r w', sendInvitation req w = (Ok r, w')
    /\ (invitations w' = invitations w
        \/ exists tid n i,
             pending_for tid n w = []
             /\ invitations w'
                = (TeamInvitation.purge tid (Some n) (invitations w)
                   ++ [i])%list
             /\ i_teamId i = tid /\ i_userId i = n /\ i_status i = Pending).
Proof.
  destruct (req_user req) as [u|] eqn:Hu.
  2:{ unfold sendInvitation, try_catch, current_user. rewrite Hu. cbn.
      eexists _, _. split; [reflexivity|]. now left. }
  destruct (resolve_team_run (body req "teamId") (u_id u) w) as (o & Er).
  destruct o as [r0|team].
  { unfold sendInvitation, try_catch, current_user. rewrite Hu, bind_ret.
    cbn zeta. rewrite (bind_ok _ _ _ _ _ Er). cbn.
    eexists _, _. split; [reflexivity|]. now left. }
  destruct (User.select_pk (body req "targetUserId") w) as [target|] eqn:Hs.
  2:{ unfold sendInvitation, try_catch, current_user. rewrite Hu, bind_ret.
      cbn zeta. rewrite (bind_ok _ _ _ _ _ Er).
      destruct (User_findByPk_none _ (push_trace (Select TTeam) w) Hs)
        as (w1 & Ef & [->| ->]);
        rewrite (bind_ok _ _ _ _ _ Ef); cbn;
        eexists _, _; (split; [reflexivity|]); now left. }
  pose proof (user_select_pk_some _ _ _ Hs) as Hn.
  destruct (u_role target =? "consultant")%string eqn:Hr.
  2:{ unfold sendInvitation, try_catch, current_user. rewrite Hu, bind_ret.
      cbn zeta. rewrite (bind_ok _ _ _ _ _ Er).
      rewrite (User_findByPk_some _ _ _ Hs).
      unfold bind, issue, modify, gets, ret, respond.
      cbn -[String.eqb].
      change (User.select_pk (body req "targetUserId")
            (push_trace (Select TTeam) w))
        with (User.select_pk (body req "targetUserId") w).
      rewrite Hs, Hr. cbn. eexists _, _. split; [reflexivity|]. now left. }
  apply String.eqb_eq in Hr.
  destruct (find (TeamMember.is_pair (t_id team) (Some (u_id target)))
                 (teamMembers w)) as [m|] eqn:Hm.
  { unfold sendInvitation, try_catch, current_user. rewrite Hu, bind_ret.
    cbn zeta. rewrite (bind_ok _ _ _ _ _ Er).
    rewrite (User_findByPk_some _ _ _ Hs).
    unfold TeamMember.findOne, bind, issue, modify, gets, ret,
      respond. cbn -[String.eqb find].
    change (User.select_pk (body req "targetUserId")
          (push_trace (Select TTeam) w))
      with (User.select_pk (body req "targetUserId") w).
    rewrite Hs, Hr, Hn. cbn -[find]. rewrite Hm. cbn.
    eexists _, _. split; [reflexivity|]. now left. }
  assert (Ht : fst (resolve_team (body req "teamId") (u_id u) w)
               = Ok (inr team)) by now rewrite Er.
  destruct (send_checked req w u team target Hu Ht Hs Hr Hm)
    as (r & w' & E & _ & R).
  exists r, w'. split; [exact E|].
  destruct (find _ (invitations w)) as [i|] eqn:Hp.
  - left. tauto.
  - right. exists (t_id team), (u_id target). eexists.
    split; [now apply find_none_filter|].
    split; [apply R|]. repeat split.
Qed.

Lemma respondToInvitation_cases req w :
  exists r w', respondToInvitation req w = (Ok r, w')
    /\ (invitations w' = invitations w
        \/ exists id s, s <> Pending
             /\ invitations w'
                = TeamInvitation.set_status id s (invitations w)).
Proof.
  unfold respondToInvitation, try_catch, current_user.
  destruct (req_user req) as [u|] eqn:Hu.
  2:{ cbn. eexists _, _. split; [reflexivity|]. now left. }
  rewrite bind_ret. cbn zeta.
  destruct (includes ["accepted"; "declined"] (body req "response")) eqn:Hi.
  2:{ cbn. eexists _, _. split; [reflexivity|]. now left. }
  cbn [negb].
  unfold TeamInvitation.findOne_pending_for, TeamInvitation.update_status,
    TeamMember.create, bind, issue, modify, gets, ret, respond, throw.
  cbn -[find existsb strict_eq].
  destruct (find _ (invitations w)) as [i|] eqn:Hf.
  2:{ cbn. eexists _, _. split; [reflexivity|]. now left. }
  cbn -[find existsb strict_eq].
  destruct (strict_eq (body req "response") (JStr "accepted")) eqn:Ha.
  - cbn -[find existsb].
    match goal with
    | |- context [existsb ?f ?l] => destruct (existsb f l) eqn:Hm
    end; cbn;
      eexists _, _; (split; [reflexivity|]); right; cbn;
      exists (i_id i), Accepted; (split; [discriminate|reflexivity]).
  - cbn. eexists _, _. split; [reflexivity|]. right. cbn.
    exists (i_id i), Declined. split; [discriminate|reflexivity].
Qed.

Lemma cancelInvitation_cases req w :
  exists r w', cancelInvitation req w = (Ok r, w')
    /\ (invitations w' = invitations w
        \/ exists id s, s <> Pending
             /\ invitations w'
                = TeamInvitation.set_status id s (invitations w)).
Proof.
  unfold cancelInvitation, try_catch, current_user.
  destruct (req_user req) as [u|] eqn:Hu.
  2:{ cbn. eexists _, _. split; [reflexivity|]. now left. }
  rewrite bind_ret. cbn zeta.
  unfold Team.findAll_manager, TeamInvitation.findOne_pending_in,
    TeamInvitation.update_status, bind, issue, modify, gets, ret, respond.
  cbn -[find filter].
  destruct (filter _ (teams w)) as [|t ts] eqn:Ht.
  { cbn. eexists _, _. split; [reflexivity|]. now left. }
  cbn -[find filter].
  destruct (find _ (invitations w)) as [i|] eqn:Hf; cbn.
  - eexists _, _. split; [reflexivity|]. right. cbn.
    exists (i_id i), Cancelled. split; [discriminate|reflexivity].
  - eexists _, _. split; [reflexivity|]. now left.
Qed.
End Invitations.

Lemma filter_map_le {A} (f : A -> bool) (g : A -> A) l :
  (forall x, f (g x) = true -> f x = true) ->
  (List.length (filter f (map g l)) <= List.length (filter f l))%nat.
Proof.
  intros Hg. induction l as [|x l IH]; cbn; [lia|].
  destruct (f (g x)) eqn:E.
  - rewrite (Hg x E). cbn. lia.
  - destruct (f x); cbn; lia.
Qed.

Lemma single_pending_set_status id s ivs t u :
  s <> Pending ->
  (List.length
     (filter (fun i => TeamInvitation.is_pair t (Some u) i
                       && TeamInvitation.is_pending i)
             (TeamInvitation.set_status id s ivs))
   <= List.length
        (filter (fun i => TeamInvitation.is_pair t (Some u) i
                          && TeamInvitation.is_pending i) ivs))%nat.
Proof.
  intros Hs. unfold TeamInvitation.set_status. apply filter_map_le.
  intros x. destruct (i_id x =? id); [|auto].
  unfold TeamInvitation.is_pending, TeamInvitation.with_status. cbn.
  destruct s; try contradiction; rewrite andb_false_r; discriminate.
Qed.

Lemma pending_purge t u tid n ivs :
  filter (fun i => TeamInvitation.is_pair t (Some u) i
                   && TeamInvitation.is_pending i)
         (TeamInvitation.purge tid n ivs)
  = filter (fun i => TeamInvitation.is_pair t (Some u) i
                     && TeamInvitation.is_pending i) ivs.
Proof.
  unfold TeamInvitation.purge. induction ivs as [|x l IH]; cbn; [reflexivity|].
  destruct (TeamInvitation.is_pending x) eqn:P.
  - rewrite andb_false_r. cbn. rewrite P, IH. reflexivity.
  - rewrite !andb_false_r.
    destruct (negb (TeamInvitation.is_pair tid n x && negb false)); cbn;
      rewrite ?P, ?andb_false_r; exact IH.
Qed.


Section SinglePending.
Context `{Platform}.

(** Sending, answering and cancelling invitations keep at most one pending
    invitation per (team, user). *)
Lemma single_pending_preserved req w :
  single_pending w ->
  single_pending (snd (sendInvitation req w))
  /\ single_pending (snd (respondToInvitation req w))
  /\ single_pending (snd (cancelInvitation req w)).
Proof.
  intros Hs. split; [|split].
  - destruct (sendInvitation_cases req w)
      as (r & w' & E & [Iv|(tid & n & i & Hp & Iv & It & Iu & Ist)]);
      rewrite E; cbn [snd]; intros t u; unfold pending_for; rewrite Iv.
    + apply Hs.
    + rewrite filter_app, pending_purge, length_app. cbn [filter].
      destruct (TeamInvitation.is_pair t (Some u) i
                && TeamInvitation.is_pending i) eqn:B; cbn [List.length].
      * apply andb_true_iff in B. destruct B as [B _].
        unfold TeamInvitation.is_pair in B. rewrite It, Iu in B. cbn in B.
        apply andb_true_iff in B. destruct B as [B1 B2].
        apply Z.eqb_eq in B1, B2. rewrite <- B1, B2.
        unfold pending_for in Hp. rewrite Hp. cbn. lia.
      * specialize (Hs t u). unfold pending_for in Hs. lia.
  - destruct (respondToInvitation_cases req w)
      as (r & w' & E & [Iv|(id & s & Hne & Iv)]);
      rewrite E; cbn [snd]; intros t u; unfold pending_for; rewrite Iv.
    + apply Hs.
    + eapply Nat.le_trans; [now apply single_pending_set_status|apply Hs].
  - destruct (cancelInvitation_cases req w)
      as (r & w' & E & [Iv|(id & s & Hne & Iv)]);
      rewrite E; cbn [snd]; intros t u; unfold pending_for; rewrite Iv.
    + apply Hs.
    + eapply Nat.le_trans; [now apply single_pending_set_status|apply Hs].
Qed.

End SinglePending.

(** * Further results *)

(** ** The authentication gate *)

Lemma split_space_no_space t : has_space t = false -> split_space t = [t].
Proof.
  induction t as [|a t IH]; cbn; [reflexivity|].
  intros E. apply orb_false_iff in E. destruct E as [Ea Et].
  rewrite Ea, (IH Et). reflexivity.
Qed.

Lemma tables_kept_refl w : tables_kept w w.
Proof. repeat split. Qed.

Lemma tables_kept_trans w1 w2 w3 :
  tables_kept w1 w2 -> tables_kept w2 w3 -> tables_kept w1 w3.
Proof.
  intros (L1 & G1 & N1) (L2 & G2 & N2). split; [|split]; try congruence.
  eapply log_only_trans; eassumption.
Qed.

Lemma tables_kept_push_trace e w : tables_kept w (push_trace e w).
Proof. repeat split. Qed.

Lemma tables_kept_push_console l w : tables_kept w (push_console l w).
Proof. repeat split. Qed.

Section GateMore.
Context `{Platform}.

(** X1.  [protect] calls [next()] with user [u] exactly when the request
    carries a bearer token that verifies to the id of a user row that is
    [u] and is active; and whatever it answers, it answers without throwing
    and leaves every table as it was. *)
Theorem protect_lets_through (req : request) (w : world) (u : user) :
  ((exists w', protect req w = (Ok (Next u), w'))
   <-> (exists token id,
          first_truthy [bearer_token req] = Some token
          /\ jwt_verify token = inl id
          /\ User.lookup id w = Some u
          /\ u_isActive u = true))
  /\ exists g w', protect req w = (Ok g, w') /\ tables_kept w w'.
Proof.
  unfold protect, try_catch, User.lookup.
  destruct (first_truthy [bearer_token req]) as [token|].
  2:{ cbn. split.
      - split; [intros (w' & E); discriminate
               |intros (t & i & E & _); discriminate].
      - eexists _, _. split; [reflexivity|apply tables_kept_refl]. }
  unfold verify. destruct (jwt_verify token) as [id|e] eqn:V.
  - cbn. unfold bind. destruct (find _ (users w)) as [u0|] eqn:L; cbn.
    + destruct (u_isActive u0) eqn:A; cbn.
      * split.
        -- split.
           ++ intros (w' & E). inversion E; subst. exists token, id. auto.
           ++ intros (t & i & Et & Ev & El & _). inversion Et; subst t.
              rewrite V in Ev. inversion Ev; subst i. rewrite L in El.
              inversion El; subst. eexists. reflexivity.
        -- eexists _, _. split; [reflexivity|apply tables_kept_push_trace].
      * split.
        -- split.
           ++ intros (w' & E). discriminate.
           ++ intros (t & i & Et & Ev & El & Ea). inversion Et; subst t.
              rewrite V in Ev. inversion Ev; subst i. rewrite L in El.
              inversion El; subst. congruence.
        -- eexists _, _. split; [reflexivity|apply tables_kept_push_trace].
    + split.
      * split.
        -- intros (w' & E). discriminate.
        -- intros (t & i & Et & Ev & El & _). inversion Et; subst t.
           rewrite V in Ev. inversion Ev; subst i. congruence.
      * eexists _, _. split; [reflexivity|apply tables_kept_push_trace].
  - split.
    + split.
      * intros (w' & E). destruct e; cbn in E; discriminate.
      * intros (t & i & Et & Ev & _). inversion Et; subst t. congruence.
    + destruct e; cbn; eexists _, _; (split; [reflexivity|]);
        repeat split.
Qed.

(** X2.  A header [Bearer <t>] with a non-empty token [t] free of spaces
    yields [t] as the token; a request whose header is missing or does not
    start with [Bearer] is answered 401 before the token verifier or the
    store is consulted: the world is left exactly as it was. *)
Theorem bearer_round_trip (req : request) (w : world) :
  (forall t, authorization req = Some ("Bearer " ++ t) ->
             has_space t = false -> t <> EmptyString ->
             first_truthy [bearer_token req] = Some t)
  /\ ((authorization req = None
       \/ exists h, authorization req = Some h /\ prefix "Bearer" h = false) ->
      protect req w
      = (Ok (Rejected (mkResponse 401 false MsgTokenMissing NoData)), w)).
Proof.
  split.
  - intros t Ha Hs Hne. unfold bearer_token. rewrite Ha. cbn.
    rewrite (split_space_no_space t Hs). cbn.
    destruct t; [congruence|reflexivity].
  - intros [Ha|(h & Ha & Hp)]; unfold protect, try_catch, bearer_token;
      rewrite Ha; [reflexivity|].
    rewrite Hp, andb_false_r. reflexivity.
Qed.

End GateMore.

Lemma protect_lets_through_witness :
  exists w',
    protect (H := demo)
      (mkRequest (Some "Bearer 7") None None None None None None
                 (obj []) (str_params [])) thread_world
    = (Ok (Next alice), w').
Proof.
  apply (proj1 (protect_lets_through (H := demo) _ thread_world alice)).
  exists "7", 7. repeat split; reflexivity.
Defined.

Lemma bearer_round_trip_witness :
  first_truthy
    [bearer_token (mkRequest (Some "Bearer abc.def") None None None None None
                             None (obj []) (str_params []))]
  = Some "abc.def"
  /\ protect (H := demo)
       (mkRequest (Some "Basic abc") None None None None None None
                  (obj []) (str_params [])) thread_world
     = (Ok (Rejected (mkResponse 401 false MsgTokenMissing NoData)),
        thread_world).
Proof.
  split.
  - apply (proj1 (bearer_round_trip (H := demo) _ thread_world) "abc.def");
      [reflexivity|reflexivity|discriminate].
  - apply (proj2 (bearer_round_trip (H := demo) _ thread_world)).
    right. exists "Basic abc". split; reflexivity.
Defined.

(** ** The audit trail *)

Section Trail.
Context `{Platform}.

Lemma createLog_up action desc entityType entityId oldValue newValue
  performedBy req w :
  log_valid action entityType entityId = true ->
  logDown w = false ->
  log_storable action entityType performedBy req w = true ->
  let l := log_entry action desc entityType entityId oldValue newValue
                     performedBy req w in
  createLog action desc entityType entityId oldValue newValue performedBy
            req w
  = (Ok (Some l),
     set_logs (logs w ++ [l]) (nextLogId w + 1) (push_trace (Insert TLog) w)).
Proof.
  intros V D S l. rewrite createLog_run. unfold log_valid in V. rewrite V, D.
  unfold log_storable in S. apply andb_true_iff in S. destruct S as [S1 S2].
  rewrite S1, S2. reflexivity.
Qed.

Lemma createLog_refused action desc entityType entityId oldValue newValue
  performedBy req w :
  log_valid action entityType entityId = true ->
  logDown w = false ->
  log_storable action entityType performedBy req w = false ->
  createLog action desc entityType entityId oldValue newValue performedBy
            req w
  = (Ok None,
     push_console (HCreateLog, QueryError) (push_trace (Insert TLog) w)).
Proof.
  intros V D S. rewrite createLog_run. unfold log_valid in V. rewrite V, D.
  unfold log_storable in S.
  destruct (mem performedBy (map u_id (users w))); [|reflexivity].
  cbn [andb] in S. rewrite S. reflexivity.
Qed.

Lemma createLog_invalid action desc entityType entityId oldValue newValue
  performedBy req w :
  log_valid action entityType entityId = false ->
  createLog action desc entityType entityId oldValue newValue performedBy
            req w
  = (Ok None, push_console (HCreateLog, ValidationError) w).
Proof.
  intros V. rewrite createLog_run. unfold log_valid in V. now rewrite V.
Qed.

(** X3.  [createLog] never throws and touches nothing but the log.  With
    the log table up, a row that passes the validators of the Log model and
    that the store takes (its author is a user, its strings fit their
    columns) is appended exactly as built from the arguments, the first
    non-empty address of the request, its User-Agent and the clock, and is
    returned.  A row that passes the validators and that the store refuses
    (its author is no user, or a string is too long for its column) is not
    written: the failed INSERT goes to the console and the result is
    [null].  A row that fails the validators (an [entityId] below 1, a
    blank action or entity type) is dropped before any statement is sent:
    the failure goes to the console and the result is [null]. *)
Theorem createLog_writes_or_drops (action : string) (desc : description)
  (entityType : string) (entityId : Z) (oldValue newValue : option snapshot)
  (performedBy : Z) (req : request) (w : world) :
  let l := log_entry action desc entityType entityId oldValue newValue
                     performedBy req w in
  exists o w',
    createLog action desc entityType entityId oldValue newValue performedBy
              req w = (Ok o, w')
    /\ log_only w w'
    /\ (log_valid action entityType entityId = true -> logDown w = false ->
        log_storable action entityType performedBy req w = true ->
          o = Some l /\ logs w' = (logs w ++ [l])%list
          /\ nextLogId w' = nextLogId w + 1 /\ console w' = console w)
    /\ (log_valid action entityType entityId = true -> logDown w = false ->
        log_storable action entityType performedBy req w = false ->
          o = None /\ tables_kept w w'
          /\ trace w' = (trace w ++ [Insert TLog])%list
          /\ console w' = (console w ++ [(HCreateLog, QueryError)])%list)
    /\ (log_valid action entityType entityId = false ->
          o = None /\ tables_kept w w' /\ trace w' = trace w
          /\ console w' = (console w ++ [(HCreateLog, ValidationError)])%list).
Proof.
  intros l.
  destruct (log_valid action entityType entityId) eqn:V.
  - destruct (logDown w) eqn:D.
    + destruct (createLog_down action desc entityType entityId oldValue
                  newValue performedBy req w D) as (e & w' & E & _ & _ & L).
      exists None, w'. split; [exact E|]. split; [exact L|].
      repeat split; intros; discriminate.
    + destruct (log_storable action entityType performedBy req w) eqn:S.
      * eexists _, _. split; [apply createLog_up; assumption|].
        split; [repeat split|].
        split; [|split; intros; discriminate].
        intros _ _ _. repeat split.
      * eexists _, _. split; [apply createLog_refused; assumption|].
        split; [repeat split|].
        split; [intros; discriminate|]. split; [|intros; discriminate].
        intros _ _ _. repeat split.
  - eexists _, _. split; [apply createLog_invalid; assumption|].
    split; [repeat split|].
    split; [intros; discriminate|]. split; [intros; discriminate|].
    intros _. repeat split.
Qed.

End Trail.

(** On [thread_world]: an entry written for alice is appended; the same
    entry written for the number 777, which names no user, is refused by
    the store; and an entry for the entity 0 is dropped by the validators. *)
Lemma createLog_writes_or_drops_witness :
  let req := mkRequest None None (Some "10.0.0.1") None None (Some "curl")
                       (Some alice) (obj []) (str_params []) in
  (exists w',
     createLog (H := demo) "DELETE_COMMENT" (DescDeleted "project" 1 0)
               "comment" 1 None None 7 req thread_world
     = (Ok (Some (mkLog 1 "DELETE_COMMENT" (DescDeleted "project" 1 0)
                        "comment" 1 None None 7 (Some "10.0.0.1")
                        (Some "curl") 30)), w')
     /\ List.length (logs w') = 1%nat /\ console w' = [])
  /\ (exists w',
        createLog (H := demo) "DELETE_COMMENT" (DescDeleted "project" 1 0)
                  "comment" 1 None None 777 req thread_world = (Ok None, w')
        /\ logs w' = [] /\ console w' = [(HCreateLog, QueryError)])
  /\ (exists w',
        createLog (H := demo) "DELETE_COMMENT" (DescDeleted "project" 1 0)
                  "comment" 0 None None 7 req thread_world = (Ok None, w')
        /\ logs w' = [] /\ console w' = [(HCreateLog, ValidationError)]).
Proof.
  intros req. split; [|split].
  - destruct (createLog_writes_or_drops (H := demo) "DELETE_COMMENT"
                (DescDeleted "project" 1 0) "comment" 1 None None 7 req
                thread_world) as (o & w' & E & _ & Up & _).
    destruct (Up eq_refl eq_refl eq_refl) as (-> & Lg & _ & Co).
    exists w'. split; [exact E|]. rewrite Lg. split; [reflexivity|exact Co].
  - destruct (createLog_writes_or_drops (H := demo) "DELETE_COMMENT"
                (DescDeleted "project" 1 0) "comment" 1 None None 777 req
                thread_world) as (o & w' & E & _ & _ & No & _).
    destruct (No eq_refl eq_refl eq_refl) as (-> & (_ & Lg & _) & _ & Co).
    exists w'. split; [exact E|]. split; [exact Lg|exact Co].
  - destruct (createLog_writes_or_drops (H := demo) "DELETE_COMMENT"
                (DescDeleted "project" 1 0) "comment" 0 None None 7 req
                thread_world) as (o & w' & E & _ & _ & _ & Drop).
    destruct (Drop eq_refl) as (-> & (_ & Lg & _) & _ & Co).
    exists w'. split; [exact E|]. split; [exact Lg|exact Co].
Defined.

(** ** The comment handlers, step by step *)

Section Exact.
Context `{Platform}.

Lemma find_entity_kept entityType entityId w :
  exists w', find_entity entityType entityId w
             = (fst (find_entity entityType entityId w), w')
             /\ tables_kept w w' /\ console w' = console w.
Proof.
  unfold find_entity.
  destruct (strict_eq entityType (JStr "project"));
    [eexists; split; [reflexivity|]; repeat split|].
  destruct (strict_eq entityType (JStr "document"));
    [eexists; split; [reflexivity|]; repeat split|].
  destruct (strict_eq entityType (JStr "task"));
    [eexists; split; [reflexivity|]; repeat split|].
  destruct (strict_eq entityType (JStr "meeting"));
    eexists; (split; [reflexivity|]); repeat split.
Qed.

(** The run of [createComment] up to the insert, when every check passes:
    the world [w2] the insert starts from differs from [w] in its trace
    only. *)
Lemma create_checks_pass req w u t e b p :
  passes_early_checks req w ->
  req_user req = Some u ->
  body req "entityType" = JStr t ->
  to_int (body req "entityId") = Some e ->
  body req "comment" = JStr b ->
  (truthy (body req "parentId") = false /\ p = None
   \/ truthy (body req "parentId") = true
      /\ exists pc, Comment.select_pk (body req "parentId") w = Some pc
                    /\ same_entity (body req "entityType")
                                   (body req "entityId") pc
                    /\ p = Some (c_id pc)) ->
  exists w2, tables_kept w w2 /\ console w2 = console w
    /\ existsb (String.eqb t) Comment.validEntityTypes = true
    /\ (truthy (js_or (body req "parentId") JNull) = false
        /\ js_or (body req "parentId") JNull = JNull /\ p = None
        \/ truthy (js_or (body req "parentId") JNull) = true
           /\ exists pc,
                Comment.select_pk (js_or (body req "parentId") JNull) w2
                = Some pc /\ p = Some (c_id pc))
    /\ createComment req w
       = try_catch
           (newComment <- Comment.create (JStr t) (body req "entityId")
                            (u_id u) (JStr b)
                            (js_or (body req "parentId") JNull) ;;
            createLog "CREATE_COMMENT"
              (DescCreated (JStr t) (body req "entityId")
                           (truthy (body req "parentId")))
              "comment" (c_id newComment) None
              (Some (SnapLinkage (c_entityType newComment)
                                 (c_entityId newComment)
                                 (c_parentId newComment)))
              (u_id u) req ;;;
            createdComment <-
              Comment.findByPk_with_user (JNum (c_id newComment)) ;;
            respond 201 true MsgCommentCreated (CommentData createdComment))
           (fun e => console_error HCreateComment e ;;;
                     respond 500 false MsgCreateCommentError NoData) w2.
Proof.
  intros (T1 & T2 & T3 & V & x & Hx) Hu Et Ee Eb Hp.
  destruct (find_entity_kept (body req "entityType") (body req "entityId") w)
    as (w1 & E & K1 & C1).
  rewrite Hx in E.
  assert (Lc : comments w1 = comments w) by (destruct K1 as (L & _); apply L).
  assert (Vt : existsb (String.eqb t) Comment.validEntityTypes = true).
  { rewrite Et in V. unfold includes in V. cbn in V |- *.
    rewrite !(String.eqb_sym t). exact V. }
  set (w2 := if truthy (body req "parentId")
             then push_trace (Select TComment) w1 else w1).
  assert (K2 : tables_kept w w2 /\ console w2 = console w).
  { unfold w2. destruct (truthy (body req "parentId")); [|auto].
    split; [|exact C1].
    eapply tables_kept_trans; [exact K1|apply tables_kept_push_trace]. }
  exists w2. destruct K2 as [K2 C2]. split; [exact K2|]. split; [exact C2|].
  split; [exact Vt|].
  assert (Fc : comments w2 = comments w) by (destruct K2 as (L & _); apply L).
  split.
  { unfold js_or. destruct Hp as [(Tp & ->)|(Tp & pc & Hpc & _ & ->)];
      rewrite Tp; [left; auto|right].
    split; [exact Tp|]. exists pc. split; [|reflexivity].
    now rewrite (select_pk_frame _ _ _ Fc). }
  unfold createComment, try_catch. rewrite T1, T2, T3, V. cbn [negb orb].
  rewrite (bind_ok _ _ _ _ _ E). cbn beta iota. unfold bind at 1.
  rewrite check_parent_run.
  assert (Early :
    (if truthy (body req "parentId")
     then (Ok match Comment.select_pk (body req "parentId") w1 with
              | Some pc =>
                  if negb (strict_eq (JStr (c_entityType pc))
                                     (body req "entityType"))
                     || negb (strict_eq (JNum (c_entityId pc))
                                        (body req "entityId"))
                  then Some (mkResponse 400 false MsgParentOnOtherEntity NoData)
                  else None
              | None => Some (mkResponse 404 false MsgParentNotFound NoData)
              end, push_trace (Select TComment) w1)
     else (Ok None, w1)) = (Ok None, w2)).
  { unfold w2. destruct Hp as [(Tp & _)|(Tp & pc & Hpc & (S1 & S2) & _)];
      rewrite Tp; [reflexivity|].
    rewrite (select_pk_frame _ _ _ Lc), Hpc, S1, S2.
    now rewrite !strict_eq_refl. }
  rewrite Early. clear Early.
  unfold create_and_log, current_user. rewrite Hu, bind_ret, Et, Eb.
  reflexivity.
Qed.

Lemma lookup_app_new n cs c :
  ids_below n cs -> c_id c = n -> Comment.lookup n (cs ++ [c]) = Some c.
Proof.
  intros Hb Hc. unfold Comment.lookup.
  induction cs as [|d cs IH]; cbn.
  - rewrite Hc, Z.eqb_refl. reflexivity.
  - assert (Hd : c_id d < n) by (apply Hb; now left).
    apply Z.lt_neq, Z.eqb_neq in Hd. rewrite Hd.
    apply IH. intros x Hx. apply Hb. now right.
Qed.

(** [createComment] when every check and every validator passes: the row
    is appended, the audit entry is attempted, the row is read back. *)
Lemma create_exact req w u t e b p :
  passes_early_checks req w ->
  req_user req = Some u ->
  In u (users w) ->
  body req "entityType" = JStr t ->
  to_int (body req "entityId") = Some e -> 1 <= e ->
  body req "comment" = JStr b -> Comment.validBody b = true ->
  (truthy (body req "parentId") = false /\ p = None
   \/ truthy (body req "parentId") = true
      /\ exists pc, Comment.select_pk (body req "parentId") w = Some pc
                    /\ same_entity (body req "entityType")
                                   (body req "entityId") pc
                    /\ p = Some (c_id pc)) ->
  let c := mkComment (nextCommentId w) t e (u_id u) b p (now w) in
  exists w2, tables_kept w w2 /\ console w2 = console w
    /\ forall o w4,
         createLog "CREATE_COMMENT"
           (DescCreated (JStr t) (body req "entityId")
                        (truthy (body req "parentId")))
           "comment" (nextCommentId w) None (Some (SnapLinkage t e p))
           (u_id u) req
           (set_comments (comments w ++ [c]) (nextCommentId w + 1)
                         (push_trace (Insert TComment) w2))
         = (Ok o, w4) ->
         createComment req w
         = (Ok (mkResponse 201 true MsgCommentCreated
                  (CommentData
                     (option_map (Comment.view w4)
                        (Comment.lookup (nextCommentId w) (comments w4))))),
            push_trace (Select TComment) w4).
Proof.
  intros Hp Hu Hin Et Ee Ve Eb Vb Hpar c.
  destruct (create_checks_pass req w u t e b p Hp Hu Et Ee Eb Hpar)
    as (w2 & K & C & Vt & Hp2 & E).
  exists w2. split; [exact K|]. split; [exact C|].
  intros o w4 El. rewrite E. unfold try_catch.
  destruct K as ((_&_&_&_&Ku&Kc&_&_&_&Kn&_&Know&_) & _ & _).
  assert (Mu : mem (u_id u) (map u_id (users w2)) = true)
    by (rewrite Ku; now apply mem_users).
  rewrite (bind_ok _ _ _ _ _
             (create_run t (body req "entityId") e (u_id u) b _ p w2
                         Vt Ee Ve Vb Mu Hp2)).
  cbn [c_id c_entityType c_entityId c_parentId].
  rewrite Kc, Kn, Know.
  rewrite (bind_ok _ _ _ _ _ El). reflexivity.
Qed.

(** [updateComment] by the author with a body the validators accept. *)
Lemma update_exact req w existing u b :
  req_user req = Some u ->
  Comment.select_pk (JStr (params req "id")) w = Some existing ->
  c_userId existing = u_id u ->
  body req "comment" = JStr b -> Comment.validBody b = true ->
  forall o w2,
    createLog "UPDATE_COMMENT"
      (DescUpdated (c_entityType existing) (c_entityId existing))
      "comment" (c_id existing)
      (Some (SnapBody (JStr (c_comment existing))))
      (Some (SnapBody (JStr b))) (u_id u) req
      (set_comments (Comment.set_body (c_id existing) b (comments w))
                    (nextCommentId w)
                    (push_trace (Update TComment)
                                (push_trace (Select TComment) w)))
    = (Ok o, w2) ->
    updateComment req w
    = (Ok (mkResponse 200 true MsgCommentUpdated
             (CommentData
                (option_map (Comment.view w2)
                   (Comment.lookup (c_id existing) (comments w2))))),
       push_trace (Select TComment) w2).
Proof.
  intros Hu Hf Ha Eb Vb o w2 El.
  assert (T : truthy (body req "comment") = true).
  { rewrite Eb. cbn. destruct b; [discriminate|reflexivity]. }
  unfold updateComment, try_catch. rewrite T. cbn [negb].
  rewrite (bind_ok _ _ _ _ _ (findByPk_run _ _)), Hf.
  unfold current_user. rewrite Hu, bind_ret.
  apply Z.eqb_eq in Ha. rewrite Ha. cbn [negb]. rewrite Eb.
  rewrite (bind_ok _ _ _ _ _ (update_run _ _ _ Vb)).
  cbn [c_id c_entityType c_entityId c_comment Comment.with_body].
  rewrite (bind_ok _ _ _ _ _ El). reflexivity.
Qed.

(** [updateComment] by the author with a body the validators refuse. *)
Lemma update_invalid req w existing u b :
  req_user req = Some u ->
  Comment.select_pk (JStr (params req "id")) w = Some existing ->
  c_userId existing = u_id u ->
  body req "comment" = JStr b -> b <> EmptyString ->
  Comment.validBody b = false ->
  updateComment req w
  = (Ok (mkResponse 500 false MsgUpdateCommentError NoData),
     push_console (HUpdateComment, ValidationError)
                  (push_trace (Select TComment) w)).
Proof.
  intros Hu Hf Ha Eb Hne Vb.
  assert (T : truthy (body req "comment") = true).
  { rewrite Eb. cbn. destruct b; [congruence|reflexivity]. }
  unfold updateComment, try_catch. rewrite T. cbn [negb].
  rewrite (bind_ok _ _ _ _ _ (findByPk_run _ _)), Hf.
  unfold current_user. rewrite Hu, bind_ret.
  apply Z.eqb_eq in Ha. rewrite Ha. cbn [negb]. rewrite Eb.
  unfold Comment.update. cbn [Comment.validated_text]. rewrite Vb.
  reflexivity.
Qed.

(** [deleteComment] by the author or an admin. *)
Lemma delete_exact req w c u :
  req_user req = Some u ->
  Comment.select_pk (JStr (params req "id")) w = Some c ->
  (c_userId c =? u_id u) || (u_role u =? "admin")%string = true ->
  let n := List.length (filter (Comment.isReplyTo (c_id c)) (comments w)) in
  forall o w2,
    createLog "DELETE_COMMENT"
      (DescDeleted (c_entityType c) (c_entityId c) n)
      "comment" (c_id c)
      (Some (SnapDeleted (c_id c) (c_entityType c) (c_entityId c)
                         (c_comment c) n))
      None (u_id u) req (push_trace (Select TComment) w)
    = (Ok o, w2) ->
    deleteComment req w
    = (Ok (mkResponse 200 true MsgCommentDeleted NoData),
       set_comments (Comment.delete_row (c_id c) (comments w2))
                    (nextCommentId w2) (push_trace (Delete TComment) w2)).
Proof.
  intros Hu Hf Hok n o w2 El.
  unfold deleteComment, try_catch, Comment.findByPk_with_replies.
  rewrite (bind_ok _ _ _ _ _ (bind_ok _ _ _ _ _ (findByPk_run _ _))), Hf.
  cbn [gets option_map bind]. unfold current_user. rewrite Hu, bind_ret.
  replace (negb (c_userId c =? u_id u) && negb (u_role u =? "admin")%string)
    with false by (rewrite <- negb_orb, Hok; reflexivity).
  change (comments (push_trace (Select TComment) w)) with (comments w).
  fold n. rewrite (bind_ok _ _ _ _ _ El). reflexivity.
Qed.

End Exact.

Section TrailOfHandlers.
Context `{Platform}.

Lemma log_storable_frame action entityType performedBy req w w' :
  users w' = users w ->
  log_storable action entityType performedBy req w'
  = log_storable action entityType performedBy req w.
Proof. intros E. unfold log_storable. now rewrite E. Qed.

(** X4.  With the log table up, each successful create, update and delete
    of a comment whose id is at least 1, by a caller who is a user of the
    store and on a request whose address and User-Agent the log table
    takes, appends exactly one entry to the log: the action, the entity
    type [comment], the id of the comment, the before and after snapshots,
    the caller, the address and User-Agent of the request, and the time. *)
Theorem audit_trail (w : world) :
  logDown w = false ->
  (forall req u t e b p,
     passes_early_checks req w ->
     req_user req = Some u -> In u (users w) ->
     log_storable "CREATE_COMMENT" "comment" (u_id u) req w = true ->
     body req "entityType" = JStr t ->
     to_int (body req "entityId") = Some e -> 1 <= e ->
     body req "comment" = JStr b -> Comment.validBody b = true ->
     (truthy (body req "parentId") = false /\ p = None
      \/ truthy (body req "parentId") = true
         /\ exists pc, Comment.select_pk (body req "parentId") w = Some pc
                       /\ same_entity (body req "entityType")
                                      (body req "entityId") pc
                       /\ p = Some (c_id pc)) ->
     1 <= nextCommentId w ->
     exists r w', createComment req w = (Ok r, w')
       /\ status r = 201
       /\ logs w'
          = (logs w
             ++ [mkLog (nextLogId w) "CREATE_COMMENT"
                   (DescCreated (JStr t) (body req "entityId")
                                (truthy (body req "parentId")))
                   "comment" (nextCommentId w) None
                   (Some (SnapLinkage t e p)) (u_id u)
                   (first_truthy [req_ip req; connection_remoteAddress req;
                                  socket_remoteAddress req;
                                  connection_socket_remoteAddress req])
                   (first_truthy [user_agent req]) (now w)])%list
       /\ nextLogId w' = nextLogId w + 1)
  /\ (forall req u existing b,
        req_user req = Some u ->
        log_storable "UPDATE_COMMENT" "comment" (u_id u) req w = true ->
        Comment.select_pk (JStr (params req "id")) w = Some existing ->
        c_userId existing = u_id u ->
        body req "comment" = JStr b -> Comment.validBody b = true ->
        1 <= c_id existing ->
        exists r w', updateComment req w = (Ok r, w')
          /\ status r = 200
          /\ logs w'
             = (logs w
                ++ [mkLog (nextLogId w) "UPDATE_COMMENT"
                      (DescUpdated (c_entityType existing)
                                   (c_entityId existing))
                      "comment" (c_id existing)
                      (Some (SnapBody (JStr (c_comment existing))))
                      (Some (SnapBody (JStr b))) (u_id u)
                      (first_truthy
                         [req_ip req; connection_remoteAddress req;
                          socket_remoteAddress req;
                          connection_socket_remoteAddress req])
                      (first_truthy [user_agent req]) (now w)])%list
          /\ nextLogId w' = nextLogId w + 1)
  /\ (forall req u c,
        req_user req = Some u ->
        log_storable "DELETE_COMMENT" "comment" (u_id u) req w = true ->
        Comment.select_pk (JStr (params req "id")) w = Some c ->
        (c_userId c =? u_id u) || (u_role u =? "admin")%string = true ->
        1 <= c_id c ->
        let n := List.length
                   (filter (Comment.isReplyTo (c_id c)) (comments w)) in
        exists r w', deleteComment req w = (Ok r, w')
          /\ status r = 200
          /\ logs w'
             = (logs w
                ++ [mkLog (nextLogId w) "DELETE_COMMENT"
                      (DescDeleted (c_entityType c) (c_entityId c) n)
                      "comment" (c_id c)
                      (Some (SnapDeleted (c_id c) (c_entityType c)
                                         (c_entityId c) (c_comment c) n))
                      None (u_id u)
                      (first_truthy
                         [req_ip req; connection_remoteAddress req;
                          socket_remoteAddress req;
                          connection_socket_remoteAddress req])
                      (first_truthy [user_agent req]) (now w)])%list
          /\ nextLogId w' = nextLogId w + 1).
Proof.
  intros D. split; [|split].
  - intros req u t e b p Hp Hu Hin S Et Ee Ve Eb Vb Hpar Hn.
    destruct (create_exact req w u t e b p Hp Hu Hin Et Ee Ve Eb Vb Hpar)
      as (w2 & K & _ & E).
    destruct K as ((_&_&_&_&Ku&_&_&_&_&_&_&Know&Kd) & Kl & Kn).
    assert (V : log_valid "CREATE_COMMENT" "comment" (nextCommentId w) = true).
    { unfold log_valid. apply Z.leb_le in Hn. now rewrite Hn. }
    eexists _, _. split.
    + eapply E. apply createLog_up; [exact V|cbn; congruence|].
      rewrite (log_storable_frame _ _ _ _ w); [exact S|exact Ku].
    + cbn. rewrite Kl, Kn. repeat split. f_equal. f_equal.
      unfold log_entry. cbn. now rewrite Kn, Know.
  - intros req u existing b Hu S Hf Ha Eb Vb Hn.
    assert (V : log_valid "UPDATE_COMMENT" "comment" (c_id existing) = true).
    { unfold log_valid. apply Z.leb_le in Hn. now rewrite Hn. }
    eexists _, _. split.
    + eapply (update_exact req w existing u b Hu Hf Ha Eb Vb).
      apply createLog_up; [exact V|exact D|exact S].
    + cbn. repeat split.
  - intros req u c Hu S Hf Hok Hn n.
    assert (V : log_valid "DELETE_COMMENT" "comment" (c_id c) = true).
    { unfold log_valid. apply Z.leb_le in Hn. now rewrite Hn. }
    eexists _, _. split.
    + eapply (delete_exact req w c u Hu Hf Hok).
      apply createLog_up; [exact V|exact D|exact S].
    + cbn. repeat split.
Qed.

(** X5.  A body that is not empty but fails the validators of the model
    (white space only, or more than 5000 characters) passes the handlers'
    own check for a missing body; create and update then answer 500, not
    400, report the validation error on the console, and change no
    table. *)
Theorem body_bounds (w : world) (b : string) :
  b <> EmptyString ->
  Comment.validBody b = false ->
  (forall req u t e p,
     passes_early_checks req w ->
     req_user req = Some u ->
     body req "entityType" = JStr t ->
     to_int (body req "entityId") = Some e ->
     body req "comment" = JStr b ->
     (truthy (body req "parentId") = false /\ p = None
      \/ truthy (body req "parentId") = true
         /\ exists pc, Comment.select_pk (body req "parentId") w = Some pc
                       /\ same_entity (body req "entityType")
                                      (body req "entityId") pc
                       /\ p = Some (c_id pc)) ->
     exists r w', createComment req w = (Ok r, w')
       /\ status r = 500 /\ message r = MsgCreateCommentError
       /\ kind_of r = Some Internal
       /\ tables_kept w w'
       /\ console w'
          = (console w ++ [(HCreateComment, ValidationError)])%list)
  /\ (forall req u existing,
        req_user req = Some u ->
        Comment.select_pk (JStr (params req "id")) w = Some existing ->
        c_userId existing = u_id u ->
        body req "comment" = JStr b ->
        exists r w', updateComment req w = (Ok r, w')
          /\ status r = 500 /\ message r = MsgUpdateCommentError
          /\ kind_of r = Some Internal
          /\ tables_kept w w'
          /\ console w'
             = (console w ++ [(HUpdateComment, ValidationError)])%list).
Proof.
  intros Hne Vb. split.
  - intros req u t e p Hp Hu Et Ee Eb Hpar.
    destruct (create_checks_pass req w u t e b p Hp Hu Et Ee Eb Hpar)
      as (w2 & K & C & Vt & _ & E).
    rewrite E. unfold try_catch, Comment.create.
    cbn [Comment.validated_text]. rewrite Ee, Vt, Vb.
    rewrite andb_false_r. cbn.
    eexists _, _. split; [reflexivity|]. cbn. repeat split; try apply K.
    now rewrite C.
  - intros req u existing Hu Hf Ha Eb.
    rewrite (update_invalid req w existing u b Hu Hf Ha Eb Hne Vb).
    eexists _, _. split; [reflexivity|]. repeat split.
Qed.

(** X6.  A successful create by a caller who is a user of the store
    answers with the row it stored, joined with its author, and the row can
    be read back under the id it was given: with every id in use below the
    counter, the new row has the counter's value as its id, the caller as
    its author and the clock as its creation time, and a lookup of that id
    in the new store yields it. *)
Theorem create_round_trip (req : request) (w : world) (u : user)
  (t : string) (e : Z) (b : string) (p : option Z) :
  ids_below (nextCommentId w) (comments w) ->
  passes_early_checks req w ->
  req_user req = Some u ->
  In u (users w) ->
  body req "entityType" = JStr t ->
  to_int (body req "entityId") = Some e -> 1 <= e ->
  body req "comment" = JStr b -> Comment.validBody b = true ->
  (truthy (body req "parentId") = false /\ p = None
   \/ truthy (body req "parentId") = true
      /\ exists pc, Comment.select_pk (body req "parentId") w = Some pc
                    /\ same_entity (body req "entityType")
                                   (body req "entityId") pc
                    /\ p = Some (c_id pc)) ->
  let c := mkComment (nextCommentId w) t e (u_id u) b p (now w) in
  exists r w', createComment req w = (Ok r, w')
    /\ status r = 201 /\ message r = MsgCommentCreated
    /\ data r = CommentData (Some (Comment.view w c))
    /\ Comment.select_pk (JNum (c_id c)) w' = Some c
    /\ nextCommentId w' = nextCommentId w + 1.
Proof.
  intros Hb Hp Hu Hin Et Ee Ve Eb Vb Hpar c.
  destruct (create_exact req w u t e b p Hp Hu Hin Et Ee Ve Eb Vb Hpar)
    as (w2 & K & _ & E).
  match type of E with
  | forall o w4, createLog ?a ?b0 ?c0 ?d ?e0 ?f ?g ?h ?x = _ -> _ =>
      destruct (createLog_total a b0 c0 d e0 f g h x)
        as (o & w4 & El & L & _)
  end.
  rewrite (E o w4 El).
  destruct L as (_&_&_&_&Lu&Lc&_&_&_&Ln&_). cbn in Lu, Lc, Ln.
  destruct K as ((_&_&_&_&Ku&_) & _ & _).
  assert (Hl : Comment.lookup (nextCommentId w) (comments w4) = Some c).
  { rewrite Lc. now apply lookup_app_new. }
  eexists _, _. split; [reflexivity|]. cbn -[Comment.lookup].
  rewrite Hl. repeat split.
  - cbn. unfold Comment.view, User.lookup. cbn. now rewrite Lu, Ku.
  - exact Ln.
Qed.

End TrailOfHandlers.

Lemma audit_trail_witness :
  let creq := request_of (Some bob)
                [("entityType", JStr "project"); ("entityId", JNum 1);
                 ("comment", JStr "thanks again"); ("parentId", JNum 1)] [] in
  let ureq := request_of (Some alice) [("comment", JStr "good work")]
                         [("id", "1")] in
  let dreq := request_of (Some carol) [] [("id", "1")] in
  (exists r w', createComment (H := demo) creq thread_world = (Ok r, w')
     /\ status r = 201
     /\ logs w'
        = [mkLog 1 "CREATE_COMMENT" (DescCreated (JStr "project") (JNum 1) true)
                 "comment" 3 None (Some (SnapLinkage "project" 1 (Some 1)))
                 3 None None 30]
     /\ nextLogId w' = 2)
  /\ (exists r w', updateComment (H := demo) ureq thread_world = (Ok r, w')
        /\ status r = 200
        /\ logs w'
           = [mkLog 1 "UPDATE_COMMENT" (DescUpdated "project" 1) "comment" 1
                    (Some (SnapBody (JStr "nice work")))
                    (Some (SnapBody (JStr "good work")))
                    7 None None 30]
        /\ nextLogId w' = 2)
  /\ (exists r w', deleteComment (H := demo) dreq thread_world = (Ok r, w')
        /\ status r = 200
        /\ logs w'
           = [mkLog 1 "DELETE_COMMENT" (DescDeleted "project" 1 1%nat)
                    "comment" 1
                    (Some (SnapDeleted 1 "project" 1 "nice work" 1%nat))
                    None 9 None None 30]
        /\ nextLogId w' = 2).
Proof.
  destruct (audit_trail (H := demo) thread_world eq_refl) as (C & U & D).
  split; [|split].
  - apply (C (request_of (Some bob)
                [("entityType", JStr "project"); ("entityId", JNum 1);
                 ("comment", JStr "thanks again"); ("parentId", JNum 1)] [])
             bob "project" 1 "thanks again" (Some 1)); try reflexivity.
    + repeat (split; [reflexivity|]). exists 1. reflexivity.
    + cbn. tauto.
    + right. split; [reflexivity|]. exists nice_work.
      split; [reflexivity|]. split; [split; reflexivity|reflexivity].
    + cbn. lia.
  - apply (U (request_of (Some alice) [("comment", JStr "good work")]
                         [("id", "1")]) alice nice_work "good work");
      try reflexivity.
  - apply (D (request_of (Some carol) [] [("id", "1")]) carol nice_work);
      try reflexivity.
Defined.

(** A body of white space that is not a space on create, and a body of
    5001 characters on update. *)
Lemma body_bounds_witness :
  let creq := request_of (Some bob)
                [("entityType", JStr "project"); ("entityId", JNum 1);
                 ("comment", JStr blank_body)] [] in
  let ureq := request_of (Some alice) [("comment", JStr long_body)]
                         [("id", "1")] in
  (exists r w', createComment (H := demo) creq thread_world = (Ok r, w')
     /\ status r = 500 /\ message r = MsgCreateCommentError
     /\ kind_of r = Some Internal
     /\ tables_kept thread_world w'
     /\ console w' = [(HCreateComment, ValidationError)])
  /\ (exists r w', updateComment (H := demo) ureq thread_world = (Ok r, w')
        /\ status r = 500 /\ message r = MsgUpdateCommentError
        /\ kind_of r = Some Internal
        /\ tables_kept thread_world w'
        /\ console w' = [(HUpdateComment, ValidationError)]).
Proof.
  split.
  - assert (Hne : blank_body <> EmptyString) by discriminate.
    destruct (body_bounds (H := demo) thread_world blank_body Hne eq_refl)
      as (C & _).
    apply (C (request_of (Some bob)
                [("entityType", JStr "project"); ("entityId", JNum 1);
                 ("comment", JStr blank_body)] [])
             bob "project" 1 None); try reflexivity.
    + repeat (split; [reflexivity|]). exists 1. reflexivity.
    + left. split; reflexivity.
  - assert (Hne : long_body <> EmptyString) by discriminate.
    assert (V : Comment.validBody long_body = false)
      by (vm_compute; reflexivity).
    destruct (body_bounds (H := demo) thread_world long_body Hne V)
      as (_ & U).
    apply (U (request_of (Some alice) [("comment", JStr long_body)]
                         [("id", "1")])
             alice nice_work); reflexivity.
Defined.

Lemma create_round_trip_witness :
  let req := request_of (Some bob)
               [("entityType", JStr "project"); ("entityId", JNum 1);
                ("comment", JStr "thanks again"); ("parentId", JNum 1)] [] in
  let c := mkComment 3 "project" 1 3 "thanks again" (Some 1) 30 in
  exists r w', createComment (H := demo) req thread_world = (Ok r, w')
    /\ status r = 201 /\ message r = MsgCommentCreated
    /\ data r = CommentData (Some (mkView c (Some 3)))
    /\ Comment.select_pk (H := demo) (JNum 3) w' = Some c
    /\ nextCommentId w' = 4.
Proof.
  apply (create_round_trip (H := demo)
           (request_of (Some bob)
              [("entityType", JStr "project"); ("entityId", JNum 1);
               ("comment", JStr "thanks again"); ("parentId", JNum 1)] [])
           thread_world bob "project" 1 "thanks again" (Some 1));
    try reflexivity.
  - exact (proj1 (proj2 thread_world_ok)).
  - repeat (split; [reflexivity|]). exists 1. reflexivity.
  - cbn. tauto.
  - right. split; [reflexivity|]. exists nice_work.
    split; [reflexivity|]. split; [split; reflexivity|reflexivity].
Defined.

(** ** Requests that fail *)

Section Failures.
Context `{Platform}.

Lemma create_thrown_kept entityType entityId userId comment parent w e w' :
  Comment.create entityType entityId userId comment parent w = (Thrown e, w') ->
  tables_kept w w'.
Proof.
  unfold Comment.create.
  destruct entityType as [| |n|t];
    try (intros E; inversion E; apply tables_kept_refl).
  destruct (to_int entityId) as [x|];
    try (intros E; inversion E; apply tables_kept_refl).
  destruct (Comment.validated_text comment) as [b|];
    try (intros E; inversion E; apply tables_kept_refl).
  destruct (existsb (String.eqb t) Comment.validEntityTypes && (1 <=? x)
            && Comment.validBody b);
    try (intros E; inversion E; apply tables_kept_refl).
  unfold bind, issue, modify, gets, ret, throw.
  cbn -[mem Z.add Comment.stored_text].
  destruct (mem userId (map u_id (users w)));
    [|intros E; inversion E; apply tables_kept_push_trace].
  destruct parent as [| |q|s]; cbn -[mem Z.add Comment.stored_text];
    try discriminate.
  - destruct (mem q (map c_id (comments w))); [discriminate|].
    intros E; inversion E. apply tables_kept_push_trace.
  - destruct (sqlInt s) as [q|].
    + destruct (mem q (map c_id (comments w))); [discriminate|].
      intros E; inversion E. apply tables_kept_push_trace.
    + intros E; inversion E. apply tables_kept_push_trace.
Qed.

Lemma create_and_log_outcome req entityType entityId comment parentId w :
  match create_and_log req entityType entityId comment parentId w with
  | (Thrown _, w') => tables_kept w w'
  | (Ok r, _) => status r = 201
  end.
Proof.
  unfold create_and_log, current_user.
  destruct (req_user req) as [u|]; [|apply tables_kept_refl].
  rewrite bind_ret.
  destruct (Comment.create entityType entityId (u_id u) comment
                           (js_or parentId JNull) w) as [[c|e] w1] eqn:E.
  - rewrite (bind_ok _ _ _ _ _ E).
    match goal with
    | |- context [bind (createLog ?a ?b0 ?c0 ?d ?e0 ?f ?g ?h) ?k ?x] =>
        destruct (createLog_total a b0 c0 d e0 f g h x)
          as (o & w2 & El & _)
    end.
    rewrite (bind_ok _ _ _ _ _ El). reflexivity.
  - rewrite (bind_thrown _ _ _ _ _ E).
    eapply create_thrown_kept; exact E.
Qed.

Lemma createComment_failure req w r w' :
  createComment req w = (Ok r, w') -> refused r = true -> tables_kept w w'.
Proof.
  unfold createComment, try_catch.
  destruct (negb (truthy (body req "entityType"))
            || negb (truthy (body req "entityId"))
            || negb (truthy (body req "comment"))).
  { cbn. intros E _. inversion E. apply tables_kept_refl. }
  destruct (negb (includes Comment.validEntityTypes (body req "entityType"))).
  { cbn. intros E _. inversion E. apply tables_kept_refl. }
  destruct (find_entity_kept (body req "entityType") (body req "entityId") w)
    as (w1 & E & K1 & _).
  destruct (find_entity_run (body req "entityType") (body req "entityId") w)
    as (_ & _ & (o & Eo) & _).
  rewrite Eo in E. rewrite (bind_ok _ _ _ _ _ E).
  destruct o as [x|].
  2:{ cbn. intros E1 _. inversion E1; subst. exact K1. }
  cbn beta iota. unfold bind at 1. rewrite check_parent_run.
  assert (Tail : forall w2, tables_kept w w2 ->
    match create_and_log req (body req "entityType") (body req "entityId")
                         (body req "comment") (body req "parentId") w2 with
    | (Ok a, w3) => (Ok a, w3)
    | (Thrown e, w3) =>
        (console_error HCreateComment e ;;;
         respond 500 false MsgCreateCommentError NoData) w3
    end = (Ok r, w') -> refused r = true -> tables_kept w w').
  { intros w2 K2.
    pose proof (create_and_log_outcome req (body req "entityType")
                  (body req "entityId") (body req "comment")
                  (body req "parentId") w2) as O.
    destruct (create_and_log _ _ _ _ _ w2) as [[a|e] w3].
    - intros E1 S. inversion E1; subst. unfold refused in S.
      rewrite O in S. discriminate.
    - cbn. intros E1 _. inversion E1; subst.
      eapply tables_kept_trans; [exact K2|].
      eapply tables_kept_trans; [exact O|apply tables_kept_push_console]. }
  destruct (truthy (body req "parentId")).
  - assert (K2 : tables_kept w (push_trace (Select TComment) w1)).
    { eapply tables_kept_trans; [exact K1|apply tables_kept_push_trace]. }
    destruct (Comment.select_pk (body req "parentId") w1) as [pc|].
    2:{ cbn. intros E1 _. inversion E1; subst. exact K2. }
    destruct (negb (strict_eq (JStr (c_entityType pc)) (body req "entityType"))
              || negb (strict_eq (JNum (c_entityId pc)) (body req "entityId"))).
    { cbn. intros E1 _. inversion E1; subst. exact K2. }
    cbn beta iota. apply Tail. exact K2.
  - cbn beta iota. apply Tail. exact K1.
Qed.

Lemma updateComment_failure req w r w' :
  updateComment req w = (Ok r, w') -> refused r = true -> tables_kept w w'.
Proof.
  unfold updateComment, try_catch.
  destruct (truthy (body req "comment")) eqn:T; cbn [negb].
  2:{ cbn. intros E _. inversion E. apply tables_kept_refl. }
  rewrite (bind_ok _ _ _ _ _ (findByPk_run _ _)).
  destruct (Comment.select_pk _ w) as [existing|].
  2:{ cbn. intros E _. inversion E. apply tables_kept_push_trace. }
  unfold current_user. destruct (req_user req) as [u|].
  2:{ cbn. intros E _. inversion E. repeat split. }
  rewrite bind_ret.
  destruct (c_userId existing =? u_id u); cbn [negb].
  2:{ cbn. intros E _. inversion E. apply tables_kept_push_trace. }
  destruct (Comment.validated_text (body req "comment")) as [b|] eqn:Eb.
  2:{ unfold Comment.update. rewrite Eb. cbn. intros E _. inversion E.
      repeat split. }
  destruct (Comment.validBody b) eqn:Vb.
  2:{ unfold Comment.update. rewrite Eb, Vb. cbn. intros E _. inversion E.
      repeat split. }
  rewrite (bind_ok _ _ _ _ _ (update_value_run _ _ _ _ Eb Vb)).
  match goal with
  | |- context [bind (createLog ?a ?b0 ?c0 ?d ?e0 ?f ?g ?h) ?k ?x] =>
      destruct (createLog_total a b0 c0 d e0 f g h x) as (o & w2 & El & _)
  end.
  rewrite (bind_ok _ _ _ _ _ El). cbn. intros E S. inversion E; subst.
  discriminate.
Qed.

Lemma deleteComment_failure req w r w' :
  deleteComment req w = (Ok r, w') -> refused r = true -> tables_kept w w'.
Proof.
  unfold deleteComment, try_catch, Comment.findByPk_with_replies.
  rewrite (bind_ok _ _ _ _ _ (bind_ok _ _ _ _ _ (findByPk_run _ _))).
  destruct (Comment.select_pk _ w) as [c|].
  2:{ cbn. intros E _. inversion E. apply tables_kept_push_trace. }
  cbn [gets option_map bind]. unfold current_user.
  destruct (req_user req) as [u|].
  2:{ cbn. intros E _. inversion E. repeat split. }
  rewrite bind_ret.
  destruct (negb (c_userId c =? u_id u) && negb (u_role u =? "admin")%string).
  { cbn. intros E _. inversion E. apply tables_kept_push_trace. }
  match goal with
  | |- context [bind (createLog ?a ?b ?c0 ?d ?e ?f ?g ?h) ?k ?x] =>
      destruct (createLog_total a b c0 d e f g h x) as (o & w1 & El & _)
  end.
  rewrite (bind_ok _ _ _ _ _ El). cbn. intros E S. inversion E; subst.
  discriminate.
Qed.

Lemma getEntityComments_reads req w r w' :
  getEntityComments req w = (Ok r, w') -> tables_kept w w'.
Proof.
  unfold getEntityComments, try_catch.
  destruct (negb (includes Comment.validEntityTypes
                           (JStr (params req "entityType")))).
  { cbn. intros E. inversion E. apply tables_kept_refl. }
  destruct (find_entity_kept (JStr (params req "entityType"))
                             (JStr (params req "entityId")) w)
    as (w1 & E & K1 & _).
  destruct (find_entity_run (JStr (params req "entityType"))
                            (JStr (params req "entityId")) w)
    as (_ & _ & (o & Eo) & _).
  rewrite Eo in E. rewrite (bind_ok _ _ _ _ _ E).
  destruct o as [x|].
  2:{ cbn. intros E1. inversion E1; subst. exact K1. }
  unfold Comment.findAll_threads, Comment.count.
  destruct (parseInt (params req "entityId")) as [e|]; cbn;
    intros E1; inversion E1; subst;
    (eapply tables_kept_trans; [exact K1|repeat split]).
Qed.

(** X7.  A comment request that is answered with status 400, 403 or 404
    has changed no table and no counter: each of these answers (a failed
    check, a missing row, a refused caller) is sent before the first
    write.  Listing the comments of an entity never changes a table,
    whatever it answers. *)
Theorem failed_requests_change_nothing (req : request) (w : world) :
  (forall r w', createComment req w = (Ok r, w') -> refused r = true ->
                tables_kept w w')
  /\ (forall r w', updateComment req w = (Ok r, w') -> refused r = true ->
                   tables_kept w w')
  /\ (forall r w', deleteComment req w = (Ok r, w') -> refused r = true ->
                   tables_kept w w')
  /\ (forall r w', getEntityComments req w = (Ok r, w') -> tables_kept w w').
Proof.
  split; [|split; [|split]].
  - apply createComment_failure.
  - apply updateComment_failure.
  - apply deleteComment_failure.
  - apply getEntityComments_reads.
Qed.

End Failures.

(** Bob asks for a reply to a comment that does not exist (404), then to
    change and to delete alice's comment (403 twice), then lists. *)
Lemma failed_requests_change_nothing_witness :
  let req := request_of (Some bob)
               [("entityType", JStr "project"); ("entityId", JNum 1);
                ("comment", JStr "mine now"); ("parentId", JNum 9)]
               [("id", "1"); ("entityType", "project"); ("entityId", "1")] in
  (fst (createComment (H := demo) req thread_world)
   = Ok (mkResponse 404 false MsgParentNotFound NoData)
   /\ tables_kept thread_world
        (snd (createComment (H := demo) req thread_world)))
  /\ (fst (updateComment (H := demo) req thread_world)
      = Ok (mkResponse 403 false MsgNotAllowedToModify NoData)
      /\ tables_kept thread_world
           (snd (updateComment (H := demo) req thread_world)))
  /\ (fst (deleteComment (H := demo) req thread_world)
      = Ok (mkResponse 403 false MsgNotAllowedToDelete NoData)
      /\ tables_kept thread_world
           (snd (deleteComment (H := demo) req thread_world)))
  /\ tables_kept thread_world
       (snd (getEntityComments (H := demo) req thread_world)).
Proof.
  intros req.
  destruct (failed_requests_change_nothing (H := demo) req thread_world)
    as (C & U & D & L).
  split; [|split; [|split]].
  - split; [reflexivity|].
    apply (C (mkResponse 404 false MsgParentNotFound NoData));
      vm_compute; reflexivity.
  - split; [reflexivity|].
    apply (U (mkResponse 403 false MsgNotAllowedToModify NoData));
      vm_compute; reflexivity.
  - split; [reflexivity|].
    apply (D (mkResponse 403 false MsgNotAllowedToDelete NoData));
      vm_compute; reflexivity.
  - eapply L. vm_compute. reflexivity.
Defined.

(** ** What update and delete change *)

Lemma lookup_set_body n b cs c :
  Comment.lookup n cs = Some c ->
  Comment.lookup n (Comment.set_body n b cs) = Some (Comment.with_body b c).
Proof.
  unfold Comment.lookup, Comment.set_body.
  induction cs as [|d cs IH]; cbn; [discriminate|].
  destruct (c_id d =? n) eqn:E; cbn.
  - rewrite E. intros X. now inversion X.
  - rewrite E. exact IH.
Qed.

Lemma set_body_In cs c b d :
  pk_unique cs -> In c cs ->
  In d (Comment.set_body (c_id c) b cs)
  <-> d = Comment.with_body b c \/ (In d cs /\ c_id d <> c_id c).
Proof.
  intros Hpk Hc. unfold Comment.set_body. rewrite in_map_iff. split.
  - intros (x & Ex & Hx). destruct (c_id x =? c_id c) eqn:E.
    + apply Z.eqb_eq in E. left.
      assert (x = c) by (eapply pk_unique_eq; eauto). subst x. now subst d.
    + right. subst d. split; [exact Hx|]. now apply Z.eqb_neq.
  - intros [->|(Hd & Hne)].
    + exists c. rewrite Z.eqb_refl. auto.
    + exists d. apply Z.eqb_neq in Hne. rewrite Hne. auto.
Qed.

Lemma set_body_columns n b cs :
  map (fun d => (c_id d, c_entityType d, c_entityId d, c_userId d,
                 c_parentId d, c_createdAt d)) (Comment.set_body n b cs)
  = map (fun d => (c_id d, c_entityType d, c_entityId d, c_userId d,
                   c_parentId d, c_createdAt d)) cs.
Proof.
  unfold Comment.set_body. rewrite map_map. apply map_ext.
  intros d. destruct (c_id d =? n); reflexivity.
Qed.

Lemma descends_of_reference cs0 id ids d :
  (forall i, In i ids ->
             i = id \/ exists p, descends cs0 id p /\ c_id p = i) ->
  In d cs0 -> Comment.references ids d = true -> descends cs0 id d.
Proof.
  intros Hids Hd Hr. unfold Comment.references in Hr.
  destruct (c_parentId d) as [q|] eqn:Hp; [|discriminate].
  unfold mem in Hr. apply existsb_exists in Hr.
  destruct Hr as (i & Hi & Eq). apply Z.eqb_eq in Eq. subst i.
  destruct (Hids q Hi) as [->|(p & Dp & <-)].
  - now apply descends_reply.
  - now apply descends_deeper with p.
Qed.

Lemma cascade_removes_descendants cs0 id fuel : forall ids cs,
  incl cs cs0 ->
  (forall i, In i ids ->
             i = id \/ exists p, descends cs0 id p /\ c_id p = i) ->
  forall d, In d cs ->
            In d (Comment.cascade fuel ids cs) \/ descends cs0 id d.
Proof.
  induction fuel as [|fuel IH]; intros ids cs Hincl Hids d Hd; [now left|].
  cbn [Comment.cascade].
  destruct (filter (Comment.references ids) cs) as [|k kids] eqn:E;
    [now left|].
  destruct (Comment.references ids d) eqn:Rd.
  - right. eapply descends_of_reference; eauto.
  - apply IH.
    + intros x Hx. apply filter_In in Hx. apply Hincl. tauto.
    + intros i Hi. apply in_map_iff in Hi. destruct Hi as (x & <- & Hx).
      rewrite <- E in Hx. apply filter_In in Hx. destruct Hx as [Hx Rx].
      right. exists x. split; [|reflexivity].
      eapply descends_of_reference; eauto.
    + apply filter_In. now rewrite Rd.
Qed.

Lemma descends_In cs id d : descends cs id d -> In d cs.
Proof. now destruct 1. Qed.

Lemma delete_row_In cs id d :
  pk_unique cs -> reply_linked cs ->
  In d (Comment.delete_row id cs)
  <-> In d cs /\ c_id d <> id /\ ~ descends cs id d.
Proof.
  intros Hpk Hrl. split.
  - intros Hd. destruct (delete_row_spec _ _ _ Hd) as (Hin & Hne & Hr).
    split; [exact Hin|]. split; [exact Hne|].
    intros Hdesc. revert Hd. clear Hin Hne Hr.
    induction Hdesc as [d Hin Hp|d p Hin Hdp IH Hp]; intros Hd.
    + apply delete_row_spec in Hd. destruct Hd as (_ & _ & Hr).
      apply isReplyTo_parent in Hp. congruence.
    + assert (Hrl' : reply_linked (Comment.delete_row id cs)).
      { destruct (store_ok_delete cs (1 + fold_right Z.max 0 (map c_id cs)) id)
          as (_ & _ & R); auto.
        intros x Hx. clear - Hx. induction cs as [|y cs IHc];
          [contradiction|]. cbn [map fold_right].
        destruct Hx as [->|Hx]; [lia|]. specialize (IHc Hx). lia. }
      destruct (Hrl' d (c_id p) Hd Hp) as (y & Hy & Hyid & _).
      assert (y = p).
      { eapply pk_unique_eq; eauto.
        - apply delete_row_spec in Hy. tauto.
        - now apply descends_In with id. }
      subst y. now apply IH.
  - intros (Hin & Hne & Hnd).
    unfold Comment.delete_row.
    destruct (cascade_removes_descendants cs id
                (List.length (Comment.without id cs)) [id]
                (Comment.without id cs)) with (d := d) as [Hd|Hd].
    + intros x Hx. apply filter_In in Hx. tauto.
    + intros i [<-|[]]. now left.
    + apply filter_In. split; [exact Hin|]. apply negb_true_iff.
      now apply Z.eqb_neq.
    + exact Hd.
    + contradiction.
Qed.

Section Changes.
Context `{Platform}.

Lemma select_pk_lookup k w c :
  Comment.select_pk k w = Some c ->
  Comment.lookup (c_id c) (comments w) = Some c.
Proof.
  unfold Comment.select_pk. destruct (to_int k) as [n|]; [|discriminate].
  intros E. destruct (lookup_some _ _ _ E) as [_ Hid]. now rewrite Hid.
Qed.

(** X8.  A successful update rewrites the body of the one row with the
    comment's id and nothing else: with ids unique, the table afterwards
    holds the updated row, which is the old row with the new body in its
    [comment] column, and every other row as it was, in the same
    positions, with every column but the body unchanged; the answer
    carries the updated row joined with its author, and reading the
    comment back yields it. *)
Theorem update_touches_one_row (req : request) (w : world)
  (existing : comment_row) (u : user) (b : string) :
  pk_unique (comments w) ->
  req_user req = Some u ->
  Comment.select_pk (JStr (params req "id")) w = Some existing ->
  c_userId existing = u_id u ->
  body req "comment" = JStr b -> Comment.validBody b = true ->
  let updated :=
    mkComment (c_id existing) (c_entityType existing) (c_entityId existing)
              (c_userId existing) b (c_parentId existing)
              (c_createdAt existing) in
  exists r w', updateComment req w = (Ok r, w')
    /\ status r = 200 /\ message r = MsgCommentUpdated
    /\ data r = CommentData (Some (Comment.view w updated))
    /\ Comment.select_pk (JStr (params req "id")) w' = Some updated
    /\ (forall d, In d (comments w')
                  <-> d = updated
                      \/ (In d (comments w) /\ c_id d <> c_id existing))
    /\ map (fun d => (c_id d, c_entityType d, c_entityId d, c_userId d,
                      c_parentId d, c_createdAt d)) (comments w')
       = map (fun d => (c_id d, c_entityType d, c_entityId d, c_userId d,
                        c_parentId d, c_createdAt d)) (comments w).
Proof.
  intros Hpk Hu Hf Ha Eb Vb updated.
  assert (Eu : updated = Comment.with_body b existing) by reflexivity.
  clearbody updated. subst updated.
  destruct (createLog_total "UPDATE_COMMENT"
              (DescUpdated (c_entityType existing) (c_entityId existing))
              "comment" (c_id existing)
              (Some (SnapBody (JStr (c_comment existing))))
              (Some (SnapBody (JStr b)))
              (u_id u) req
              (set_comments
                 (Comment.set_body (c_id existing) b (comments w))
                 (nextCommentId w)
                 (push_trace (Update TComment)
                             (push_trace (Select TComment) w))))
    as (o & w2 & El & L & _).
  rewrite (update_exact req w existing u b Hu Hf Ha Eb Vb o w2 El).
  destruct L as (_&_&_&_&Lu&Lc&_). cbn in Lu, Lc.
  pose proof (select_pk_lookup _ _ _ Hf) as Hl.
  pose proof (lookup_set_body _ b _ _ Hl) as Hl'.
  eexists _, _. split; [reflexivity|]. cbn -[Comment.lookup Comment.set_body].
  rewrite Lc, Hl'. repeat split.
  - cbn. unfold Comment.view, User.lookup. now rewrite Lu.
  - unfold Comment.select_pk in *. cbn -[Comment.lookup Comment.set_body] in *.
    destruct (sqlInt (params req "id")) as [n|]; [|discriminate].
    rewrite Lc. destruct (lookup_some _ _ _ Hf) as [_ <-]. exact Hl'.
  - apply set_body_In; [exact Hpk|]. now apply (select_pk_some _ _ _ Hf).
  - apply set_body_In; [exact Hpk|]. now apply (select_pk_some _ _ _ Hf).
  - apply set_body_columns.
Qed.

(** X9.  A successful delete removes the comment and every comment below
    it, at any depth, and nothing else: with ids unique and replies
    linked, a row is in the table afterwards exactly when it was there
    before, is not the deleted comment and does not descend from it. *)
Theorem delete_removes_the_thread (req : request) (w : world)
  (c : comment_row) (u : user) :
  pk_unique (comments w) ->
  reply_linked (comments w) ->
  req_user req = Some u ->
  Comment.select_pk (JStr (params req "id")) w = Some c ->
  (c_userId c =? u_id u) || (u_role u =? "admin")%string = true ->
  exists r w', deleteComment req w = (Ok r, w')
    /\ status r = 200 /\ message r = MsgCommentDeleted
    /\ (forall d, In d (comments w')
                  <-> In d (comments w) /\ c_id d <> c_id c
                      /\ ~ descends (comments w) (c_id c) d)
    /\ (filter (Comment.isReplyTo (c_id c)) (comments w) = [] ->
        comments w' = Comment.without (c_id c) (comments w)).
Proof.
  intros Hpk Hrl Hu Hf Hok.
  destruct (createLog_total "DELETE_COMMENT"
              (DescDeleted (c_entityType c) (c_entityId c)
                 (List.length (filter (Comment.isReplyTo (c_id c))
                                      (comments w))))
              "comment" (c_id c)
              (Some (SnapDeleted (c_id c) (c_entityType c) (c_entityId c)
                       (c_comment c)
                       (List.length (filter (Comment.isReplyTo (c_id c))
                                            (comments w)))))
              None (u_id u) req (push_trace (Select TComment) w))
    as (o & w2 & El & L & _).
  rewrite (delete_exact req w c u Hu Hf Hok o w2 El).
  destruct L as (_&_&_&_&_&Lc&_). cbn in Lc.
  eexists _, _. split; [reflexivity|]. cbn -[Comment.delete_row].
  rewrite Lc. split; [reflexivity|]. split; [reflexivity|]. split.
  - intros d. now apply delete_row_In.
  - intros Hnone. unfold Comment.delete_row.
    destruct (List.length (Comment.without (c_id c) (comments w)))
      as [|fuel]; [reflexivity|].
    cbn [Comment.cascade].
    assert (E : filter (Comment.references [c_id c])
                       (Comment.without (c_id c) (comments w)) = []).
    { apply find_none_filter. apply find_none_filter in Hnone.
      destruct (find _ (Comment.without _ _)) as [x|] eqn:F; [|reflexivity].
      apply find_some in F. destruct F as [Hx Rx].
      apply filter_In in Hx. destruct Hx as [Hx _].
      pose proof (find_none _ _ Hnone x Hx) as N.
      unfold Comment.references, Comment.isReplyTo, mem in *.
      destruct (c_parentId x); [|discriminate]. cbn [existsb] in Rx.
      rewrite orb_false_r in Rx. congruence. }
    now rewrite E.
Qed.

End Changes.

(** ** The audit log does not block the operation *)

Lemma set_body_other n b cs d :
  c_id d <> n -> (In d (Comment.set_body n b cs) <-> In d cs).
Proof.
  intros Hne. unfold Comment.set_body. rewrite in_map_iff. split.
  - intros (x & Ex & Hx). destruct (c_id x =? n) eqn:E.
    + apply Z.eqb_eq in E. subst d. cbn in Hne. contradiction.
    + now subst d.
  - intros Hd. exists d. apply Z.eqb_neq in Hne. now rewrite Hne.
Qed.

Lemma lookup_delete_row n cs :
  Comment.lookup n (Comment.delete_row n cs) = None.
Proof.
  destruct (Comment.lookup n (Comment.delete_row n cs)) as [d|] eqn:E;
    [|reflexivity].
  apply lookup_some in E. destruct E as [Hin Hid].
  apply delete_row_spec in Hin. tauto.
Qed.

Section NonBlocking.
Context `{Platform}.

(** C2.  With the log table down, the audit-record function catches the
    failed write and returns [null], and each of create, update and delete,
    when its own preconditions hold, still answers success with its change
    applied to the comment table and no log entry written: after a create
    the table ends with the new row; after an update the comment read back
    by its id is the old row with the new body, every other row is as it
    was and no row was added or removed; after a delete the comment is no
    longer found, neither it nor a reply to it is left, no row was added,
    and in a well-formed store every row that is neither the comment nor
    one of its descendants is still there. *)
Theorem audit_non_blocking (w : world) :
  logDown w = true ->
  (forall action desc entityType entityId oldValue newValue performedBy req,
     exists e w',
       createLog action desc entityType entityId oldValue newValue
                 performedBy req w = (Ok None, w')
       /\ console w' = (console w ++ [(HCreateLog, e)])%list
       /\ logs w' = logs w)
  /\ (forall req u t e b p,
        passes_early_checks req w ->
        req_user req = Some u -> In u (users w) ->
        body req "entityType" = JStr t ->
        to_int (body req "entityId") = Some e -> 1 <= e ->
        body req "comment" = JStr b -> Comment.validBody b = true ->
        (truthy (body req "parentId") = false /\ p = None
         \/ truthy (body req "parentId") = true
            /\ exists pc, Comment.select_pk (body req "parentId") w = Some pc
                          /\ same_entity (body req "entityType")
                                         (body req "entityId") pc
                          /\ p = Some (c_id pc)) ->
        exists r w', createComment req w = (Ok r, w')
          /\ status r = 201 /\ success r = true
          /\ comments w'
             = (comments w
                ++ [mkComment (nextCommentId w) t e (u_id u) b p (now w)])%list
          /\ logs w' = logs w)
  /\ (forall req u existing b,
        req_user req = Some u ->
        Comment.select_pk (JStr (params req "id")) w = Some existing ->
        c_userId existing = u_id u ->
        body req "comment" = JStr b -> Comment.validBody b = true ->
        exists r w', updateComment req w = (Ok r, w')
          /\ status r = 200 /\ success r = true
          /\ Comment.select_pk (JStr (params req "id")) w'
             = Some (mkComment (c_id existing) (c_entityType existing)
                               (c_entityId existing) (c_userId existing) b
                               (c_parentId existing) (c_createdAt existing))
          /\ (forall d, c_id d <> c_id existing ->
                        (In d (comments w') <-> In d (comments w)))
          /\ List.length (comments w') = List.length (comments w)
          /\ logs w' = logs w)
  /\ (forall req u c,
        req_user req = Some u ->
        Comment.select_pk (JStr (params req "id")) w = Some c ->
        (c_userId c =? u_id u) || (u_role u =? "admin")%string = true ->
        exists r w', deleteComment req w = (Ok r, w')
          /\ status r = 200 /\ success r = true
          /\ Comment.select_pk (JStr (params req "id")) w' = None
          /\ (forall d, In d (comments w') ->
                        In d (comments w) /\ c_id d <> c_id c
                        /\ c_parentId d <> Some (c_id c))
          /\ (store_ok w ->
              forall d, In d (comments w) -> c_id d <> c_id c ->
                        ~ descends (comments w) (c_id c) d ->
                        In d (comments w'))
          /\ logs w' = logs w).
Proof.
  intros D. split; [|split; [|split]].
  - intros. destruct (createLog_down action desc entityType entityId oldValue
                        newValue performedBy req w D)
      as (e & w' & E & C & L & _). exists e, w'. repeat split; assumption.
  - intros req u t e b p Hp Hu Hin Et Ee Ve Eb Vb Hpar.
    destruct (create_success req w u t e b p Hp Hu Hin Et Ee Ve Eb Vb Hpar)
      as (r & w' & E & St & Su & Cs & _ & Lg).
    exists r, w'. repeat split; auto.
  - intros req u existing b Hu Hf Ha Eb Vb.
    assert (T : truthy (body req "comment") = true).
    { rewrite Eb. cbn. destruct b; [discriminate|reflexivity]. }
    destruct (update_author req w existing u T Hu Hf Ha)
      as (r & w' & E & _ & [(b' & Eb' & _ & St & Su & Cs & Lg)|(Bad & _)]).
    2:{ rewrite Eb in Bad. rewrite (Bad b eq_refl) in Vb. discriminate. }
    rewrite Eb in Cs. cbn [Comment.stored_text] in Cs.
    exists r, w'. split; [exact E|]. split; [exact St|]. split; [exact Su|].
    split; [|split; [|split]].
    + unfold Comment.select_pk in Hf |- *.
      destruct (to_int (JStr (params req "id"))) as [n|]; [|discriminate].
      destruct (lookup_some _ _ _ Hf) as [_ Hid]. subst n. rewrite Cs.
      exact (lookup_set_body _ b _ _ Hf).
    + intros d Hne. rewrite Cs. now apply set_body_other.
    + rewrite Cs. unfold Comment.set_body. now rewrite length_map.
    + now apply Lg.
  - intros req u c Hu Hf Hok.
    destruct (delete_allowed req w c u Hu Hf Hok)
      as (r & w' & E & St & Su & Cs & _ & Lg).
    exists r, w'. split; [exact E|]. split; [exact St|]. split; [exact Su|].
    split; [|split; [|split]].
    + unfold Comment.select_pk in Hf |- *.
      destruct (to_int (JStr (params req "id"))) as [n|]; [|discriminate].
      destruct (lookup_some _ _ _ Hf) as [_ Hid]. rewrite Cs, Hid.
      apply lookup_delete_row.
    + intros d Hd. rewrite Cs in Hd. apply delete_row_spec in Hd.
      destruct Hd as (Hin & Hne & Hr). split; [exact Hin|].
      split; [exact Hne|]. intros Hp. apply isReplyTo_parent in Hp.
      congruence.
    + intros (Hpk & _ & Hrl) d Hin Hne Hnd. rewrite Cs.
      apply delete_row_In; auto.
    + now apply Lg.
Qed.

End NonBlocking.

Lemma audit_non_blocking_witness :
  let creq := request_of (Some bob)
                [("entityType", JStr "project"); ("entityId", JNum 1);
                 ("comment", JStr "thanks again"); ("parentId", JNum 1)] [] in
  let ureq := request_of (Some alice) [("comment", JStr "good work")]
                         [("id", "1")] in
  let dreq := request_of (Some carol) [] [("id", "1")] in
  (exists r w', createComment (H := demo) creq down_world = (Ok r, w')
     /\ status r = 201 /\ success r = true
     /\ comments w'
        = [nice_work; thanks;
           mkComment 3 "project" 1 3 "thanks again" (Some 1) 30]
     /\ logs w' = [])
  /\ (exists r w', updateComment (H := demo) ureq down_world = (Ok r, w')
        /\ status r = 200 /\ success r = true
        /\ Comment.select_pk (H := demo) (JStr "1") w'
           = Some (mkComment 1 "project" 1 7 "good work" None 10)
        /\ In thanks (comments w')
        /\ List.length (comments w') = 2%nat
        /\ logs w' = [])
  /\ (exists r w', deleteComment (H := demo) dreq down_world = (Ok r, w')
        /\ status r = 200 /\ success r = true
        /\ Comment.select_pk (H := demo) (JStr "1") w' = None
        /\ ~ In nice_work (comments w') /\ ~ In thanks (comments w')
        /\ logs w' = []).
Proof.
  destruct (audit_non_blocking (H := demo) down_world eq_refl)
    as (_ & C & U & D).
  split; [|split].
  - apply (C (request_of (Some bob)
                [("entityType", JStr "project"); ("entityId", JNum 1);
                 ("comment", JStr "thanks again"); ("parentId", JNum 1)] [])
             bob "project" 1 "thanks again" (Some 1)); try reflexivity.
    + repeat (split; [reflexivity|]). exists 1. reflexivity.
    + cbn. tauto.
    + right. split; [reflexivity|]. exists nice_work.
      split; [reflexivity|]. split; [split; reflexivity|reflexivity].
  - destruct (U (request_of (Some alice) [("comment", JStr "good work")]
                            [("id", "1")]) alice nice_work "good work"
                eq_refl eq_refl eq_refl eq_refl eq_refl)
      as (r & w' & E & St & Su & Rb & Oth & Len & Lg).
    exists r, w'. repeat split; try assumption.
    apply (Oth thanks); [discriminate|]. cbn. tauto.
  - destruct (D (request_of (Some carol) [] [("id", "1")]) carol nice_work
                eq_refl eq_refl eq_refl)
      as (r & w' & E & St & Su & Rb & Gone & _ & Lg).
    exists r, w'. repeat split; try assumption.
    + intros Hin. apply Gone in Hin. destruct Hin as (_ & Hne & _).
      now apply Hne.
    + intros Hin. apply Gone in Hin. destruct Hin as (_ & _ & Hp).
      now apply Hp.
Defined.

(** ** What a listing shows and what it counts *)

Lemma lookup_unique cs y :
  pk_unique cs -> In y cs -> Comment.lookup (c_id y) cs = Some y.
Proof.
  intros Hpk Hy. unfold Comment.lookup.
  destruct (find (fun c => c_id c =? c_id y) cs) as [z|] eqn:F.
  - apply find_some in F. destruct F as [Hz Ez]. apply Z.eqb_eq in Ez.
    f_equal. eapply pk_unique_eq; eauto.
  - pose proof (find_none _ _ F y Hy) as N. cbn in N.
    rewrite Z.eqb_refl in N. discriminate.
Qed.

Lemma filter_split_length {A} (f g : A -> bool) l :
  List.length (filter f l)
  = (List.length (filter (fun x => f x && negb (g x)) l)
     + List.length (filter (fun x => f x && g x) l))%nat.
Proof.
  induction l as [|x l IH]; [reflexivity|]. cbn.
  destruct (f x), (g x); cbn; lia.
Qed.

Lemma visible_iff `{Platform} t e w d :
  pk_unique (comments w) -> reply_linked (comments w) ->
  In d (visible (Comment.threads t e w))
  <-> In d (comments w) /\ Comment.matches t e d = true
      /\ is_nested (comments w) d = false.
Proof.
  intros Hpk Hrl. rewrite visible_threads_eq, in_flat_map.
  assert (Htops : forall x,
            In x (order_by DESC
                    (filter (fun c => Comment.matches t e c
                                      && Comment.isTopLevel c) (comments w)))
            <-> In x (comments w) /\ Comment.matches t e x = true
                /\ c_parentId x = None).
  { intros x. rewrite order_by_In, filter_In, andb_true_iff,
      isTopLevel_parent. tauto. }
  split.
  - intros (x & Hx & Hdx). apply Htops in Hx. destruct Hx as (Hxin & Hxm & Hxn).
    apply thread_rows_In in Hdx. destruct Hdx as [->|[Hdin Hdp]].
    + split; [exact Hxin|]. split; [exact Hxm|].
      unfold is_nested. now rewrite Hxn.
    + split; [exact Hdin|]. split.
      * destruct (Hrl d (c_id x) Hdin Hdp) as (y & Hy & Hyid & Yt & Yi).
        assert (y = x) by (eapply pk_unique_eq; eauto). subst y.
        unfold Comment.matches in *. now rewrite <- Yt, <- Yi.
      * unfold is_nested. rewrite Hdp, (lookup_unique _ _ Hpk Hxin).
        unfold Comment.isTopLevel. now rewrite Hxn.
  - intros (Hdin & Hdm & Hdn). unfold is_nested in Hdn.
    destruct (c_parentId d) as [p|] eqn:Hdp.
    + destruct (Hrl d p Hdin Hdp) as (y & Hy & Hyid & Yt & Yi). subst p.
      rewrite (lookup_unique _ _ Hpk Hy) in Hdn.
      apply negb_false_iff, isTopLevel_parent in Hdn.
      exists y. split.
      * apply Htops. split; [exact Hy|]. split; [|exact Hdn].
        unfold Comment.matches in *. now rewrite Yt, Yi.
      * apply thread_rows_In. right. auto.
    + exists d. split; [apply Htops; auto|]. apply thread_rows_In. now left.
Qed.

Section Counts.
Context `{Platform}.

(** X10.  In a store with unique ids and linked replies, a listing shows
    exactly the comments of the entity that are top-level or reply to a
    top-level comment, each once, and its total counts those and the
    deeper replies it does not show: total = shown + hidden. *)
Theorem total_counts_hidden_replies (req : request) (w : world) (e : Z) :
  pk_unique (comments w) ->
  reply_linked (comments w) ->
  includes Comment.validEntityTypes (JStr (params req "entityType")) = true ->
  (exists x, fst (find_entity (JStr (params req "entityType"))
                              (JStr (params req "entityId")) w)
             = Ok (Some x)) ->
  parseInt (params req "entityId") = Some e ->
  let m := Comment.matches (params req "entityType") e in
  exists nodes total w',
    getEntityComments req w
    = (Ok (mkResponse 200 true MsgNone
             (CommentList nodes total (List.length nodes))), w')
    /\ NoDup (visible nodes)
    /\ (forall d, In d (visible nodes)
                  <-> In d (comments w) /\ m d = true
                      /\ is_nested (comments w) d = false)
    /\ total
       = (List.length (visible nodes)
          + List.length (filter (fun d => m d && is_nested (comments w) d)
                                (comments w)))%nat.
Proof.
  intros Hpk Hrl Hv Hx He m.
  destruct (list_shape req w e Hv Hx He) as (w' & L).
  eexists _, _, w'. split; [exact L|].
  split; [now apply visible_NoDup|].
  split; [intros d; now apply visible_iff|].
  rewrite (filter_split_length _ (is_nested (comments w))). f_equal.
  apply Permutation_length, NoDup_Permutation.
  - apply NoDup_filter. now apply pk_unique_NoDup.
  - now apply visible_NoDup.
  - intros d. rewrite (visible_iff _ _ _ _ Hpk Hrl), filter_In,
      andb_true_iff, negb_true_iff. tauto.
Qed.

End Counts.

Section CreateThenList.
Context `{Platform}.

(** X11.  Create, then list: in a well-formed store, a comment created by
    a user of the store at top level or as a reply to a top-level comment
    is shown by the next listing of its entity, and the total of that
    listing is the number of comments the entity had before plus one. *)
Theorem created_comment_is_listed (creq lreq : request) (w : world)
  (u : user) (t : string) (e : Z) (b : string) (p : option Z) :
  store_ok w ->
  passes_early_checks creq w ->
  req_user creq = Some u ->
  In u (users w) ->
  body creq "entityType" = JStr t ->
  to_int (body creq "entityId") = Some e -> 1 <= e ->
  body creq "comment" = JStr b -> Comment.validBody b = true ->
  (truthy (body creq "parentId") = false /\ p = None
   \/ truthy (body creq "parentId") = true
      /\ exists pc, Comment.select_pk (body creq "parentId") w = Some pc
                    /\ same_entity (body creq "entityType")
                                   (body creq "entityId") pc
                    /\ c_parentId pc = None
                    /\ p = Some (c_id pc)) ->
  params lreq "entityType" = t ->
  parseInt (params lreq "entityId") = Some e ->
  (exists x, fst (find_entity (JStr (params lreq "entityType"))
                              (JStr (params lreq "entityId")) w)
             = Ok (Some x)) ->
  let c := mkComment (nextCommentId w) t e (u_id u) b p (now w) in
  exists r w' nodes total w'',
    createComment creq w = (Ok r, w')
    /\ status r = 201
    /\ getEntityComments lreq w'
       = (Ok (mkResponse 200 true MsgNone
                (CommentList nodes total (List.length nodes))), w'')
    /\ In c (visible nodes)
    /\ (p = None -> In c (map n_row nodes))
    /\ total
       = S (List.length (filter (Comment.matches t e) (comments w))).
Proof.
  intros Hok Hp Hu Hin Et Ee Ve Eb Vb Hpar Lt Le Hx c.
  assert (Hpar' : truthy (body creq "parentId") = false /\ p = None
                  \/ truthy (body creq "parentId") = true
                     /\ exists pc,
                          Comment.select_pk (body creq "parentId") w = Some pc
                          /\ same_entity (body creq "entityType")
                                         (body creq "entityId") pc
                          /\ p = Some (c_id pc)).
  { destruct Hpar as [A|(Tp & pc & A & B & _ & C)]; [left; exact A|right].
    split; [exact Tp|]. exists pc. auto. }
  destruct (create_success creq w u t e b p Hp Hu Hin Et Ee Ve Eb Vb Hpar')
    as (r & w' & E & St & Su & Cs & (Fp & Fd & Ft & Fm & Fu) & _).
  fold c in Cs.
  destruct (store_ok_preserved creq w Hok) as (Hok' & _).
  rewrite E in Hok'. cbn [snd] in Hok'. destruct Hok' as (Hpk' & _ & Hrl').
  assert (Hv : includes Comment.validEntityTypes
                 (JStr (params lreq "entityType")) = true).
  { destruct Hp as (_ & _ & _ & V & _). now rewrite Lt, <- Et. }
  assert (Hx' : exists x,
             fst (find_entity (JStr (params lreq "entityType"))
                              (JStr (params lreq "entityId")) w')
             = Ok (Some x)).
  { destruct Hx as (x & Hx). exists x.
    now rewrite (find_entity_frame _ _ w w' Fp Fd Ft Fm). }
  destruct (list_shape lreq w' e Hv Hx' Le) as (w'' & L).
  rewrite Lt in L.
  assert (Hcin : In c (comments w')).
  { rewrite Cs. apply in_or_app. right. now left. }
  assert (Hm : Comment.matches t e c = true).
  { unfold Comment.matches. cbn. now rewrite String.eqb_refl, Z.eqb_refl. }
  exists r, w'. eexists _, _, w''.
  split; [exact E|]. split; [exact St|]. split; [exact L|].
  split; [|split].
  - apply visible_iff; auto. split; [exact Hcin|]. split; [exact Hm|].
    unfold is_nested. cbn [c_parentId c].
    destruct Hpar as [(_ & ->)|(_ & pc & Hpc & _ & Hpn & ->)]; [reflexivity|].
    assert (Hpin : In pc (comments w')).
    { rewrite Cs. apply in_or_app. left. eapply select_pk_some. exact Hpc. }
    rewrite (lookup_unique _ _ Hpk' Hpin).
    unfold Comment.isTopLevel. now rewrite Hpn.
  - intros ->. unfold Comment.threads. rewrite map_map. cbn [n_row].
    rewrite map_id. apply order_by_In, filter_In. split; [exact Hcin|].
    now rewrite Hm.
  - rewrite Cs, filter_app, length_app. cbn [filter]. rewrite Hm.
    cbn. lia.
Qed.

End CreateThenList.

(** ** The invitation workflow, step by step *)

Section InvitationSteps.
Context `{Platform}.

Lemma respond_not_found req w u :
  req_user req = Some u ->
  includes ["accepted"; "declined"] (body req "response") = true ->
  find (fun i => opt_eqb (sqlInt (params req "invitationId")) (i_id i)
                 && (i_userId i =? u_id u) && TeamInvitation.is_pending i)
       (invitations w) = None ->
  respondToInvitation req w
  = (Ok (mkResponse 404 false MsgInvitationNotFound NoData),
     push_trace (Select TTeamInvitation) w).
Proof.
  intros Hu Hi Hf. unfold respondToInvitation, try_catch, current_user.
  rewrite Hu, bind_ret, Hi. cbn [negb].
  unfold TeamInvitation.findOne_pending_for, bind, issue, modify, gets.
  cbn -[find]. rewrite Hf. reflexivity.
Qed.

Lemma respond_found req w u i :
  req_user req = Some u ->
  includes ["accepted"; "declined"] (body req "response") = true ->
  find (fun i => opt_eqb (sqlInt (params req "invitationId")) (i_id i)
                 && (i_userId i =? u_id u) && TeamInvitation.is_pending i)
       (invitations w) = Some i ->
  let accepted := strict_eq (body req "response") (JStr "accepted") in
  exists r w', respondToInvitation req w = (Ok r, w')
    /\ invitations w'
       = TeamInvitation.set_status (i_id i)
           (if accepted then Accepted else Declined) (invitations w)
    /\ nextInvitationId w' = nextInvitationId w
    /\ teams w' = teams w /\ users w' = users w
    /\ (if accepted then
          if existsb (TeamMember.is_pair (i_teamId i) (Some (u_id u)))
                     (teamMembers w)
          then status r = 500 /\ message r = MsgRespondError
               /\ teamMembers w' = teamMembers w
               /\ console w'
                  = (console w ++ [(HRespondToInvitation, QueryError)])%list
          else status r = 200 /\ message r = MsgJoined
               /\ data r
                  = InvitationData
                      (Some (TeamInvitation.with_status Accepted i))
               /\ teamMembers w'
                  = (teamMembers w
                     ++ [mkTeamMember (i_teamId i) (u_id u) (i_role i)])%list
               /\ console w' = console w
        else status r = 200 /\ message r = MsgDeclined
             /\ data r
                = InvitationData (Some (TeamInvitation.with_status Declined i))
             /\ teamMembers w' = teamMembers w
             /\ console w' = console w).
Proof.
  intros Hu Hi Hf accepted. unfold respondToInvitation, try_catch, current_user.
  rewrite Hu, bind_ret, Hi. cbn [negb].
  unfold TeamInvitation.findOne_pending_for, bind at 1, issue, modify, gets.
  unfold bind at 1. cbn -[find]. rewrite Hf. cbn beta iota.
  fold accepted.
  unfold TeamInvitation.update_status, TeamMember.create,
    bind, issue, modify, gets, ret, throw, respond, console_error.
  cbn -[existsb TeamInvitation.set_status].
  destruct accepted.
  - cbn -[existsb TeamInvitation.set_status].
    destruct (existsb (TeamMember.is_pair (i_teamId i) (Some (u_id u)))
                      (teamMembers w));
      cbn -[TeamInvitation.set_status]; eexists _, _;
      (split; [reflexivity|]); cbn -[TeamInvitation.set_status];
      repeat split.
  - cbn -[TeamInvitation.set_status]. eexists _, _.
    split; [reflexivity|]. cbn -[TeamInvitation.set_status]. repeat split.
Qed.

Lemma cancel_not_found req w u :
  req_user req = Some u ->
  find (fun i => opt_eqb (sqlInt (params req "invitationId")) (i_id i)
                 && mem (i_teamId i)
                        (map t_id (filter (fun t => t_managerId t =? u_id u)
                                          (teams w)))
                 && TeamInvitation.is_pending i)
       (invitations w) = None ->
  exists r w', cancelInvitation req w = (Ok r, w')
    /\ status r = 404 /\ success r = false
    /\ tables_kept w w' /\ console w' = console w.
Proof.
  intros Hu Hf. unfold cancelInvitation, try_catch, current_user.
  rewrite Hu, bind_ret.
  unfold Team.findAll_manager, bind at 1, issue, modify, gets.
  unfold bind at 1. cbn -[find filter mem].
  destruct (filter (fun t => t_managerId t =? u_id u) (teams w))
    as [|t0 ts] eqn:Ft.
  - cbn. eexists _, _. split; [reflexivity|]. repeat split.
  - unfold TeamInvitation.findOne_pending_in, bind, issue, modify, gets.
    cbn -[find filter mem map]. rewrite Hf. cbn.
    eexists _, _. split; [reflexivity|]. repeat split.
Qed.

Lemma cancel_found req w u i :
  req_user req = Some u ->
  find (fun i => opt_eqb (sqlInt (params req "invitationId")) (i_id i)
                 && mem (i_teamId i)
                        (map t_id (filter (fun t => t_managerId t =? u_id u)
                                          (teams w)))
                 && TeamInvitation.is_pending i)
       (invitations w) = Some i ->
  exists w', cancelInvitation req w
             = (Ok (mkResponse 200 true MsgInvitationCancelled NoData), w')
    /\ invitations w'
       = TeamInvitation.set_status (i_id i) Cancelled (invitations w)
    /\ nextInvitationId w' = nextInvitationId w
    /\ teams w' = teams w /\ users w' = users w
    /\ teamMembers w' = teamMembers w /\ console w' = console w.
Proof.
  intros Hu Hf. unfold cancelInvitation, try_catch, current_user.
  rewrite Hu, bind_ret.
  unfold Team.findAll_manager, bind at 1, issue, modify, gets.
  unfold bind at 1. cbn -[find filter mem].
  destruct (filter (fun t => t_managerId t =? u_id u) (teams w))
    as [|t0 ts] eqn:Ft.
  - exfalso. apply find_some in Hf. destruct Hf as [_ Hf].
    cbn in Hf. rewrite andb_false_r in Hf. discriminate.
  - unfold TeamInvitation.findOne_pending_in, bind at 1, issue, modify, gets.
    unfold bind at 1.
    cbn -[find filter mem map]. rewrite Hf.
    eexists. split; [reflexivity|]. cbn -[TeamInvitation.set_status].
    repeat split.
Qed.

End InvitationSteps.

Lemma set_status_resolved id s ivs j :
  s <> Pending ->
  In j (TeamInvitation.set_status id s ivs) -> i_id j = id ->
  TeamInvitation.is_pending j = false.
Proof.
  intros Hs Hj Hid. unfold TeamInvitation.set_status in Hj.
  apply in_map_iff in Hj. destruct Hj as (x & Ex & _).
  destruct (i_id x =? id) eqn:E.
  - subst j. unfold TeamInvitation.is_pending. cbn.
    destruct s; try reflexivity. contradiction.
  - subst j. apply Z.eqb_neq in E. contradiction.
Qed.

Section InvitationRights.
Context `{Platform}.

Lemma respond_success_inv req w r w' :
  respondToInvitation req w = (Ok r, w') -> success r = true ->
  exists u i s,
    req_user req = Some u
    /\ In i (invitations w)
    /\ sqlInt (params req "invitationId") = Some (i_id i)
    /\ i_userId i = u_id u /\ i_status i = Pending
    /\ s <> Pending
    /\ invitations w' = TeamInvitation.set_status (i_id i) s (invitations w).
Proof.
  intros E S.
  destruct (req_user req) as [u|] eqn:Hu.
  2:{ revert E. unfold respondToInvitation, try_catch, current_user.
      rewrite Hu. cbn. intros E. inversion E; subst. discriminate. }
  destruct (includes ["accepted"; "declined"] (body req "response")) eqn:Hi.
  2:{ revert E. unfold respondToInvitation, try_catch, current_user.
      rewrite Hu, bind_ret, Hi. cbn. intros E. inversion E; subst.
      discriminate. }
  destruct (find (fun i => opt_eqb (sqlInt (params req "invitationId")) (i_id i)
                           && (i_userId i =? u_id u)
                           && TeamInvitation.is_pending i)
                 (invitations w)) as [i|] eqn:Hf.
  2:{ rewrite (respond_not_found req w u Hu Hi Hf) in E. inversion E; subst.
      discriminate. }
  destruct (respond_found req w u i Hu Hi Hf) as (r1 & w1 & E1 & Iv & _).
  rewrite E in E1. inversion E1; subst r1 w1.
  apply find_some in Hf. destruct Hf as [Hin Hp].
  apply andb_true_iff in Hp. destruct Hp as [Hp P].
  apply andb_true_iff in Hp. destruct Hp as [Hid Hus].
  exists u, i. eexists. split; [reflexivity|]. split; [exact Hin|].
  split; [|split; [|split; [|split; [|exact Iv]]]].
  - unfold opt_eqb in Hid. destruct (sqlInt _) as [n|]; [|discriminate].
    apply Z.eqb_eq in Hid. now subst.
  - now apply Z.eqb_eq.
  - unfold TeamInvitation.is_pending in P. now destruct (i_status i).
  - destruct (strict_eq _ _); discriminate.
Qed.

Lemma cancel_success_inv req w r w' :
  cancelInvitation req w = (Ok r, w') -> success r = true ->
  exists u i t,
    req_user req = Some u
    /\ In t (teams w) /\ t_managerId t = u_id u /\ i_teamId i = t_id t
    /\ In i (invitations w)
    /\ sqlInt (params req "invitationId") = Some (i_id i)
    /\ i_status i = Pending
    /\ invitations w'
       = TeamInvitation.set_status (i_id i) Cancelled (invitations w).
Proof.
  intros E S.
  destruct (req_user req) as [u|] eqn:Hu.
  2:{ revert E. unfold cancelInvitation, try_catch, current_user.
      rewrite Hu. cbn. intros E. inversion E; subst. discriminate. }
  destruct (find (fun i => opt_eqb (sqlInt (params req "invitationId")) (i_id i)
                 && mem (i_teamId i)
                        (map t_id (filter (fun t => t_managerId t =? u_id u)
                                          (teams w)))
                 && TeamInvitation.is_pending i)
                 (invitations w)) as [i|] eqn:Hf.
  2:{ destruct (cancel_not_found req w u Hu Hf) as (r1 & w1 & E1 & _ & Sf & _).
      rewrite E in E1. inversion E1; subst r1 w1. congruence. }
  destruct (cancel_found req w u i Hu Hf) as (w1 & E1 & Iv & _).
  rewrite E in E1. inversion E1; subst r w1.
  apply find_some in Hf. destruct Hf as [Hin Hp].
  apply andb_true_iff in Hp. destruct Hp as [Hp P].
  apply andb_true_iff in Hp. destruct Hp as [Hid Hm].
  unfold mem in Hm. apply existsb_exists in Hm. destruct Hm as (n & Hn & En).
  apply Z.eqb_eq in En. apply in_map_iff in Hn. destruct Hn as (t & Et & Ht).
  apply filter_In in Ht. destruct Ht as [Ht Hmg]. apply Z.eqb_eq in Hmg.
  exists u, i, t. split; [reflexivity|]. split; [exact Ht|].
  split; [exact Hmg|]. split; [congruence|]. split; [exact Hin|].
  split; [|split; [|exact Iv]].
  - unfold opt_eqb in Hid. destruct (sqlInt _) as [k|]; [|discriminate].
    apply Z.eqb_eq in Hid. now subst.
  - unfold TeamInvitation.is_pending in P. now destruct (i_status i).
Qed.


End InvitationRights.

Section InvitationLife.
Context `{Platform}.


Lemma resolved_not_found k id s ivs (f : team_invitation -> bool) :
  s <> Pending -> k = Some id ->
  find (fun i => opt_eqb k (i_id i) && f i && TeamInvitation.is_pending i)
       (TeamInvitation.set_status id s ivs) = None.
Proof.
  intros Hs ->. apply find_none_filter.
  destruct (filter _ _) as [|x l] eqn:F; [reflexivity|].
  assert (Hx : In x (x :: l)) by now left.
  rewrite <- F in Hx. apply filter_In in Hx. destruct Hx as [Hin Hp].
  apply andb_true_iff in Hp. destruct Hp as [Hp P].
  apply andb_true_iff in Hp. destruct Hp as [Hid _].
  cbn in Hid. apply Z.eqb_eq in Hid.
  rewrite (set_status_resolved id s ivs x Hs Hin (eq_sym Hid)) in P.
  discriminate.
Qed.

Lemma resolved_stays_resolved req2 w1 id s ivs :
  s <> Pending ->
  sqlInt (params req2 "invitationId") = Some id ->
  invitations w1 = TeamInvitation.set_status id s ivs ->
  (exists r2 w2, respondToInvitation req2 w1 = (Ok r2, w2)
     /\ success r2 = false /\ tables_kept w1 w2
     /\ (req_user req2 <> None ->
         includes ["accepted"; "declined"] (body req2 "response") = true ->
         status r2 = 404))
  /\ (exists r2 w2, cancelInvitation req2 w1 = (Ok r2, w2)
        /\ success r2 = false /\ tables_kept w1 w2
        /\ (req_user req2 <> None -> status r2 = 404)).
Proof.
  intros Hs Hk Iv. split.
  - destruct (req_user req2) as [u2|] eqn:Hu.
    2:{ unfold respondToInvitation, try_catch, current_user. rewrite Hu. cbn.
        eexists _, _. split; [reflexivity|]. repeat split. congruence. }
    destruct (includes ["accepted"; "declined"] (body req2 "response")) eqn:Hi.
    2:{ unfold respondToInvitation, try_catch, current_user.
        rewrite Hu, bind_ret, Hi. cbn.
        eexists _, _. split; [reflexivity|]. repeat split. congruence. }
    rewrite (respond_not_found req2 w1 u2 Hu Hi).
    + eexists _, _. split; [reflexivity|]. repeat split.
    + rewrite Iv. now apply resolved_not_found.
  - destruct (req_user req2) as [u2|] eqn:Hu.
    2:{ unfold cancelInvitation, try_catch, current_user. rewrite Hu. cbn.
        eexists _, _. split; [reflexivity|]. repeat split. congruence. }
    destruct (cancel_not_found req2 w1 u2 Hu)
      as (r2 & w2 & E & St & Sf & K & _).
    + rewrite Iv. now apply resolved_not_found.
    + exists r2, w2. auto.
Qed.

(** X14.  A resolved invitation is final.  Once an invitation has been
    answered or cancelled with success, every later answer to it and every
    later cancellation of it, by whomever, fails (with 404 when the request
    is otherwise well-formed) and changes no table. *)
Theorem resolved_invitation_is_final (req req2 : request) (w : world)
  (r : response) (w' : world) :
  respondToInvitation req w = (Ok r, w')
  \/ cancelInvitation req w = (Ok r, w') ->
  success r = true ->
  params req2 "invitationId" = params req "invitationId" ->
  (exists r2 w2, respondToInvitation req2 w' = (Ok r2, w2)
     /\ success r2 = false /\ tables_kept w' w2
     /\ (req_user req2 <> None ->
         includes ["accepted"; "declined"] (body req2 "response") = true ->
         status r2 = 404))
  /\ (exists r2 w2, cancelInvitation req2 w' = (Ok r2, w2)
        /\ success r2 = false /\ tables_kept w' w2
        /\ (req_user req2 <> None -> status r2 = 404)).
Proof.
  intros [E|E] S Ep.
  - destruct (respond_success_inv req w r w' E S)
      as (u & i & s & _ & _ & Hk & _ & _ & Hs & Iv).
    rewrite <- Ep in Hk.
    exact (resolved_stays_resolved req2 w' (i_id i) s (invitations w) Hs Hk Iv).
  - destruct (cancel_success_inv req w r w' E S)
      as (u & i & t & _ & _ & _ & _ & _ & Hk & _ & Iv).
    rewrite <- Ep in Hk.
    apply (resolved_stays_resolved req2 w' (i_id i) Cancelled (invitations w));
      [discriminate|exact Hk|exact Iv].
Qed.

End InvitationLife.


Section Reinvite.
Context `{Platform}.


Lemma resolve_team_manages teamId userId w team :
  fst (resolve_team teamId userId w) = Ok (inr team) ->
  In team (teams w) /\ t_managerId team = userId.
Proof.
  unfold resolve_team. destruct (truthy teamId).
  - unfold Team.findOne_id_manager, bind, issue, modify, gets, ret, respond.
    cbn. destruct (find _ (teams w)) as [t|] eqn:F; cbn; [|discriminate].
    intros E. inversion E; subst t. apply find_some in F.
    destruct F as [Hin Hp]. apply andb_true_iff in Hp.
    split; [exact Hin|]. now apply Z.eqb_eq.
  - unfold Team.findOne_manager, bind, issue, modify, gets, ret, respond.
    cbn. destruct (find _ (teams w)) as [t|] eqn:F; cbn; [|discriminate].
    intros E. inversion E; subst t. apply find_some in F.
    destruct F as [Hin Hp]. split; [exact Hin|]. now apply Z.eqb_eq.
Qed.




End Reinvite.

(** ** The class methods of the Comment model *)

Lemma sorted_app_le {A} (R : A -> A -> Prop) l1 : forall l2,
  StronglySorted R (l1 ++ l2) ->
  StronglySorted R l1 /\ forall a b, In a l1 -> In b l2 -> R a b.
Proof.
  induction l1 as [|x l1 IH]; intros l2 Hs.
  - split; [constructor|]. intros a b [].
  - cbn in Hs. inversion Hs as [|? ? Ht Hx]; subst.
    destruct (IH l2 Ht) as [S1 S2]. split.
    + constructor; [exact S1|]. rewrite Forall_forall in *.
      intros y Hy. apply Hx. apply in_or_app. now left.
    + intros a b [<-|Ha] Hb.
      * rewrite Forall_forall in Hx. apply Hx. apply in_or_app. now right.
      * now apply S2.
Qed.

Lemma order_by_DESC_sorted l :
  StronglySorted (fun a b => c_createdAt b <= c_createdAt a) (order_by DESC l).
Proof.
  assert (S : StronglySorted
                (fun a b => DESC (c_createdAt a) (c_createdAt b) = true)
                (order_by DESC l)).
  { apply order_by_sorted; unfold DESC; intros a b.
    - rewrite Z.geb_leb, Z.leb_gt, Z.geb_le. lia.
    - intros c. rewrite !Z.geb_le. lia. }
  induction S as [|x t St IH Hx]; constructor; [exact IH|].
  rewrite Forall_forall in *. intros y Hy. specialize (Hx y Hy).
  unfold DESC in Hx. now apply Z.geb_le in Hx.
Qed.

(** X16.  [Comment.getRecentByUser] returns at most [limit] comments (10
    when the argument is left out), all of them comments of the user, the
    newest first; a comment of the user that is left out is no newer than
    any comment returned; with no more than [limit] comments the user gets
    all of them.  The call changes no table. *)
Theorem recent_by_user (userId : Z) (limit : option nat) (w : world) :
  let k := match limit with Some n => n | None => 10%nat end in
  let mine := filter (fun c => c_userId c =? userId) (comments w) in
  exists rows w',
    CommentModel.getRecentByUser userId limit w = (Ok rows, w')
    /\ tables_kept w w'
    /\ List.length rows = Nat.min k (List.length mine)
    /\ (forall c, In c rows -> In c (comments w) /\ c_userId c = userId)
    /\ StronglySorted (fun a b => c_createdAt b <= c_createdAt a) rows
    /\ (forall c d, In c rows -> In d mine -> ~ In d rows ->
                    c_createdAt d <= c_createdAt c)
    /\ ((List.length mine <= k)%nat -> Permutation mine rows).
Proof.
  intros k mine.
  assert (Hperm : Permutation mine (order_by DESC mine)).
  { apply order_by_perm. }
  pose proof (order_by_DESC_sorted mine) as Hs.
  rewrite <- (firstn_skipn k (order_by DESC mine)) in Hs.
  apply sorted_app_le in Hs. destruct Hs as [S1 S2].
  exists (firstn k (order_by DESC mine)), (push_trace (Select TComment) w).
  split; [reflexivity|]. split; [repeat split|].
  split; [|split; [|split; [|split]]].
  - rewrite length_firstn. f_equal.
    symmetry. now apply Permutation_length.
  - intros c Hc.
    assert (Hc' : In c (order_by DESC mine)).
    { rewrite <- (firstn_skipn k). apply in_or_app. now left. }
    clear Hc. apply order_by_In in Hc'. rename Hc' into Hc.
    apply filter_In in Hc. destruct Hc as [Hin E].
    split; [exact Hin|now apply Z.eqb_eq].
  - exact S1.
  - intros c d Hc Hd Hnot. apply S2; [exact Hc|].
    apply (order_by_In DESC) in Hd.
    rewrite <- (firstn_skipn k (order_by DESC mine)) in Hd.
    apply in_app_or in Hd. destruct Hd as [Hd|Hd]; [contradiction|exact Hd].
  - intros Hle.
    assert (Hl : (List.length (order_by DESC mine) <= k)%nat)
      by (rewrite <- (Permutation_length Hperm); exact Hle).
    rewrite (firstn_all2 _ Hl). exact Hperm.
Qed.

Section CountSplit.
Context `{Platform}.

(** X17.  The total a listing reports is the number
    [Comment.countByEntity] returns for the entity, and it is the number of
    top-level comments the listing reports plus the number of comments of
    the entity for which [isReply] holds; every comment is either a reply
    or top-level, never both. *)
Theorem count_splits (req : request) (w : world) (e : Z) :
  includes Comment.validEntityTypes (JStr (params req "entityType")) = true ->
  (exists x, fst (find_entity (JStr (params req "entityType"))
                              (JStr (params req "entityId")) w)
             = Ok (Some x)) ->
  parseInt (params req "entityId") = Some e ->
  let t := params req "entityType" in
  exists nodes total topLevel w',
    getEntityComments req w
    = (Ok (mkResponse 200 true MsgNone (CommentList nodes total topLevel)), w')
    /\ fst (CommentModel.countByEntity t e w) = Ok total
    /\ total
       = (topLevel
          + List.length
              (filter (fun c => Comment.matches t e c
                                && CommentModel.isReply c) (comments w)))%nat
    /\ (forall c, CommentModel.isReply c = negb (Comment.isTopLevel c)).
Proof.
  intros Hv Hx He t.
  destruct (list_shape req w e Hv Hx He) as (w' & L).
  eexists _, _, _, w'. split; [exact L|]. split; [reflexivity|]. split.
  - fold t. rewrite (filter_split_length _ CommentModel.isReply). f_equal.
    unfold Comment.threads. rewrite length_map.
    rewrite <- (Permutation_length (order_by_perm DESC _)).
    f_equal. apply filter_ext. intros c.
    unfold CommentModel.isReply, Comment.isTopLevel.
    now destruct (c_parentId c).
  - intros c. unfold CommentModel.isReply, Comment.isTopLevel.
    now destruct (c_parentId c).
Qed.

End CountSplit.

(** ** The team routes *)

Section TeamRoutes.
Context `{Platform}.

Lemma protect_next req w token id u :
  first_truthy [bearer_token req] = Some token ->
  jwt_verify token = inl id ->
  User.lookup id w = Some u ->
  u_isActive u = true ->
  protect req w = (Ok (Next u), push_trace (Select TUser) w).
Proof.
  intros Ht Hv Hl Ha. unfold protect, try_catch. rewrite Ht.
  unfold verify. rewrite Hv. cbn. unfold bind. cbn.
  unfold User.lookup in Hl. rewrite Hl. cbn. now rewrite Ha.
Qed.

Lemma protect_next_inv req w u w' :
  protect req w = (Ok (Next u), w') ->
  w' = push_trace (Select TUser) w
  /\ User.lookup (u_id u) w = Some u /\ u_isActive u = true.
Proof.
  unfold protect, try_catch.
  destruct (first_truthy [bearer_token req]) as [token|]; [|discriminate].
  unfold verify. destruct (jwt_verify token) as [id|e].
  - cbn. unfold bind. cbn.
    destruct (find _ (users w)) as [u0|] eqn:L; cbn; [|discriminate].
    destruct (u_isActive u0) eqn:A; cbn; [|discriminate].
    intros E. inversion E; subst. split; [reflexivity|].
    split; [|exact A]. unfold User.lookup.
    pose proof (find_some _ _ L) as [_ Hid]. apply Z.eqb_eq in Hid.
    now rewrite Hid.
  - destruct e; cbn; discriminate.
Qed.

Lemma protect_rejected req w r w' :
  protect req w = (Ok (Rejected r), w') -> success r = false.
Proof.
  unfold protect, try_catch.
  destruct (first_truthy [bearer_token req]) as [token|].
  2:{ cbn. intros E. now inversion E. }
  unfold verify. destruct (jwt_verify token) as [id|e].
  - cbn. unfold bind. cbn.
    destruct (find _ (users w)) as [u0|]; cbn.
    + destruct (u_isActive u0); cbn; intros E; now inversion E.
    + intros E. now inversion E.
  - destruct e; cbn; intros E; now inversion E.
Qed.

(** X18.  The restricted team routes.  For a request with the token of an
    active user: when the user's role is not among the roles of the route
    the answer is 403, it names the role, and the handler does not run
    (the world shows the user lookup of [protect] and nothing else); when
    the role is among them the answer is the handler's, run on the request
    with [req.user] set. *)
Theorem team_route_roles (roles : list string)
  (handler : request -> M response) (req : request) (w : world)
  (token : string) (id : Z) (u : user) :
  first_truthy [bearer_token req] = Some token ->
  jwt_verify token = inl id ->
  User.lookup id w = Some u ->
  u_isActive u = true ->
  (includes roles (JStr (u_role u)) = false ->
   team_route roles handler req w
   = (Ok (inr (mkRefusal 403 false (MsgRoleRefused (u_role u)))),
      push_trace (Select TUser) w))
  /\ (includes roles (JStr (u_role u)) = true ->
      team_route roles handler req w
      = match handler (with_user u req) (push_trace (Select TUser) w) with
        | (Ok r, w') => (Ok (inl r), w')
        | (Thrown e, w') => (Thrown e, w')
        end).
Proof.
  intros Ht Hv Hl Ha.
  pose proof (protect_next req w token id u Ht Hv Hl Ha) as P.
  split; intros Hr; unfold team_route; rewrite (bind_ok _ _ _ _ _ P);
    unfold authorize; cbn [req_user with_user]; rewrite Hr; cbn [negb].
  - reflexivity.
  - unfold bind. destruct (handler _ _) as [[r|e] w']; reflexivity.
Qed.

Lemma send_outcome req w r w' :
  sendInvitation req w = (Ok r, w') ->
  (success r = false /\ tables_kept w w')
  \/ (success r = true
      /\ exists u team target,
           req_user req = Some u
           /\ In team (teams w) /\ t_managerId team = u_id u
           /\ User.select_pk (body req "targetUserId") w = Some target
           /\ u_role target = "consultant"
           /\ find (TeamMember.is_pair (t_id team) (Some (u_id target)))
                   (teamMembers w) = None
           /\ pending_for (t_id team) (u_id target) w = []
           /\ teamMembers w' = teamMembers w
           /\ invitations w'
              = (TeamInvitation.purge (t_id team) (Some (u_id target))
                                      (invitations w)
                 ++ [new_invitation req u team target w])%list).
Proof.
  intros E.
  destruct (req_user req) as [u|] eqn:Hu.
  2:{ revert E. unfold sendInvitation, try_catch, current_user.
      rewrite Hu. cbn. intros E. inversion E; subst. left. repeat split. }
  destruct (resolve_team_run (body req "teamId") (u_id u) w) as (o & Er).
  destruct o as [r0|team].
  { revert E. unfold sendInvitation, try_catch, current_user.
    rewrite Hu, bind_ret. cbn zeta. rewrite (bind_ok _ _ _ _ _ Er).
    cbn. intros E. inversion E; subst r0 w'. left.
    split; [|repeat split].
    revert Er. unfold resolve_team.
    destruct (truthy (body req "teamId")).
    - unfold Team.findOne_id_manager, bind, issue, modify, gets, ret, respond.
      cbn. destruct (find _ (teams w)); cbn; intros X; inversion X; subst;
        reflexivity.
    - unfold Team.findOne_manager, bind, issue, modify, gets, ret, respond.
      cbn. destruct (find _ (teams w)); cbn; intros X; inversion X; subst;
        reflexivity. }
  assert (Ht : fst (resolve_team (body req "teamId") (u_id u) w)
               = Ok (inr team)) by (now rewrite Er).
  destruct (resolve_team_manages _ _ _ _ Ht) as [Htin Hmg].
  destruct (User.select_pk (body req "targetUserId") w) as [target|] eqn:Hs.
  2:{ revert E. unfold sendInvitation, try_catch, current_user.
      rewrite Hu, bind_ret. cbn zeta. rewrite (bind_ok _ _ _ _ _ Er).
      destruct (User_findByPk_none _ (push_trace (Select TTeam) w) Hs)
        as (w1 & Ef & [->| ->]);
        rewrite (bind_ok _ _ _ _ _ Ef); cbn; intros E; inversion E; subst;
        left; repeat split. }
  destruct (u_role target =? "consultant")%string eqn:Hr.
  2:{ revert E. unfold sendInvitation, try_catch, current_user.
      rewrite Hu, bind_ret. cbn zeta. rewrite (bind_ok _ _ _ _ _ Er).
      rewrite (User_findByPk_some _ _ _ Hs).
    unfold bind, issue, modify, gets, ret, respond.
      cbn -[String.eqb find].
      change (User.select_pk (body req "targetUserId")
                (push_trace (Select TTeam) w))
        with (User.select_pk (body req "targetUserId") w).
      rewrite Hs, Hr. cbn. intros E. inversion E; subst. left.
      repeat split. }
  apply String.eqb_eq in Hr.
  pose proof (user_select_pk_some _ _ _ Hs) as Hn.
  destruct (find (TeamMember.is_pair (t_id team) (Some (u_id target)))
                 (teamMembers w)) as [m|] eqn:Hm.
  { revert E. unfold sendInvitation, try_catch, current_user.
    rewrite Hu, bind_ret. cbn zeta. rewrite (bind_ok _ _ _ _ _ Er).
    rewrite (User_findByPk_some _ _ _ Hs).
    unfold TeamMember.findOne,
      bind, issue, modify, gets, ret, respond.
    cbn -[String.eqb find].
    change (User.select_pk (body req "targetUserId")
              (push_trace (Select TTeam) w))
      with (User.select_pk (body req "targetUserId") w).
    rewrite Hs, Hr, Hn. cbn -[find]. rewrite Hm. cbn.
    intros E. inversion E; subst. left. repeat split. }
  destruct (find (fun i => TeamInvitation.is_pair (t_id team)
                             (Some (u_id target)) i
                           && TeamInvitation.is_pending i) (invitations w))
    as [i|] eqn:Hp.
  { revert E. unfold sendInvitation, try_catch, current_user.
    rewrite Hu, bind_ret. cbn zeta. rewrite (bind_ok _ _ _ _ _ Er).
    rewrite (User_findByPk_some _ _ _ Hs).
    unfold TeamMember.findOne, TeamInvitation.findOne_pending,
      bind, issue, modify, gets, ret, respond.
    cbn -[String.eqb find].
    change (User.select_pk (body req "targetUserId")
              (push_trace (Select TTeam) w))
      with (User.select_pk (body req "targetUserId") w).
    rewrite Hs, Hr, Hn. cbn -[find]. rewrite Hm. cbn -[find]. rewrite Hp. cbn.
    intros E. inversion E; subst. left. repeat split. }
  destruct (send_checked req w u team target Hu Ht Hs Hr Hm)
    as (r1 & w1 & E1 & Tm & R).
  rewrite E in E1. inversion E1; subst r1 w1.
  rewrite Hp in R. destruct R as (_ & Su & Iv).
  right. split; [exact Su|]. exists u, team, target.
  apply find_none_filter in Hp. auto 12.
Qed.

Lemma send_success_inv req w r w' :
  sendInvitation req w = (Ok r, w') -> success r = true ->
  exists u team target,
    req_user req = Some u
    /\ In team (teams w) /\ t_managerId team = u_id u
    /\ User.select_pk (body req "targetUserId") w = Some target
    /\ u_role target = "consultant"
    /\ invitations w'
       = (TeamInvitation.purge (t_id team) (Some (u_id target))
                               (invitations w)
          ++ [new_invitation req u team target w])%list.
Proof.
  intros E S.
  destruct (send_outcome req w r w' E)
    as [(F & _)|(_ & u & team & target & A & B & C & D & G & _ & _ & _ & Iv)].
  - congruence.
  - exists u, team, target. auto 10.
Qed.

(** X19.  Nobody invites themselves through the route.  An invitation
    sent through [POST /invitations] with success was sent by a user whose
    role is project manager or admin to a user whose role is consultant,
    so the stored invitation never has its sender as its recipient. *)
Theorem no_self_invitation (req : request) (w : world) (r : response)
  (w' : world) :
  post_invitations req w = (Ok (inl r), w') ->
  success r = true ->
  exists u team target i,
    User.lookup (u_id u) w = Some u
    /\ includes managers (JStr (u_role u)) = true
    /\ User.lookup (u_id target) w = Some target
    /\ u_role target = "consultant"
    /\ invitations w'
       = (TeamInvitation.purge (t_id team) (Some (u_id target))
                               (invitations w) ++ [i])%list
    /\ i_teamId i = t_id team /\ t_managerId team = u_id u
    /\ i_invitedBy i = u_id u /\ i_userId i = u_id target
    /\ i_status i = Pending
    /\ i_invitedBy i <> i_userId i.
Proof.
  unfold post_invitations, team_route. intros E S.
  destruct (protect req w) as [[g|e] w1] eqn:P.
  2:{ rewrite (bind_thrown _ _ _ _ _ P) in E. discriminate. }
  rewrite (bind_ok _ _ _ _ _ P) in E.
  destruct g as [r0|u].
  { cbn in E. inversion E; subst r0 w1.
    apply protect_rejected in P. congruence. }
  destruct (protect_next_inv _ _ _ _ P) as (-> & Hl & _).
  cbn zeta in E. unfold authorize in E. cbn [req_user with_user] in E.
  destruct (includes managers (JStr (u_role u))) eqn:Hr; cbn [negb] in E;
    [|discriminate].
  destruct (sendInvitation (with_user u req) (push_trace (Select TUser) w))
    as [[r1|e1] w2] eqn:Es.
  2:{ rewrite (bind_thrown _ _ _ _ _ Es) in E. discriminate. }
  rewrite (bind_ok _ _ _ _ _ Es) in E. cbn in E. inversion E; subst r1 w2.
  destruct (send_success_inv _ _ _ _ Es S)
    as (u' & team & target & Hu & _ & Hmg & Hs & Ht & Iv).
  cbn in Hu. inversion Hu; subst u'. cbn [body with_user] in *.
  assert (Hlt : User.lookup (u_id target) w = Some target).
  { pose proof (user_select_pk_some _ _ _ Hs) as Hn.
    unfold User.select_pk in Hs. rewrite Hn in Hs. exact Hs. }
  exists u, team, target. eexists.
  split; [exact Hl|]. split; [exact Hr|]. split; [exact Hlt|].
  split; [exact Ht|]. split; [exact Iv|]. cbn.
  repeat split; auto.
  intros Eid. rewrite Eid, Hlt in Hl. inversion Hl; subst target.
  rewrite Ht in Hr. discriminate.
Qed.

End TeamRoutes.

(** ** Optional authentication *)

Section Optional.
Context `{Platform}.

(** X20.  [optionalAuth] always lets the request go on and never writes a
    table.  It sets [req.user] exactly when [protect] would let the same
    request through, and to the same user; in every other case (no token,
    a token that does not verify, an unknown or disabled user) the request
    goes on unchanged, where [protect] would have answered it.  A token
    that does not verify leaves one line on the console. *)
Theorem optional_auth_agrees_with_protect (req : request) (s : site) :
  exists req' s',
    optionalAuth req s = (Ok req', s')
    /\ tables_kept (store s) (store s')
    /\ req' = match fst (protect req (store s)) with
              | Ok (Next u) => with_user u req
              | _ => req
              end
    /\ notices s'
       = match first_truthy [bearer_token req] with
         | Some token => match jwt_verify token with
                         | inl _ => notices s
                         | inr _ =>
                             (notices s ++ [ConsoleLog ROptionalAuth])%list
                         end
         | None => notices s
         end.
Proof.
  unfold optionalAuth, protect, mc_try, try_catch.
  destruct (first_truthy [bearer_token req]) as [token|].
  2:{ cbn. eexists _, _. split; [reflexivity|]. repeat split. }
  unfold verify, lift, mc_bind. destruct (jwt_verify token) as [id|e].
  - cbn. unfold bind, User.select_pk, User.lookup. cbn.
    destruct (find _ (users (store s))) as [u|]; cbn.
    + destruct (u_isActive u); cbn; eexists _, _;
        (split; [reflexivity|]); repeat split.
    + eexists _, _. split; [reflexivity|]. repeat split.
  - destruct e; cbn; eexists _, _; (split; [reflexivity|]); repeat split.
Qed.

End Optional.

(** ** Removing a member *)

Lemma remove_first_In (f : team_member -> bool) ms x :
  In x (Membership.remove_first f ms) -> In x ms.
Proof.
  induction ms as [|m ms IH]; cbn; [auto|].
  destruct (f m); [now right|]. intros [->|Hx]; [now left|right; auto].
Qed.

Lemma remove_first_keeps (f : team_member -> bool) ms x :
  f x = false -> In x ms -> In x (Membership.remove_first f ms).
Proof.
  intros Hf. induction ms as [|m ms IH]; cbn; [auto|].
  intros [->|Hx].
  - rewrite Hf. now left.
  - destruct (f m); [exact Hx|right; auto].
Qed.

Lemma remove_first_length (f : team_member -> bool) ms m :
  find f ms = Some m ->
  S (List.length (Membership.remove_first f ms)) = List.length ms.
Proof.
  induction ms as [|x ms IH]; cbn; [discriminate|].
  destruct (f x); [reflexivity|]. intros E. cbn. now rewrite (IH E).
Qed.

Lemma remove_first_filter (f g : team_member -> bool) ms :
  (forall x, g x = true -> f x = true) ->
  (List.length (filter g ms) <= 1)%nat ->
  find f ms <> None ->
  (forall x, f x = true -> g x = true) ->
  filter g (Membership.remove_first f ms) = [].
Proof.
  intros Hgf Hl Hfind Hfg. induction ms as [|x ms IH]; cbn in *.
  - congruence.
  - destruct (f x) eqn:Fx.
    + rewrite (Hfg x Fx) in Hl. cbn in Hl.
      destruct (filter g ms); [reflexivity|cbn in Hl; lia].
    + cbn. destruct (g x) eqn:Gx; [rewrite (Hgf x Gx) in Fx; discriminate|].
      apply IH; auto.
Qed.

Section Remove.
Context `{Platform}.

Lemma removeTeamMember_run req s :
  removeTeamMember req s
  = match req_user req with
    | None =>
        (Ok (mkRemoveResponse 500 false MsgRemoveMemberError (Some TypeError)),
         mkSite (store s)
                (notices s ++ [ConsoleError RRemoveTeamMember TypeError]))
    | Some u =>
        match find (fun t => opt_eqb (sqlInt (params req "teamId")) (t_id t)
                             && (t_managerId t =? u_id u)) (teams (store s))
        with
        | None =>
            (Ok (mkRemoveResponse 404 false MsgTeamNotFoundOrNotTheManager
                                  None),
             mkSite (push_trace (Select TTeam) (store s)) (notices s))
        | Some _ =>
            match find (Membership.is_pair_of (params req "teamId")
                                              (params req "memberId"))
                       (teamMembers (store s))
            with
            | None =>
                (Ok (mkRemoveResponse 404 false MsgMemberNotInThisTeam None),
                 mkSite (push_trace (Select TTeamMember)
                           (push_trace (Select TTeam) (store s))) (notices s))
            | Some m =>
                (Ok (mkRemoveResponse 200 true MsgMemberRemoved None),
                 mkSite
                   (set_teamMembers
                      (Membership.remove_first
                         (TeamMember.is_pair (tm_teamId m)
                                             (Some (tm_userId m)))
                         (teamMembers (store s)))
                      (push_trace (Delete TTeamMember)
                         (push_trace (Select TTeamMember)
                            (push_trace (Select TTeam) (store s)))))
                   (notices s))
            end
        end
    end.
Proof.
  unfold removeTeamMember, mc_try, mc_bind, lift, current_user.
  destruct (req_user req) as [u|]; [|reflexivity].
  cbn -[find]. 
  destruct (find _ (teams (store s))) as [t|]; [|reflexivity].
  cbn -[find].
  destruct (find _ (teamMembers (store s))) as [m|]; reflexivity.
Qed.

Lemma removeMember_run req s :
  removeMember req s
  = match req_user req with
    | None =>
        (Ok (mkRemoveResponse 500 false MsgRemoveMemberError (Some TypeError)),
         mkSite (store s)
                (notices s ++ [ConsoleError RRemoveMember TypeError]))
    | Some u =>
        match find (fun t => t_managerId t =? u_id u) (teams (store s)) with
        | None =>
            (Ok (mkRemoveResponse 404 false MsgTeamNotFound None),
             mkSite (push_trace (Select TTeam) (store s)) (notices s))
        | Some team =>
            match find (TeamMember.is_pair (t_id team)
                          (sqlInt (params req "memberId")))
                       (teamMembers (store s))
            with
            | None =>
                (Ok (mkRemoveResponse 404 false MsgMemberNotInYourTeam None),
                 mkSite (push_trace (Select TTeamMember)
                           (push_trace (Select TTeam) (store s))) (notices s))
            | Some m =>
                (Ok (mkRemoveResponse 200 true MsgMemberRemoved None),
                 mkSite
                   (set_teamMembers
                      (Membership.remove_first
                         (TeamMember.is_pair (tm_teamId m)
                                             (Some (tm_userId m)))
                         (teamMembers (store s)))
                      (push_trace (Delete TTeamMember)
                         (push_trace (Select TTeamMember)
                            (push_trace (Select TTeam) (store s)))))
                   (notices s))
            end
        end
    end.
Proof.
  unfold removeMember, mc_try, mc_bind, lift, current_user.
  destruct (req_user req) as [u|]; [|reflexivity].
  cbn -[find].
  destruct (find _ (teams (store s))) as [t|]; [|reflexivity].
  cbn -[find].
  destruct (find _ (teamMembers (store s))) as [m|]; reflexivity.
Qed.

End Remove.

Lemma find_pointwise {A} (f g : A -> bool) l :
  (forall x, f x = g x) -> find f l = find g l.
Proof.
  intros E. induction l as [|x l IH]; cbn; [reflexivity|].
  now rewrite E, IH.
Qed.

Section RemoveResults.
Context `{Platform}.

Lemma is_pair_of_pair teamId memberId t n x :
  sqlInt teamId = Some t -> sqlInt memberId = Some n ->
  Membership.is_pair_of teamId memberId x = TeamMember.is_pair t (Some n) x.
Proof.
  intros Et En. unfold Membership.is_pair_of, TeamMember.is_pair.
  rewrite Et, En. cbn. now rewrite (Z.eqb_sym t).
Qed.

(** X21.  [removeTeamMember].  A request that is not answered with
    success changes no table.  A request answered with success came from
    the manager of the team named in the route, for a user who had a
    membership row in that team; exactly one row leaves the membership
    table, a row of that (team, user) pair; every row of another pair
    stays, and no other table changes.  With at most one row per pair
    (the unique index) the user is no member of the team afterwards. *)
Theorem remove_team_member (req : request) (s : site) :
  exists r s',
    removeTeamMember req s = (Ok r, s')
    /\ (rr_success r = false -> tables_kept (store s) (store s'))
    /\ (rr_success r = true ->
        exists u team m,
          let pair := TeamMember.is_pair (tm_teamId m) (Some (tm_userId m)) in
          req_user req = Some u
          /\ In team (teams (store s)) /\ t_managerId team = u_id u
          /\ sqlInt (params req "teamId") = Some (t_id team)
          /\ In m (teamMembers (store s))
          /\ tm_teamId m = t_id team
          /\ sqlInt (params req "memberId") = Some (tm_userId m)
          /\ members_only (store s) (store s')
          /\ S (List.length (teamMembers (store s')))
             = List.length (teamMembers (store s))
          /\ (forall x, In x (teamMembers (store s')) ->
                        In x (teamMembers (store s)))
          /\ (forall x, pair x = false -> In x (teamMembers (store s)) ->
                        In x (teamMembers (store s')))
          /\ ((List.length (filter pair (teamMembers (store s))) <= 1)%nat ->
              filter pair (teamMembers (store s')) = [])).
Proof.
  rewrite removeTeamMember_run.
  destruct (req_user req) as [u|].
  2:{ eexists _, _. split; [reflexivity|]. split; [|discriminate].
      intros _. repeat split. }
  destruct (find _ (teams (store s))) as [team|] eqn:Ft.
  2:{ eexists _, _. split; [reflexivity|]. split; [|discriminate].
      intros _. repeat split. }
  destruct (find _ (teamMembers (store s))) as [m|] eqn:Fm.
  2:{ eexists _, _. split; [reflexivity|]. split; [|discriminate].
      intros _. repeat split. }
  eexists _, _. split; [reflexivity|]. split; [discriminate|]. intros _.
  apply find_some in Ft. destruct Ft as [Htin Hp].
  apply andb_true_iff in Hp. destruct Hp as [Hid Hmg].
  apply Z.eqb_eq in Hmg.
  assert (Ht : sqlInt (params req "teamId") = Some (t_id team)).
  { unfold opt_eqb in Hid.
    destruct (sqlInt (params req "teamId")) as [k|]; [|discriminate].
    apply Z.eqb_eq in Hid. now subst. }
  pose proof (find_some _ _ Fm) as [Hmin Hmp].
  unfold Membership.is_pair_of in Hmp. apply andb_true_iff in Hmp.
  destruct Hmp as [Hm1 Hm2]. rewrite Ht in Hm1. cbn in Hm1.
  apply Z.eqb_eq in Hm1.
  assert (Hn : sqlInt (params req "memberId") = Some (tm_userId m)).
  { unfold opt_eqb in Hm2.
    destruct (sqlInt (params req "memberId")) as [k|]; [|discriminate].
    apply Z.eqb_eq in Hm2. now subst. }
  assert (Hfind : find (TeamMember.is_pair (tm_teamId m) (Some (tm_userId m)))
                       (teamMembers (store s)) = Some m).
  { rewrite <- Fm. apply find_pointwise. intros x. symmetry.
    apply is_pair_of_pair; [now rewrite Ht, Hm1|exact Hn]. }
  exists u, team, m. cbn zeta. cbn [store teamMembers set_teamMembers].
  split; [reflexivity|]. split; [exact Htin|]. split; [exact Hmg|].
  split; [exact Ht|]. split; [exact Hmin|]. split; [now symmetry|].
  split; [exact Hn|]. split; [repeat split|].
  split; [now apply remove_first_length with m|].
  split; [intros x; apply remove_first_In|].
  split; [intros x; apply remove_first_keeps|].
  intros Hl. apply remove_first_filter; auto. congruence.
Qed.

(** X22.  [removeMember] looks at one team only, the first one the caller
    manages.  For a user who is no member of that team the answer is 404
    and no table changes, also when the user is a member of another team
    of the caller; there [removeTeamMember], given that team's id, removes
    the membership. *)
Theorem remove_member_first_team_only (req : request) (s : site) (u : user)
  (first other : team) (m : team_member) :
  req_user req = Some u ->
  find (fun t => t_managerId t =? u_id u) (teams (store s)) = Some first ->
  find (TeamMember.is_pair (t_id first) (sqlInt (params req "memberId")))
       (teamMembers (store s)) = None ->
  In other (teams (store s)) -> t_managerId other = u_id u ->
  sqlInt (params req "teamId") = Some (t_id other) ->
  find (Membership.is_pair_of (params req "teamId") (params req "memberId"))
       (teamMembers (store s)) = Some m ->
  (exists s1,
     removeMember req s
     = (Ok (mkRemoveResponse 404 false MsgMemberNotInYourTeam None), s1)
     /\ tables_kept (store s) (store s1))
  /\ (exists s2,
        removeTeamMember req s
        = (Ok (mkRemoveResponse 200 true MsgMemberRemoved None), s2)
        /\ tm_teamId m = t_id other
        /\ S (List.length (teamMembers (store s2)))
           = List.length (teamMembers (store s))).
Proof.
  intros Hu Hf Hnone Hin Hmg Ht Hm. split.
  - rewrite removeMember_run, Hu, Hf, Hnone.
    eexists. split; [reflexivity|]. repeat split.
  - rewrite removeTeamMember_run, Hu, Hm.
    destruct (find (fun t => opt_eqb (sqlInt (params req "teamId")) (t_id t)
                             && (t_managerId t =? u_id u)) (teams (store s)))
      as [t|] eqn:Ft.
    + eexists. split; [reflexivity|].
      pose proof (find_some _ _ Hm) as [_ Hp].
      unfold Membership.is_pair_of in Hp. rewrite Ht in Hp.
      apply andb_true_iff in Hp. destruct Hp as [Hp1 Hp2].
      cbn in Hp1. apply Z.eqb_eq in Hp1.
      split; [now symmetry|]. cbn [store teamMembers set_teamMembers].
      apply remove_first_length with m.
      rewrite <- Hm. apply find_pointwise. intros x. symmetry.
      unfold opt_eqb in Hp2.
      destruct (sqlInt (params req "memberId")) as [n|] eqn:En;
        [|discriminate].
      apply Z.eqb_eq in Hp2. subst n.
      apply is_pair_of_pair; [now rewrite Ht, Hp1|exact En].
    + exfalso. pose proof (find_none _ _ Ft other Hin) as N. cbn beta in N.
      rewrite Ht in N. cbn in N. rewrite Z.eqb_refl, Hmg, Z.eqb_refl in N.
      discriminate.
Qed.

End RemoveResults.

Section ReinviteMember.
Context `{Platform}.



End ReinviteMember.

(** ** Reading the audit log back *)

Lemma insert_log_In l ls x : In x (insert_log l ls) <-> x = l \/ In x ls.
Proof.
  induction ls as [|d ls IH]; cbn.
  - intuition.
  - destruct (DESC (l_timestamp l) (l_timestamp d)); cbn.
    + intuition.
    + rewrite IH. intuition.
Qed.

Lemma newest_logs_first_In ls x : In x (newest_logs_first ls) <-> In x ls.
Proof.
  unfold newest_logs_first. induction ls as [|l ls IH]; cbn; [tauto|].
  rewrite insert_log_In, IH. intuition.
Qed.

Lemma insert_log_sorted l ls :
  StronglySorted (fun a b => l_timestamp b <= l_timestamp a) ls ->
  StronglySorted (fun a b => l_timestamp b <= l_timestamp a) (insert_log l ls).
Proof.
  induction 1 as [|d ls Hs IH Hd]; cbn.
  - constructor; constructor.
  - unfold DESC. destruct (l_timestamp l >=? l_timestamp d) eqn:E.
    + apply Z.geb_le in E. constructor; [now constructor|].
      constructor; [exact E|]. rewrite Forall_forall in *.
      intros y Hy. specialize (Hd y Hy). lia.
    + rewrite Z.geb_leb, Z.leb_gt in E. constructor; [exact IH|].
      rewrite Forall_forall in *. intros y Hy.
      apply insert_log_In in Hy. destruct Hy as [->|Hy]; [lia|auto].
Qed.

Lemma newest_logs_first_sorted ls :
  StronglySorted (fun a b => l_timestamp b <= l_timestamp a)
                 (newest_logs_first ls).
Proof.
  unfold newest_logs_first. induction ls as [|l ls IH]; cbn.
  - constructor.
  - now apply insert_log_sorted.
Qed.

Section ReadBack.
Context `{Platform}.

Lemma createLog_some_inv action desc entityType entityId oldValue newValue
  performedBy req w l w' :
  createLog action desc entityType entityId oldValue newValue performedBy
            req w = (Ok (Some l), w') ->
  l = log_entry action desc entityType entityId oldValue newValue performedBy
                req w
  /\ logs w' = (logs w ++ [l])%list /\ users w' = users w.
Proof.
  destruct (log_valid action entityType entityId) eqn:V.
  - destruct (logDown w) eqn:D.
    + destruct (createLog_down action desc entityType entityId oldValue
                  newValue performedBy req w D) as (e & w1 & E & _).
      rewrite E. discriminate.
    + destruct (log_storable action entityType performedBy req w) eqn:S.
      * rewrite (createLog_up _ _ _ _ _ _ _ _ _ V D S).
        intros E. inversion E; subst. repeat split.
      * rewrite (createLog_refused _ _ _ _ _ _ _ _ _ V D S). discriminate.
  - rewrite (createLog_invalid _ _ _ _ _ _ _ _ _ V). discriminate.
Qed.

(** X24.  What the audit function writes can be read back.  When
    [createLog] returns an entry, [Log.getLogsByEntity] for the entity of
    the entry lists it, joined with the user who performed the action;
    the list holds only entries of that entity taken from the log table,
    the newest first, and reading it changes no table. *)
Theorem log_read_back (action : string) (desc : description)
  (entityType : string) (entityId : Z) (oldValue newValue : option snapshot)
  (performedBy : Z) (req : request) (w : world) (l : log) (w' : world) :
  createLog action desc entityType entityId oldValue newValue performedBy
            req w = (Ok (Some l), w') ->
  exists views w'',
    LogModel.getLogsByEntity entityType entityId w' = (Ok views, w'')
    /\ tables_kept w' w''
    /\ In (mkLogView l (option_map u_id (User.lookup performedBy w))) views
    /\ (forall v, In v views ->
                  In (lv_row v) (logs w')
                  /\ l_entityType (lv_row v) = entityType
                  /\ l_entityId (lv_row v) = entityId)
    /\ StronglySorted (fun a b => l_timestamp b <= l_timestamp a)
                      (map lv_row views).
Proof.
  intros E. destruct (createLog_some_inv _ _ _ _ _ _ _ _ _ _ _ E)
    as (El & Lg & Us).
  eexists _, _. split; [reflexivity|]. split; [repeat split|].
  cbn [logs users push_trace]. split; [|split].
  - apply in_map_iff. exists l. split.
    + unfold User.lookup. cbn [users push_trace]. rewrite Us.
      assert (Hp : l_performedBy l = performedBy) by (now rewrite El).
      now rewrite Hp.
    + apply newest_logs_first_In, filter_In. split.
      * rewrite Lg. apply in_or_app. right. now left.
      * rewrite El. cbn. now rewrite String.eqb_refl, Z.eqb_refl.
  - intros v Hv. apply in_map_iff in Hv. destruct Hv as (x & <- & Hx).
    apply newest_logs_first_In, filter_In in Hx. destruct Hx as [Hin Hp].
    apply andb_true_iff in Hp. destruct Hp as [P1 P2].
    apply String.eqb_eq in P1. apply Z.eqb_eq in P2. cbn. auto.
  - rewrite map_map. cbn [lv_row]. rewrite map_id.
    apply newest_logs_first_sorted.
Qed.

End ReadBack.

(** ** Identity on the comment routes *)

Section Identity.
Context `{Platform}.

Lemma protect_next_token req w u w' :
  protect req w = (Ok (Next u), w') ->
  exists token,
    first_truthy [bearer_token req] = Some token
    /\ jwt_verify token = inl (u_id u)
    /\ User.lookup (u_id u) w = Some u /\ u_isActive u = true
    /\ w' = push_trace (Select TUser) w.
Proof.
  unfold protect, try_catch.
  destruct (first_truthy [bearer_token req]) as [token|]; [|discriminate].
  unfold verify. destruct (jwt_verify token) as [id|e] eqn:V.
  - cbn. unfold bind. cbn.
    destruct (find _ (users w)) as [u0|] eqn:L; cbn; [|discriminate].
    destruct (u_isActive u0) eqn:A; cbn; [|discriminate].
    intros E. inversion E; subst.
    pose proof (find_some _ _ L) as [_ Hid]. apply Z.eqb_eq in Hid.
    exists token. unfold User.lookup. rewrite Hid. auto.
  - destruct e; cbn; discriminate.
Qed.

Lemma createComment_success_inv req w r w' :
  createComment req w = (Ok r, w') -> success r = true ->
  exists u c, req_user req = Some u
    /\ comments w' = (comments w ++ [c])%list
    /\ c_userId c = u_id u /\ c_id c = nextCommentId w
    /\ c_createdAt c = now w.
Proof.
  unfold createComment, try_catch.
  destruct (negb (truthy (body req "entityType"))
            || negb (truthy (body req "entityId"))
            || negb (truthy (body req "comment"))).
  { cbn. intros E S. inversion E; subst. discriminate. }
  destruct (negb (includes Comment.validEntityTypes (body req "entityType"))).
  { cbn. intros E S. inversion E; subst. discriminate. }
  destruct (find_entity_run (body req "entityType") (body req "entityId") w)
    as (w1 & E & (o & Eo) & L & _).
  destruct L as (_&_&_&_&_&Lc&_&_&_&Lnc&_&Lnow&_).
  rewrite Eo in E. rewrite (bind_ok _ _ _ _ _ E).
  destruct o as [x|].
  2:{ cbn. intros E1 S. inversion E1; subst. discriminate. }
  cbn beta iota. unfold bind at 1. rewrite check_parent_run.
  assert (Tail : forall w2,
    comments w2 = comments w -> nextCommentId w2 = nextCommentId w ->
    now w2 = now w ->
    match create_and_log req (body req "entityType") (body req "entityId")
                         (body req "comment") (body req "parentId") w2 with
    | (Ok a, w3) => (Ok a, w3)
    | (Thrown e, w3) =>
        (console_error HCreateComment e ;;;
         respond 500 false MsgCreateCommentError NoData) w3
    end = (Ok r, w') -> success r = true ->
    exists u c, req_user req = Some u
      /\ comments w' = (comments w ++ [c])%list
      /\ c_userId c = u_id u /\ c_id c = nextCommentId w
      /\ c_createdAt c = now w).
  { intros w2 Fc Fn Fnow.
    destruct (create_and_log_cases req (body req "entityType")
                (body req "entityId") (body req "comment")
                (body req "parentId") w2)
      as [(e & w3 & Ec & _)
         |(u & t & e & b & p & r2 & w3 & Hu & _ & _ & _ & _ & _ & _ & _
           & Ec & _ & _ & Cs & _)].
    - rewrite Ec. cbn. intros E1 S. inversion E1; subst. discriminate.
    - rewrite Ec. intros E1 _. inversion E1; subst r2 w3.
      exists u. eexists. split; [exact Hu|].
      rewrite Cs, Fc, Fn, Fnow. repeat split. }
  destruct (truthy (body req "parentId")).
  - destruct (Comment.select_pk (body req "parentId") w1) as [pc|].
    2:{ cbn. intros E1 S. inversion E1; subst. discriminate. }
    destruct (negb (strict_eq (JStr (c_entityType pc)) (body req "entityType"))
              || negb (strict_eq (JNum (c_entityId pc)) (body req "entityId"))).
    { cbn. intros E1 S. inversion E1; subst. discriminate. }
    cbn beta iota. apply Tail; assumption.
  - cbn beta iota. apply Tail; assumption.
Qed.

Lemma deleteComment_success_inv req w r w' :
  deleteComment req w = (Ok r, w') -> success r = true ->
  exists u c, req_user req = Some u
    /\ Comment.select_pk (JStr (params req "id")) w = Some c
    /\ (c_userId c =? u_id u) || (u_role u =? "admin")%string = true.
Proof.
  intros E S.
  destruct (Comment.select_pk (JStr (params req "id")) w) as [c|] eqn:Hf.
  2:{ revert E. unfold deleteComment, try_catch, Comment.findByPk_with_replies.
      rewrite (bind_ok _ _ _ _ _ (bind_ok _ _ _ _ _ (findByPk_run _ _))), Hf.
      cbn. intros E. inversion E; subst. discriminate. }
  destruct (req_user req) as [u|] eqn:Hu.
  2:{ revert E. unfold deleteComment, try_catch, Comment.findByPk_with_replies.
      rewrite (bind_ok _ _ _ _ _ (bind_ok _ _ _ _ _ (findByPk_run _ _))), Hf.
      unfold current_user. rewrite Hu. cbn.
      intros E. inversion E; subst. discriminate. }
  destruct ((c_userId c =? u_id u) || (u_role u =? "admin")%string) eqn:B.
  - exists u, c. auto.
  - revert E. unfold deleteComment, try_catch, Comment.findByPk_with_replies.
    rewrite (bind_ok _ _ _ _ _ (bind_ok _ _ _ _ _ (findByPk_run _ _))), Hf.
    cbn [gets option_map bind]. unfold current_user. rewrite Hu, bind_ret.
    replace (negb (c_userId c =? u_id u) && negb (u_role u =? "admin")%string)
      with true by (rewrite <- negb_orb, B; reflexivity).
    cbn. intros E. inversion E; subst. discriminate.
Qed.

(** X25.  On the comment routes the caller is the user of the token,
    whatever [req.user] the incoming request carried.  A comment created
    with success through the route has the token's user as its author; an
    update that succeeds through the route was made with the token of the
    comment's author; a delete that succeeds was made with the token of
    the author or of an admin.  In each case the token verifies to an
    active user of the store. *)
Theorem route_binds_identity (req : request) (w : world) (r : response)
  (w' : world) :
  success r = true ->
  let caller u token :=
    first_truthy [bearer_token req] = Some token
    /\ jwt_verify token = inl (u_id u)
    /\ User.lookup (u_id u) w = Some u /\ u_isActive u = true in
  (route createComment req w = (Ok r, w') ->
   exists u token c,
     caller u token
     /\ comments w' = (comments w ++ [c])%list /\ c_userId c = u_id u)
  /\ (route updateComment req w = (Ok r, w') ->
      exists u token c,
        caller u token
        /\ Comment.select_pk (JStr (params req "id")) w = Some c
        /\ c_userId c = u_id u)
  /\ (route deleteComment req w = (Ok r, w') ->
      exists u token c,
        caller u token
        /\ Comment.select_pk (JStr (params req "id")) w = Some c
        /\ (c_userId c = u_id u \/ u_role u = "admin")).
Proof.
  intros S caller.
  assert (Through : forall handler,
    route handler req w = (Ok r, w') ->
    exists u token, caller u token
      /\ handler (with_user u req) (push_trace (Select TUser) w) = (Ok r, w')).
  { intros handler E. unfold route in E.
    destruct (protect req w) as [[g|e] w1] eqn:P.
    2:{ rewrite (bind_thrown _ _ _ _ _ P) in E. discriminate. }
    rewrite (bind_ok _ _ _ _ _ P) in E. destruct g as [r0|u].
    - cbn in E. inversion E; subst r0 w1.
      apply protect_rejected in P. congruence.
    - destruct (protect_next_token _ _ _ _ P) as (token & A & B & C & D & ->).
      exists u, token. unfold caller. auto. }
  split; [|split]; intros E; destruct (Through _ E) as (u & token & Hc & Eh).
  - destruct (createComment_success_inv _ _ _ _ Eh S)
      as (u' & c & Hu & Cs & Ca & _).
    cbn in Hu. inversion Hu; subst u'. exists u, token, c. auto.
  - destruct (update_success_only_author _ _ _ _ Eh S)
      as (c & u' & Hu & Hf & Ha).
    cbn in Hu. inversion Hu; subst u'. exists u, token, c.
    split; [exact Hc|]. split; [|exact Ha].
    rewrite <- Hf. symmetry. now apply select_pk_frame.
  - destruct (deleteComment_success_inv _ _ _ _ Eh S)
      as (u' & c & Hu & Hf & Hok).
    cbn in Hu. inversion Hu; subst u'. exists u, token, c.
    split; [exact Hc|]. split.
    + rewrite <- Hf. symmetry. now apply select_pk_frame.
    + apply orb_true_iff in Hok. destruct Hok as [Hok|Hok].
      * left. now apply Z.eqb_eq.
      * right. now apply String.eqb_eq.
Qed.

End Identity.

(** ** Pending invitations and memberships *)

Lemma set_status_pending_inv id s ivs j :
  s <> Pending ->
  In j (TeamInvitation.set_status id s ivs) ->
  TeamInvitation.is_pending j = true ->
  In j ivs /\ i_id j <> id.
Proof.
  intros Hs Hj Pj. unfold TeamInvitation.set_status in Hj.
  apply in_map_iff in Hj. destruct Hj as (x & Ex & Hx).
  destruct (i_id x =? id) eqn:E.
  - subst j. unfold TeamInvitation.is_pending in Pj. cbn in Pj.
    destruct s; try discriminate. contradiction.
  - subst j. split; [exact Hx|]. now apply Z.eqb_neq.
Qed.

Lemma single_pending_same w i j :
  single_pending w ->
  In i (invitations w) -> In j (invitations w) ->
  TeamInvitation.is_pending i = true -> TeamInvitation.is_pending j = true ->
  i_teamId j = i_teamId i -> i_userId j = i_userId i ->
  j = i.
Proof.
  intros Hs Hi Hj Pi Pj Et Eu.
  specialize (Hs (i_teamId i) (i_userId i)). unfold pending_for in Hs.
  assert (Ii : In i (filter (fun x => TeamInvitation.is_pair (i_teamId i)
                                        (Some (i_userId i)) x
                                      && TeamInvitation.is_pending x)
                            (invitations w))).
  { apply filter_In. split; [exact Hi|]. unfold TeamInvitation.is_pair.
    cbn. now rewrite !Z.eqb_refl, Pi. }
  assert (Ij : In j (filter (fun x => TeamInvitation.is_pair (i_teamId i)
                                        (Some (i_userId i)) x
                                      && TeamInvitation.is_pending x)
                            (invitations w))).
  { apply filter_In. split; [exact Hj|]. unfold TeamInvitation.is_pair.
    cbn. now rewrite Et, Eu, !Z.eqb_refl, Pj. }
  destruct (filter _ (invitations w)) as [|a [|b l]]; cbn in Hs.
  - contradiction.
  - destruct Ii as [<-|[]], Ij as [<-|[]]. reflexivity.
  - lia.
Qed.

Lemma find_app_none {A} (f : A -> bool) l x :
  find f l = None -> f x = false -> find f (l ++ [x]) = None.
Proof.
  intros Hl Hx. induction l as [|y l IH]; cbn in *.
  - now rewrite Hx.
  - destruct (f y); [discriminate|auto].
Qed.

Lemma find_remove_first_none (f g : team_member -> bool) ms :
  find f ms = None -> find f (Membership.remove_first g ms) = None.
Proof.
  intros Hn. apply find_none_filter. apply find_none_filter in Hn.
  destruct (filter f (Membership.remove_first g ms)) as [|x l] eqn:F;
    [reflexivity|].
  assert (Hx : In x (x :: l)) by now left.
  rewrite <- F in Hx. apply filter_In in Hx. destruct Hx as [Hin Fx].
  apply remove_first_In in Hin.
  assert (In x (filter f ms)) by (apply filter_In; auto).
  rewrite Hn in H. contradiction.
Qed.

Section Invariant.
Context `{Platform}.

Lemma no_pending_member_send req w :
  no_pending_member w -> no_pending_member (snd (sendInvitation req w)).
Proof.
  intros Hn.
  destruct (sendInvitation_cases req w) as (r & w' & E & _).
  rewrite E. cbn [snd].
  destruct (send_outcome req w r w' E)
    as [(_ & K)|(_ & u & team & target & _ & _ & _ & _ & _ & Hm & _ & Tm & Iv)].
  - destruct K as ((_&_&_&_&_&_&_&Km&Ki&_) & _).
    intros i Hi Pi. rewrite Km. apply Hn; [now rewrite <- Ki|exact Pi].
  - intros i Hi Pi. rewrite Tm. rewrite Iv in Hi.
    apply in_app_or in Hi. destruct Hi as [Hi|[<-|[]]].
    + unfold TeamInvitation.purge in Hi. apply filter_In in Hi.
      apply Hn; tauto.
    + exact Hm.
Qed.

Lemma no_pending_member_respond req w :
  invitations_ok w -> no_pending_member (snd (respondToInvitation req w)).
Proof.
  intros [Hs Hn].
  destruct (req_user req) as [u|] eqn:Hu.
  2:{ unfold respondToInvitation, try_catch, current_user. rewrite Hu. cbn.
      exact Hn. }
  destruct (includes ["accepted"; "declined"] (body req "response")) eqn:Hi.
  2:{ unfold respondToInvitation, try_catch, current_user.
      rewrite Hu, bind_ret, Hi. cbn. exact Hn. }
  destruct (find (fun i => opt_eqb (sqlInt (params req "invitationId")) (i_id i)
                           && (i_userId i =? u_id u)
                           && TeamInvitation.is_pending i)
                 (invitations w)) as [i|] eqn:Hf.
  2:{ rewrite (respond_not_found req w u Hu Hi Hf). exact Hn. }
  destruct (respond_found req w u i Hu Hi Hf)
    as (r & w' & E & Iv & _ & _ & _ & R).
  rewrite E. cbn [snd].
  pose proof (find_some _ _ Hf) as [Hin Hp].
  apply andb_true_iff in Hp. destruct Hp as [Hp Pi].
  apply andb_true_iff in Hp. destruct Hp as [_ Hus]. apply Z.eqb_eq in Hus.
  assert (Hres : (if strict_eq (body req "response") (JStr "accepted")
                  then Accepted else Declined) <> Pending)
    by (destruct (strict_eq _ _); discriminate).
  assert (Hmem : existsb (TeamMember.is_pair (i_teamId i) (Some (u_id u)))
                         (teamMembers w) = false).
  { destruct (existsb _ (teamMembers w)) eqn:X; [|reflexivity].
    apply existsb_exists in X. destruct X as (m & Hm & Pm).
    pose proof (Hn i Hin Pi) as N. rewrite Hus in N.
    pose proof (find_none _ _ N m Hm) as F. congruence. }
  rewrite Hmem in R.
  intros j Hj Pj. rewrite Iv in Hj.
  destruct (set_status_pending_inv _ _ _ _ Hres Hj Pj) as [Hjin Hne].
  destruct (strict_eq (body req "response") (JStr "accepted")).
  - destruct R as (_ & _ & _ & Tm & _). rewrite Tm.
    apply find_app_none; [now apply Hn|].
    unfold TeamMember.is_pair. cbn.
    destruct ((i_teamId i =? i_teamId j) && (i_userId j =? u_id u)) eqn:B;
      [|reflexivity].
    exfalso. apply andb_true_iff in B. destruct B as [B1 B2].
    apply Z.eqb_eq in B1, B2. apply Hne.
    assert (j = i) by (eapply single_pending_same; eauto; congruence).
    now subst.
  - destruct R as (_ & _ & _ & Tm & _). rewrite Tm. now apply Hn.
Qed.

Lemma no_pending_member_cancel req w :
  no_pending_member w -> no_pending_member (snd (cancelInvitation req w)).
Proof.
  intros Hn.
  destruct (req_user req) as [u|] eqn:Hu.
  2:{ unfold cancelInvitation, try_catch, current_user. rewrite Hu. cbn.
      exact Hn. }
  destruct (find (fun i => opt_eqb (sqlInt (params req "invitationId")) (i_id i)
                 && mem (i_teamId i)
                        (map t_id (filter (fun t => t_managerId t =? u_id u)
                                          (teams w)))
                 && TeamInvitation.is_pending i)
                 (invitations w)) as [i|] eqn:Hf.
  - destruct (cancel_found req w u i Hu Hf)
      as (w' & E & Iv & _ & _ & _ & Tm & _).
    rewrite E. cbn [snd]. intros j Hj Pj. rewrite Iv in Hj. rewrite Tm.
    destruct (set_status_pending_inv _ Cancelled _ _ ltac:(discriminate) Hj Pj)
      as [Hjin _]. now apply Hn.
  - destruct (cancel_not_found req w u Hu Hf) as (r & w' & E & _ & _ & K & _).
    rewrite E. cbn [snd].
    destruct K as ((_&_&_&_&_&_&_&Km&Ki&_) & _).
    intros j Hj Pj. rewrite Km. apply Hn; [now rewrite <- Ki|exact Pj].
Qed.

Lemma invitations_ok_remove req s :
  invitations_ok (store s) ->
  invitations_ok (store (snd (removeTeamMember req s)))
  /\ invitations_ok (store (snd (removeMember req s))).
Proof.
  intros [Hs Hn].
  assert (Shrink : forall g w',
            invitations w' = invitations (store s) ->
            teamMembers w'
            = Membership.remove_first g (teamMembers (store s)) ->
            invitations_ok w').
  { intros g w' Iv Tm. split.
    - intros t u. unfold pending_for. rewrite Iv. apply Hs.
    - intros i Hi Pi. rewrite Tm. apply find_remove_first_none.
      apply Hn; [now rewrite <- Iv|exact Pi]. }
  assert (Same : forall w',
            invitations w' = invitations (store s) ->
            teamMembers w' = teamMembers (store s) ->
            invitations_ok w').
  { intros w' Iv Tm. split.
    - intros t u. unfold pending_for. rewrite Iv. apply Hs.
    - intros i Hi Pi. rewrite Tm. apply Hn; [now rewrite <- Iv|exact Pi]. }
  split.
  - rewrite removeTeamMember_run.
    destruct (req_user req) as [u|]; [|now apply Same].
    destruct (find _ (teams (store s))); [|now apply Same].
    destruct (find _ (teamMembers (store s))) as [m|]; [|now apply Same].
    cbn [snd store]. eapply Shrink; reflexivity.
  - rewrite removeMember_run.
    destruct (req_user req) as [u|]; [|now apply Same].
    destruct (find _ (teams (store s))) as [t|]; [|now apply Same].
    destruct (find _ (teamMembers (store s))) as [m|]; [|now apply Same].
    cbn [snd store]. eapply Shrink; reflexivity.
Qed.

(** X26.  No pending invitation is ever addressed to a member.  The
    property that each (team, user) pair has at most one pending
    invitation and that no pending invitation is addressed to a user who
    already is a member of the team is kept by sending, answering and
    cancelling invitations and by removing members.  In a store with that
    property, accepting the invitation the handler finds for the caller
    always succeeds: the answer is 200 and the membership is added. *)
Theorem accept_always_joins (w : world) :
  invitations_ok w ->
  (forall req,
     invitations_ok (snd (sendInvitation req w))
     /\ invitations_ok (snd (respondToInvitation req w))
     /\ invitations_ok (snd (cancelInvitation req w)))
  /\ (forall req ns,
        invitations_ok (store (snd (removeTeamMember req (mkSite w ns))))
        /\ invitations_ok (store (snd (removeMember req (mkSite w ns)))))
  /\ (forall req u i,
        req_user req = Some u ->
        body req "response" = JStr "accepted" ->
        find (fun i => opt_eqb (sqlInt (params req "invitationId")) (i_id i)
                       && (i_userId i =? u_id u)
                       && TeamInvitation.is_pending i)
             (invitations w) = Some i ->
        exists r w', respondToInvitation req w = (Ok r, w')
          /\ status r = 200 /\ message r = MsgJoined
          /\ teamMembers w'
             = (teamMembers w
                ++ [mkTeamMember (i_teamId i) (u_id u) (i_role i)])%list
          /\ invitations w'
             = TeamInvitation.set_status (i_id i) Accepted (invitations w)).
Proof.
  intros Hok. pose proof Hok as [Hs Hn]. split; [|split].
  - intros req.
    destruct (single_pending_preserved req w Hs) as (S1 & S2 & S3).
    split; [|split]; split; auto.
    + now apply no_pending_member_send.
    + now apply no_pending_member_respond.
    + now apply no_pending_member_cancel.
  - intros req ns. now apply (invitations_ok_remove req (mkSite w ns)).
  - intros req u i Hu Eb Hf.
    assert (Hi : includes ["accepted"; "declined"] (body req "response") = true)
      by (now rewrite Eb).
    destruct (respond_found req w u i Hu Hi Hf)
      as (r & w' & E & Iv & _ & _ & _ & R).
    rewrite Eb in Iv, R. cbn [strict_eq String.eqb Ascii.eqb Bool.eqb] in Iv, R.
    pose proof (find_some _ _ Hf) as [Hin Hp].
    apply andb_true_iff in Hp. destruct Hp as [Hp Pi].
    apply andb_true_iff in Hp. destruct Hp as [_ Hus]. apply Z.eqb_eq in Hus.
    assert (Hmem : existsb (TeamMember.is_pair (i_teamId i) (Some (u_id u)))
                           (teamMembers w) = false).
    { destruct (existsb _ (teamMembers w)) eqn:X; [|reflexivity].
      apply existsb_exists in X. destruct X as (m & Hm & Pm).
      pose proof (Hn i Hin Pi) as N. rewrite Hus in N.
      pose proof (find_none _ _ N m Hm) as F. congruence. }
    rewrite Hmem in R. exists r, w'. intuition.
Qed.

End Invariant.

(** ** The validators and the store on sample inputs *)

(** A form feed, a vertical tab, a no-break space and an ideographic space
    are white space, a zero-width space (U+200B) is not; a euro sign is one
    character in three bytes, so 2600 of them pass [len]; 5000 characters
    pass and 5001 do not. *)
Lemma validators_on_samples :
  notEmpty blank_body = false
  /\ notEmpty (String "011" EmptyString) = false
  /\ notEmpty (String "227" (String "128" (String "128" EmptyString)))
     = false
  /\ notEmpty (String "226" (String "128" (String "139" EmptyString)))
     = true
  /\ characters euro = 1%nat
  /\ String.length (copies 2600 euro) = (3 * 2600)%nat
  /\ Comment.validBody (copies 2600 euro) = true
  /\ Comment.validBody (copies 5000 "a") = true
  /\ Comment.validBody long_body = false.
Proof. repeat split; vm_compute; reflexivity. Qed.

(** A body that is a number is validated and stored as the text it is
    written as; the audit entry of an update keeps the number. *)
Lemma numeric_body_is_stored :
  let creq := request_of (Some bob)
                [("entityType", JStr "project"); ("entityId", JNum 1);
                 ("comment", JNum 5)] [] in
  let ureq := request_of (Some alice) [("comment", JNum 5)] [("id", "1")] in
  (exists w',
     createComment (H := demo) creq thread_world
     = (Ok (mkResponse 201 true MsgCommentCreated
              (CommentData
                 (Some (mkView (mkComment 3 "project" 1 3 "5" None 30)
                               (Some 3))))), w')
     /\ comments w'
        = [nice_work; thanks; mkComment 3 "project" 1 3 "5" None 30])
  /\ (exists w',
        updateComment (H := demo) ureq thread_world
        = (Ok (mkResponse 200 true MsgCommentUpdated
                 (CommentData
                    (Some (mkView (mkComment 1 "project" 1 7 "5" None 10)
                                  (Some 7))))), w')
        /\ logs w'
           = [mkLog 1 "UPDATE_COMMENT" (DescUpdated "project" 1) "comment" 1
                    (Some (SnapBody (JStr "nice work")))
                    (Some (SnapBody (JNum 5))) 7 None None 30]).
Proof. split; eexists; split; vm_compute; reflexivity. Qed.

(** An invitation without a target sends no statement for the user; an
    audit entry whose User-Agent is longer than its column is refused by a
    store that looks at the width. *)
Lemma store_on_samples :
  sendInvitation (H := demo)
    (request_of (Some erin) [("teamId", JNum 1)] []) thread_world
  = (Ok (mkResponse 404 false MsgTargetNotFound NoData),
     push_trace (Select TTeam) thread_world)
  /\ fst (createLog (H := demo) "DELETE_COMMENT" (DescDeleted "project" 1 0)
            "comment" 1 None None 7
            (mkRequest None None None None None (Some (copies 501 "a"))
                       (Some alice) (obj []) (str_params []))
            thread_world)
     = Ok None.
Proof. split; vm_compute; reflexivity. Qed.

(** ** Team invitations: one pending invitation per pair *)

Section OnePending.
Context `{Platform}.





End OnePending.



(** ** The results on the small worlds *)

Lemma deep_world_ok : store_ok deep_world.
Proof.
  split; [|split].
  - unfold pk_unique. cbn. repeat constructor; cbn; intuition discriminate.
  - intros c Hc. cbn in Hc. destruct Hc as [<-|[<-|[<-|[]]]]; cbn; lia.
  - intros c p Hc Hp. cbn in Hc. destruct Hc as [<-|[<-|[<-|[]]]]; cbn in Hp;
      try discriminate; inversion Hp; subst.
    + exists nice_work. cbn. intuition.
    + exists thanks. cbn. intuition.
Defined.

Lemma invited_world_ok : invitations_ok invited_world.
Proof.
  split.
  - intros t u. unfold pending_for. cbn.
    destruct (_ && _); cbn; lia.
  - intros i [<-|[]] _. reflexivity.
Defined.

Lemma update_touches_one_row_witness :
  let req := request_of (Some alice) [("comment", JStr "good work")]
                        [("id", "1")] in
  let updated := mkComment 1 "project" 1 7 "good work" None 10 in
  exists r w', updateComment (H := demo) req thread_world = (Ok r, w')
    /\ status r = 200
    /\ data r = CommentData (Some (mkView updated (Some 7)))
    /\ Comment.select_pk (H := demo) (JStr "1") w' = Some updated
    /\ (forall d, In d (comments w')
                  <-> d = updated
                      \/ (In d (comments thread_world) /\ c_id d <> 1)).
Proof.
  intros req updated.
  destruct (update_touches_one_row (H := demo) req thread_world nice_work alice
              "good work" (proj1 thread_world_ok) eq_refl eq_refl eq_refl
              eq_refl eq_refl)
    as (r & w' & E & St & _ & D & Sp & Hin & _).
  exists r, w'. repeat split; try assumption; apply Hin.
Defined.

Lemma delete_removes_the_thread_witness :
  let req := request_of (Some carol) [] [("id", "1")] in
  exists r w', deleteComment (H := demo) req deep_world = (Ok r, w')
    /\ status r = 200
    /\ (forall d, In d (comments w')
                  <-> In d (comments deep_world) /\ c_id d <> 1
                      /\ ~ descends (comments deep_world) 1 d).
Proof.
  intros req.
  destruct (delete_removes_the_thread (H := demo) req deep_world nice_work carol
              (proj1 deep_world_ok) (proj2 (proj2 deep_world_ok))
              eq_refl eq_refl eq_refl)
    as (r & w' & E & St & _ & Hin & _).
  exists r, w'. auto.
Defined.

Lemma total_counts_hidden_replies_witness :
  let req := request_of None []
               [("entityType", "project"); ("entityId", "1")] in
  exists nodes total w',
    getEntityComments (H := demo) req deep_world
    = (Ok (mkResponse 200 true MsgNone
             (CommentList nodes total (List.length nodes))), w')
    /\ NoDup (visible nodes)
    /\ total
       = (List.length (visible nodes)
          + List.length
              (filter (fun d => Comment.matches "project" 1 d
                                && is_nested (comments deep_world) d)
                      (comments deep_world)))%nat.
Proof.
  intros req.
  destruct (total_counts_hidden_replies (H := demo) req deep_world 1
              (proj1 deep_world_ok) (proj2 (proj2 deep_world_ok))
              eq_refl (ex_intro _ 1 eq_refl) eq_refl)
    as (nodes & total & w' & E & Nd & _ & T).
  exists nodes, total, w'. auto.
Defined.

Lemma created_comment_is_listed_witness :
  let creq := request_of (Some bob)
                [("entityType", JStr "project"); ("entityId", JNum 1);
                 ("comment", JStr "thanks again"); ("parentId", JNum 1)] [] in
  let lreq := request_of None []
                [("entityType", "project"); ("entityId", "1")] in
  let c := mkComment 3 "project" 1 3 "thanks again" (Some 1) 30 in
  exists r w' nodes total w'',
    createComment (H := demo) creq thread_world = (Ok r, w')
    /\ status r = 201
    /\ getEntityComments (H := demo) lreq w'
       = (Ok (mkResponse 200 true MsgNone
                (CommentList nodes total (List.length nodes))), w'')
    /\ In c (visible nodes)
    /\ total = 3%nat.
Proof.
  intros creq lreq c.
  destruct (created_comment_is_listed (H := demo) creq lreq thread_world bob
              "project" 1 "thanks again" (Some 1) thread_world_ok)
    as (r & w' & nodes & total & w'' & E & St & L & Hin & _ & T);
    try reflexivity.
  - repeat (split; [reflexivity|]). exists 1. reflexivity.
  - cbn. tauto.
  - right. split; [reflexivity|]. exists nice_work.
    split; [reflexivity|]. split; [split; reflexivity|]. split; reflexivity.
  - exists 1. reflexivity.
  - exists r, w', nodes, total, w''. auto.
Defined.



Lemma resolved_invitation_is_final_witness :
  let accept := request_of (Some bob) [("response", JStr "accepted")]
                           [("invitationId", "1")] in
  let cancel := request_of (Some erin) [] [("invitationId", "1")] in
  let w' := snd (respondToInvitation (H := demo) accept invited_world) in
  (exists r2 w2, respondToInvitation (H := demo) cancel w' = (Ok r2, w2)
     /\ success r2 = false /\ tables_kept w' w2
     /\ (req_user cancel <> None ->
         includes ["accepted"; "declined"] (body cancel "response") = true ->
         status r2 = 404))
  /\ (exists r2 w2, cancelInvitation (H := demo) cancel w' = (Ok r2, w2)
        /\ success r2 = false /\ tables_kept w' w2
        /\ (req_user cancel <> None -> status r2 = 404)).
Proof.
  intros accept cancel w'.
  apply (resolved_invitation_is_final (H := demo) accept cancel invited_world
           (mkResponse 200 true MsgJoined
              (InvitationData
                 (Some (TeamInvitation.with_status Accepted
                          invitation_to_bob)))) w').
  - left. vm_compute. reflexivity.
  - reflexivity.
  - reflexivity.
Defined.


Lemma recent_by_user_witness :
  exists rows w',
    CommentModel.getRecentByUser 7 (Some 2%nat) busy_world = (Ok rows, w')
    /\ List.length rows = 2%nat
    /\ (forall c, In c rows -> In c (comments busy_world) /\ c_userId c = 7)
    /\ StronglySorted (fun a b => c_createdAt b <= c_createdAt a) rows.
Proof.
  destruct (recent_by_user 7 (Some 2%nat) busy_world)
    as (rows & w' & E & _ & L & M & Srt & _).
  exists rows, w'. auto.
Defined.

Lemma count_splits_witness :
  let req := request_of None [] [("entityType", "task"); ("entityId", "2")] in
  exists nodes total topLevel w',
    getEntityComments (H := demo) req busy_world
    = (Ok (mkResponse 200 true MsgNone (CommentList nodes total topLevel)), w')
    /\ fst (CommentModel.countByEntity "task" 2 busy_world) = Ok total
    /\ total
       = (topLevel
          + List.length
              (filter (fun c => Comment.matches "task" 2 c
                                && CommentModel.isReply c)
                      (comments busy_world)))%nat.
Proof.
  intros req.
  destruct (count_splits (H := demo) req busy_world 2 eq_refl
              (ex_intro _ 2 eq_refl) eq_refl)
    as (nodes & total & topLevel & w' & E & C & T & _).
  exists nodes, total, topLevel, w'. auto.
Defined.

Lemma team_route_roles_witness :
  let req := bearer_request "7" [("targetUserId", JNum 3)] [] in
  team_route (H := demo) managers (sendInvitation (H := demo)) req thread_world
  = (Ok (inr (mkRefusal 403 false (MsgRoleRefused "consultant"))),
     push_trace (Select TUser) thread_world).
Proof.
  intros req.
  apply (proj1 (team_route_roles (H := demo) managers
                  (sendInvitation (H := demo)) req thread_world "7" 7 alice
                  eq_refl eq_refl eq_refl eq_refl)).
  reflexivity.
Defined.

Lemma no_self_invitation_witness :
  let req := bearer_request "5" [("targetUserId", JNum 3); ("teamId", JNum 1)]
                            [] in
  let w' := snd (post_invitations (H := demo) req thread_world) in
  exists u team target i,
    User.lookup (u_id u) thread_world = Some u
    /\ includes managers (JStr (u_role u)) = true
    /\ User.lookup (u_id target) thread_world = Some target
    /\ u_role target = "consultant"
    /\ invitations w'
       = (TeamInvitation.purge (t_id team) (Some (u_id target))
                               (invitations thread_world) ++ [i])%list
    /\ i_teamId i = t_id team /\ t_managerId team = u_id u
    /\ i_invitedBy i = u_id u /\ i_userId i = u_id target
    /\ i_status i = Pending
    /\ i_invitedBy i <> i_userId i.
Proof.
  intros req w'.
  apply (no_self_invitation (H := demo) req thread_world
           (mkResponse 201 true MsgInvitationSent
              (InvitationData (Some invitation_to_bob))) w').
  - vm_compute. reflexivity.
  - reflexivity.
Defined.

Lemma remove_team_member_witness :
  let req := request_of (Some bob) [] [("teamId", "1"); ("memberId", "3")] in
  exists r s',
    removeTeamMember (H := demo) req (mkSite member_world []) = (Ok r, s')
    /\ rr_status r = 404
    /\ tables_kept member_world (store s').
Proof.
  intros req.
  destruct (remove_team_member (H := demo) req (mkSite member_world []))
    as (r & s' & E & F & _).
  exists r, s'. split; [exact E|].
  assert (Er : r = mkRemoveResponse 404 false MsgTeamNotFoundOrNotTheManager
                                    None).
  { vm_compute in E. now inversion E. }
  split; [now rewrite Er|]. apply F. now rewrite Er.
Defined.

Lemma remove_member_first_team_only_witness :
  let req := request_of (Some erin) [] [("teamId", "2"); ("memberId", "7")] in
  (exists s1,
     removeMember (H := demo) req (mkSite member_world [])
     = (Ok (mkRemoveResponse 404 false MsgMemberNotInYourTeam None), s1)
     /\ tables_kept member_world (store s1))
  /\ (exists s2,
        removeTeamMember (H := demo) req (mkSite member_world [])
        = (Ok (mkRemoveResponse 200 true MsgMemberRemoved None), s2)
        /\ tm_teamId (mkTeamMember 2 7 (JStr "member")) = 2
        /\ S (List.length (teamMembers (store s2))) = 2%nat).
Proof.
  intros req.
  apply (remove_member_first_team_only (H := demo) req
           (mkSite member_world []) erin (mkTeam 1 5) (mkTeam 2 5)
           (mkTeamMember 2 7 (JStr "member"))); try reflexivity.
  right. left. reflexivity.
Defined.


Lemma log_read_back_witness :
  let req := mkRequest None (Some "10.0.0.1") None None None (Some "curl")
                       (Some alice) (obj []) (str_params []) in
  let l := mkLog 1 "UPDATE_COMMENT" (DescUpdated "project" 1) "comment" 1
                 (Some (SnapBody (JStr "nice work")))
                 (Some (SnapBody (JStr "good work")))
                 7 (Some "10.0.0.1") (Some "curl") 30 in
  let w' := snd (createLog (H := demo) "UPDATE_COMMENT"
                   (DescUpdated "project" 1) "comment" 1
                   (Some (SnapBody (JStr "nice work")))
                   (Some (SnapBody (JStr "good work"))) 7 req thread_world) in
  exists views w'',
    LogModel.getLogsByEntity "comment" 1 w' = (Ok views, w'')
    /\ tables_kept w' w''
    /\ In (mkLogView l (Some 7)) views.
Proof.
  intros req l w'.
  destruct (log_read_back (H := demo) "UPDATE_COMMENT"
              (DescUpdated "project" 1)
              "comment" 1 (Some (SnapBody (JStr "nice work")))
              (Some (SnapBody (JStr "good work"))) 7 req thread_world l w')
    as (views & w'' & E & K & Hin & _).
  - vm_compute. reflexivity.
  - exists views, w''. auto.
Defined.

Lemma route_binds_identity_witness :
  let req := mkRequest (Some "Bearer 3") None None None None None (Some carol)
               (obj [("entityType", JStr "project"); ("entityId", JNum 1);
                     ("comment", JStr "thanks again")])
               (str_params []) in
  let w' := snd (route (H := demo) (createComment (H := demo)) req
                       thread_world) in
  exists u token c,
    (first_truthy [bearer_token req] = Some token
     /\ jwt_verify (Platform := demo) token = inl (u_id u)
     /\ User.lookup (u_id u) thread_world = Some u /\ u_isActive u = true)
    /\ comments w' = (comments thread_world ++ [c])%list
    /\ c_userId c = u_id u.
Proof.
  intros req w'.
  apply (proj1 (route_binds_identity (H := demo) req thread_world
                  (mkResponse 201 true MsgCommentCreated
                     (CommentData
                        (Some (mkView (mkComment 3 "project" 1 3 "thanks again"
                                                 None 30) (Some 3)))))
                  w' eq_refl)).
  vm_compute. reflexivity.
Defined.

Lemma accept_always_joins_witness :
  let req := request_of (Some bob) [("response", JStr "accepted")]
                        [("invitationId", "1")] in
  exists r w', respondToInvitation (H := demo) req invited_world = (Ok r, w')
    /\ status r = 200 /\ message r = MsgJoined
    /\ teamMembers w' = [mkTeamMember 1 3 (JStr "member")]
    /\ invitations w'
       = TeamInvitation.set_status 1 Accepted (invitations invited_world).
Proof.
  intros req.
  destruct (accept_always_joins (H := demo) invited_world invited_world_ok)
    as (_ & _ & A).
  exact (A req bob invitation_to_bob eq_refl eq_refl eq_refl).
Defined.
